(** * DebtGuardianAgent: slicing, confidence scoring, localization and
      aggregation, embedded from the Python sources.

    Python [str] values that are scanned character by character (source
    text, unit code, file lines) are lists of characters; characters are the
    code points below 256.  Names, labels and dictionary keys are [string]s.
    Python [dict]s are finite maps ([gmap]).  Integers are [Z] or [nat]
    (counts), and the few floating point values that occur (confidence
    levels, the accessor ratio, the per-file average) are exact rationals:
    the only operations performed on them are comparisons against the
    constants 0.5, 0.6, 0.8 and one division of two small integers. *)

From Stdlib Require Import ZArith QArith Lqa Ascii String List Lia Permutation.
From stdpp Require Import base option list gmap strings.
Import ListNotations.
Close Scope Q_scope.
Local Open Scope nat_scope.

(** ** Python string primitives *)
Module PyStr.

Abbreviation text := (list ascii).

Definition newline : ascii := "010"%char.
Definition dquote : ascii := "034"%char.
Definition squote : ascii := "'"%char.
Definition backslash : ascii := "\"%char.
Definition lbrace : ascii := "{"%char.
Definition rbrace : ascii := "}"%char.

Definition of_string (s : string) : text := list_ascii_of_string s.

(** [str.isspace] on one character (code points below 256). *)
Definition is_space (c : ascii) : bool :=
  match c with
  | "009" | "010" | "011" | "012" | "013"
  | "028" | "029" | "030" | "031" | " "
  | "133" | "160" => true
  | _ => false
  end%char.

Fixpoint lstrip (s : text) : text :=
  match s with
  | c :: s' => if is_space c then lstrip s' else s
  | [] => []
  end.

Definition rstrip (s : text) : text := rev (lstrip (rev s)).

(** [s.strip()] *)
Definition strip (s : text) : text := rstrip (lstrip s).

(** [s.startswith(p)] *)
Fixpoint startswith (p s : text) : bool :=
  match p, s with
  | [], _ => true
  | a :: p', b :: s' => Ascii.eqb a b && startswith p' s'
  | _ :: _, [] => false
  end.

(** [p in s] *)
Fixpoint contains (p s : text) : bool :=
  startswith p s ||
  match s with
  | [] => false
  | _ :: s' => contains p s'
  end.

(** [s.split('\n')] *)
Fixpoint split_lines (s : text) : list text :=
  match s with
  | [] => [[]]
  | c :: s' =>
      if Ascii.eqb c newline then [] :: split_lines s'
      else match split_lines s' with
           | l :: ls => (c :: l) :: ls
           | [] => [[c]]
           end
  end.

(** [s.find(c, start)] for a one-character needle: [None] is Python's -1. *)
Fixpoint find_from (c : ascii) (s : text) (start : nat) : option nat :=
  match start, s with
  | O, [] => None
  | O, x :: s' =>
      if Ascii.eqb x c then Some 0
      else option_map S (find_from c s' 0)
  | S n, [] => None
  | S n, _ :: s' => option_map S (find_from c s' n)
  end.

(** [s.find(p)] *)
Fixpoint find (p s : text) : option nat :=
  if startswith p s then Some 0
  else match s with
       | [] => None
       | _ :: s' => option_map S (find p s')
       end.

(** [s[a:b]] for non-negative bounds. *)
Definition slice (s : text) (a b : nat) : text := firstn (b - a) (skipn a s).

(** Python truthiness of a [str]. *)
Definition nonempty (s : text) : bool :=
  match s with [] => false | _ => true end.

End PyStr.

(** ** program_slicer.py: line counting and block extraction *)
Module Slicer.
Import PyStr.

Definition block_open : text := of_string "/*".
Definition block_close : text := of_string "*/".
Definition line_comment : text := of_string "//".

(** The body of the [for line in lines] loop of [_count_loc]; the state is
    [(loc, in_multiline_comment)]. *)
Definition count_loc_step (st : nat * bool) (line : text) : nat * bool :=
  let '(loc, in_multiline_comment) := st in
  let stripped := strip line in
  let in_multiline_comment :=
    if contains block_open stripped then true else in_multiline_comment in
  if contains block_close stripped then (loc, false)
  else if in_multiline_comment then (loc, in_multiline_comment)
  else if nonempty stripped && negb (startswith line_comment stripped)
       then (loc + 1, in_multiline_comment)
       else (loc, in_multiline_comment).

Definition _count_loc (code : text) : nat :=
  fst (fold_left count_loc_step (split_lines code) (0, false)).

(** Loop state of [_extract_block]. *)
Record scan := Scan {
  count : Z;
  in_string : bool;
  in_char : bool;
  escape : bool
}.

Definition scan_init : scan := Scan 0 false false false.

(** One iteration of the loop body on character [char]; the boolean says
    that the iteration executed [return source_code[start_pos:i+1]]. *)
Definition scan_char (st : scan) (char : ascii) : scan * bool :=
  if escape st then (Scan (count st) (in_string st) (in_char st) false, false)
  else if Ascii.eqb char backslash
  then (Scan (count st) (in_string st) (in_char st) true, false)
  else
    let '(in_string', in_char') :=
      if Ascii.eqb char dquote && negb (in_char st)
      then (negb (in_string st), in_char st)
      else if Ascii.eqb char squote && negb (in_string st)
      then (in_string st, negb (in_char st))
      else (in_string st, in_char st) in
    if negb in_string' && negb in_char' then
      if Ascii.eqb char lbrace
      then (Scan (count st + 1) in_string' in_char' false, false)
      else if Ascii.eqb char rbrace
      then (Scan (count st - 1) in_string' in_char' false,
            Z.eqb (count st - 1) 0)
      else (Scan (count st) in_string' in_char' false, false)
    else (Scan (count st) in_string' in_char' false, false).

(** [for i in range(i, len(source_code))] over the remaining characters
    [rest = source_code[i:]]; the result is the index at which the loop
    returned, [None] when it ran to the end. *)
Fixpoint scan_loop (st : scan) (i : nat) (rest : text) : option nat :=
  match rest with
  | [] => None
  | char :: rest' =>
      let '(st', ret) := scan_char st char in
      if ret then Some i else scan_loop st' (S i) rest'
  end.

Definition _extract_block (source_code : text) (start_pos : nat)
  : option text :=
  match find_from lbrace source_code start_pos with
  | None => None
  | Some brace_pos =>
      match scan_loop scan_init brace_pos (skipn brace_pos source_code) with
      | Some i => Some (slice source_code start_pos (i + 1))
      | None => None
      end
  end.

(** *** External libraries used by the slicer

    [re] and [javalang] are third-party code: the slicer is embedded over
    any implementation of the calls it makes. *)
Class Regex := {
  (** [re.escape(name)] *)
  re_escape : string -> text;
  (** [re.search(pattern, s)]: [match.start()] of the leftmost match. *)
  re_search : text -> text -> option nat;
  (** [re.finditer(pattern, s)]: [(match.start(), match.group(3))] of the
      successive matches. *)
  re_finditer : text -> text -> list (nat * string);
  (** [len(re.findall(pattern, s))] *)
  re_findall_len : text -> text -> nat;
  (** [re.sub(pattern, '', s, flags)]; the boolean is [re.S]. *)
  re_sub_empty : text -> bool -> text -> text
}.

Record MethodDeclaration := {
  md_name : string;
  md_parameters : nat          (* len(node.parameters) *)
}.

Record ClassDeclaration := {
  cd_name : string;
  cd_modifiers : list string;
  cd_methods : list MethodDeclaration;
  cd_fields : nat              (* len(node.fields) *)
}.

Class JavaParser := {
  (** [javalang.parse.parse(source_code)] followed by
      [tree.filter(javalang.tree.ClassDeclaration)]: the class declarations
      in traversal order, or [None] when the parser raises. *)
  parse_classes : text -> option (list ClassDeclaration)
}.

(** *** Units *)
Definition qn (n : nat) : Q := inject_Z (Z.of_nat n).
Definition qbool (b : bool) : Q := if b then 1%Q else 0%Q.

Record method_unit := {
  m_name : string;
  m_code : text;
  m_file_path : string;
  m_parent_class : option string;
  m_metrics : gmap string Q
}.

Record class_unit := {
  c_name : string;
  c_code : text;
  c_file_path : string;
  c_methods : list method_unit;
  c_metrics : gmap string Q
}.

Record slice_result := {
  r_file_path : string;
  r_classes : list class_unit;
  r_methods : list method_unit;
  r_total_loc : nat
}.

(** The attributes of a [ProgramSlicerAgent]. *)
Record ProgramSlicerAgent := {
  extract_metrics : bool;
  min_method_loc : Z;
  max_class_loc : Z
}.

(** [metrics.get(key, 0)] *)
Definition metrics_get (m : gmap string Q) (key : string) : Q :=
  default 0%Q (m !! key).

(** [s.count(p)]: non-overlapping occurrences, [skip] characters of the
    last occurrence still to pass over. *)
Fixpoint str_count_from (p : text) (skip : nat) (s : text) : nat :=
  match s with
  | [] => 0
  | _ :: s' =>
      match skip with
      | S k => str_count_from p k s'
      | O => if startswith p s
             then S (str_count_from p (length p - 1) s')
             else str_count_from p 0 s'
      end
  end.

Definition str_count (p s : text) : nat := str_count_from p 0 s.

(** The files the program reads.  [read_text path] is
    [open(path, 'r', encoding='utf-8').read()]: the content, or the message
    of the exception raised; a file is taken not to change while it is
    analysed.  [glob root pattern] is [Path(root).glob(pattern)]. *)
Class FileSystem := {
  read_text : string -> text + string;
  glob : string -> string -> list string
}.

(** What [slice_file] returns: the result of [slice_code], or
    [{'classes': [], 'methods': [], 'error': ...}]. *)
Inductive sliced :=
| Sliced (result : slice_result)
| SliceError (error : string).

Section WithLibraries.
Context `{RE : Regex} `{JP : JavaParser}.
Variable self : ProgramSlicerAgent.

Definition _strip_comments (code : text) : text :=
  let code := re_sub_empty (of_string "/\*.*?\*/") true code in
  re_sub_empty (of_string "//.*") false code.

Definition _estimate_complexity (code : text) : nat :=
  fold_left
    (fun complexity keyword =>
       if bool_decide (keyword ∈ ["&&"; "||"; "?"])
       then complexity + str_count (of_string keyword) code
       else complexity
            + re_findall_len
                (of_string "\b" ++ of_string keyword ++ of_string "\b")
                code)
    ["if"; "else"; "for"; "while"; "case"; "catch"; "&&"; "||"; "?"]
    1.

Definition _count_external_calls (code : text) : nat :=
  re_findall_len (of_string "\w+\.\w+\(") (_strip_comments code).

Definition class_header_pattern (class_name : string) : text :=
  of_string "(public\s+|private\s+|protected\s+)?(abstract\s+|final\s+)?class\s+"
  ++ re_escape class_name
  ++ of_string "\s*(?:<[^>]+>)?(?:\s+extends\s+\w+)?(?:\s+implements\s+[\w,\s]+)?\s*\{".

Definition method_header_pattern (method_name : string) : text :=
  of_string "(public|private|protected)?\s+(static\s+)?[\w<>\[\]]+\s+"
  ++ re_escape method_name
  ++ of_string "\s*\([^\)]*\)\s*(?:throws\s+[\w,\s]+)?\s*\{".

Definition _extract_class_code_by_name (source_code : text)
    (class_name : string) : option text :=
  match re_search (class_header_pattern class_name) source_code with
  | None => None
  | Some start_pos => _extract_block source_code start_pos
  end.

Definition _extract_method_code_by_name (source_code : text)
    (method_name : string) : option text :=
  match re_search (method_header_pattern method_name) source_code with
  | None => None
  | Some start_pos => _extract_block source_code start_pos
  end.

Definition _extract_method_from_ast (node : MethodDeclaration)
    (source_code : text) (file_path : string)
    (parent_class : option string) : option method_unit :=
  match _extract_method_code_by_name source_code (md_name node) with
  | None | Some [] => None
  | Some method_code =>
      let loc := _count_loc method_code in
      let metrics : gmap string Q :=
        if extract_metrics self then
          {[ "loc" := qn loc;
             "parameter_count" := qn (md_parameters node);
             "cyclomatic_complexity" := qn (_estimate_complexity method_code);
             "external_calls" := qn (_count_external_calls method_code) ]}
        else ∅ in
      Some {| m_name := md_name node; m_code := method_code;
              m_file_path := file_path; m_parent_class := parent_class;
              m_metrics := metrics |}
  end.

(** [_count_getters_setters] *)
Definition is_counted_accessor (method : method_unit) : bool :=
  (String.prefix "get" (m_name method)
   || String.prefix "set" (m_name method)
   || String.prefix "is" (m_name method))
  && Qle_bool (metrics_get (m_metrics method) "loc") 3.

Definition _count_getters_setters (methods : list method_unit) : nat :=
  length (filter (fun m => is_counted_accessor m = true) methods).

(** The [for method_node in node.methods] loop of
    [_extract_class_from_ast]: the retained methods. *)
Definition ast_methods (node : ClassDeclaration) (class_code : text)
    (file_path : string) : list method_unit :=
  omap
    (fun method_node =>
       match _extract_method_from_ast method_node class_code file_path
               (Some (cd_name node)) with
       | Some method_info =>
           if Qle_bool (inject_Z (min_method_loc self))
                (metrics_get (m_metrics method_info) "loc")
           then Some method_info else None
       | None => None
       end)
    (cd_methods node).

Definition _extract_class_from_ast (node : ClassDeclaration)
    (source_code : text) (file_path : string) : option class_unit :=
  let class_name := cd_name node in
  match _extract_class_code_by_name source_code class_name with
  | None | Some [] => None
  | Some class_code =>
      let loc := _count_loc class_code in
      if (max_class_loc self <? Z.of_nat loc)%Z then None
      else
        let methods := ast_methods node class_code file_path in
        let method_count := length (cd_methods node) in
        let field_count := cd_fields node in
        let metrics : gmap string Q :=
          if extract_metrics self then
            let getter_setter_count := _count_getters_setters methods in
            <[ "getter_setter_ratio" :=
                 if 0 <? method_count
                 then (qn getter_setter_count / qn method_count)%Q
                 else 0%Q ]>
              {[ "loc" := qn loc;
                 "method_count" := qn method_count;
                 "field_count" := qn field_count;
                 "is_abstract" :=
                   qbool (bool_decide ("abstract" ∈ cd_modifiers node)) ]}
          else ∅ in
        Some {| c_name := class_name; c_code := class_code;
                c_file_path := file_path; c_methods := methods;
                c_metrics := metrics |}
  end.

Definition method_finditer_pattern : text :=
  of_string "(public|private|protected)?\s+(static\s+)?[\w<>\[\]]+\s+(\w+)\s*\([^\)]*\)\s*(?:throws\s+[\w,\s]+)?\s*\{".

Definition class_finditer_pattern : text :=
  of_string "(public\s+|private\s+|protected\s+)?(abstract\s+|final\s+)?class\s+(\w+)".

Definition _extract_methods_regex (source_code : text)
    (file_path : string) : list method_unit :=
  omap
    (fun '(start_pos, method_name) =>
       if bool_decide (method_name ∈ ["get"; "set"; "is"]) then None
       else
         match _extract_block source_code start_pos with
         | None | Some [] => None
         | Some method_code =>
             let loc := _count_loc method_code in
             if (min_method_loc self <=? Z.of_nat loc)%Z then
               let metrics : gmap string Q :=
                 if extract_metrics self then {[ "loc" := qn loc ]}
                 else ∅ in
               Some {| m_name := method_name; m_code := method_code;
                       m_file_path := file_path; m_parent_class := None;
                       m_metrics := metrics |}
             else None
         end)
    (re_finditer method_finditer_pattern source_code).

Definition _extract_classes_regex (source_code : text)
    (file_path : string) : list class_unit :=
  omap
    (fun '(start_pos, class_name) =>
       match _extract_block source_code start_pos with
       | None | Some [] => None
       | Some class_code =>
           let loc := _count_loc class_code in
           if (Z.of_nat loc <=? max_class_loc self)%Z then
             let class_methods :=
               _extract_methods_regex class_code file_path in
             let metrics : gmap string Q :=
               if extract_metrics self then {[ "loc" := qn loc ]}
               else ∅ in
             let metrics :=
               match class_methods with
               | [] => metrics
               | _ => <[ "method_count" := qn (length class_methods) ]>
                        metrics
               end in
             Some {| c_name := class_name; c_code := class_code;
                     c_file_path := file_path;
                     c_methods := class_methods; c_metrics := metrics |}
           else None
       end)
    (re_finditer class_finditer_pattern source_code).

Definition slice_code (source_code : text) (file_path : string)
  : slice_result :=
  match parse_classes source_code with
  | Some nodes =>
      {| r_file_path := file_path;
         r_classes :=
           omap (fun node =>
                   _extract_class_from_ast node source_code file_path)
                nodes;
         r_methods := [];
         r_total_loc := _count_loc source_code |}
  | None =>
      {| r_file_path := file_path;
         r_classes := _extract_classes_regex source_code file_path;
         r_methods := _extract_methods_regex source_code file_path;
         r_total_loc := _count_loc source_code |}
  end.

Context `{FS : FileSystem}.

Definition slice_file (file_path : string) : sliced :=
  match read_text file_path with
  | inl source_code => Sliced (slice_code source_code file_path)
  | inr e => SliceError e
  end.

End WithLibraries.

End Slicer.

(** ** Python values, objects and exceptions *)
Module Py.

(** Values stored in configuration dictionaries and instance attributes. *)
#[warnings="-register-all"]
Inductive pyval :=
| PNone
| PBool (b : bool)
| PInt (z : Z)
| PFloat (q : Q)
| PStr (s : string)
| PList (l : list pyval)
| PDict (d : gmap string pyval)
| PMethod (name : string)
| PObject (cls : string) (attrs : gmap string pyval).

(** [bool(v)] *)
Definition truthy (v : pyval) : bool :=
  match v with
  | PNone => false
  | PBool b => b
  | PInt z => negb (z =? 0)%Z
  | PFloat q => negb (Qeq_bool q 0)
  | PStr s => negb (String.eqb s EmptyString)
  | PList l => match l with [] => false | _ => true end
  | PDict d => negb (bool_decide (d = ∅))
  | PMethod _ => true
  | PObject _ _ => true
  end.

(** [d.get(key, dflt)] *)
Definition dict_get (d : gmap string pyval) (key : string) (dflt : pyval)
  : pyval := default dflt (d !! key).

Inductive exn :=
| AttributeError (attr : string).

Inductive result (A : Type) :=
| Ok (a : A)
| Raise (e : exn).
Arguments Ok {A} a.
Arguments Raise {A} e.

(** An object under construction: its class namespace (the names of its
    methods) and its instance dictionary.  [__init__] bodies are
    computations over the instance dictionary that may raise. *)
Definition init (A : Type) : Type :=
  list string -> gmap string pyval -> result (A * gmap string pyval).

Definition ret {A} (a : A) : init A := fun _ d => Ok (a, d).

Definition bind {A B} (m : init A) (k : A -> init B) : init B :=
  fun cls d =>
    match m cls d with
    | Ok (a, d') => k a cls d'
    | Raise e => Raise e
    end.

(** [self.name = v] *)
Definition setattr (name : string) (v : pyval) : init unit :=
  fun _ d => Ok (tt, <[ name := v ]> d).

(** [self.name]: instance dictionary first, then the class namespace. *)
Definition getattr (name : string) : init pyval :=
  fun cls d =>
    match d !! name with
    | Some v => Ok (v, d)
    | None =>
        if bool_decide (name ∈ cls) then Ok (PMethod name, d)
        else Raise (AttributeError name)
    end.

(** [Cls(args)]: run [__init__] on a fresh instance. *)
Definition construct (cls : list string) (body : init unit)
  : result (gmap string pyval) :=
  match body cls ∅ with
  | Ok (_, d) => Ok d
  | Raise e => Raise e
  end.

End Py.

(** ** debt_detector.py *)
Module Detector.
Import PyStr Py.

(** What [agent.generate_reply] gives back: nothing, or a dictionary. *)
Inductive reply :=
| NoReply
| ReplyDict (d : gmap string text).

(** The model behind one detector agent. *)
Class Agent := { generate_reply : text -> reply }.

(** [{'error': ...}] or [{'start_line': ..., 'end_line': ...}]; absent
    keys are [None]. *)
Record location := {
  loc_start_line : option nat;
  loc_end_line : option nat;
  loc_file_path : option string;
  loc_approximate : option bool;
  loc_error : option string
}.

(** A detection result dictionary; a key the dictionary does not have is
    [None].  [d_debt_type] is always present, with value [None] or a
    name. *)
Record detection := {
  d_type : string;
  d_name : string;
  d_label : string;
  d_debt_type : option string;
  d_confidence : Q;
  d_metrics : option (gmap string Q);
  d_raw_response : option text;
  d_granularity : option string;
  d_error : option string;
  d_code : option text;
  d_file_path : option string;
  d_location : option location;
  d_explanation : option (option text);
  d_fix_suggestion : option (option text)
}.

Definition Qlt_bool (a b : Q) : bool := negb (Qle_bool b a).

Local Abbreviation metrics_get := Slicer.metrics_get.

Definition code_fence (task_prompt code : text) : text :=
  task_prompt ++ of_string "```java" ++ [newline] ++ code ++ [newline]
  ++ of_string "```".

(** [response and "content" in response], then [response["content"]]. *)
Definition reply_content (response : reply) : option text :=
  match response with
  | NoReply => None
  | ReplyDict d => d !! "content"
  end.

Definition no_response (type name : string) : detection :=
  {| d_type := type; d_name := name; d_label := "UNKNOWN";
     d_debt_type := None; d_confidence := 0.0%Q;
     d_metrics := None; d_raw_response := None; d_granularity := None;
     d_error := Some "No response from agent";
     d_code := None; d_file_path := None; d_location := None;
     d_explanation := None; d_fix_suggestion := None |}.

Module ClassDebtDetector.

Definition methods : list string :=
  ["__init__"; "_get_agent"; "detect"; "_normalize_label";
   "_label_to_debt_type"; "_calculate_confidence"].

Definition __init__ (agent_config : gmap string pyval) : init unit :=
  bind (setattr "config" (PDict agent_config)) (fun _ =>
  bind (setattr "model"
          (dict_get agent_config "model" (PStr "codestral:22b"))) (fun _ =>
  bind (setattr "base_url"
          (dict_get agent_config "base_url"
             (PStr "http://localhost:11434"))) (fun _ =>
  bind (setattr "api_key"
          (dict_get agent_config "api_key" (PStr "ollama"))) (fun _ =>
  bind (setattr "shot_type"
          (dict_get agent_config "shot" (PStr "few"))) (fun _ =>
  bind (setattr "temperature"
          (dict_get agent_config "temperature" (PFloat (0.1)))) (fun _ =>
  (* self.timeout is not assigned: the statement is commented out *)
  bind (getattr "model") (fun model =>
  bind (getattr "base_url") (fun base_url =>
  bind (getattr "api_key") (fun api_key =>
  bind (getattr "temperature") (fun temperature =>
  bind (getattr "timeout") (fun timeout =>
  bind (setattr "llm_config"
          (PDict {[ "config_list" :=
                      PList [PDict {[ "model" := model;
                                      "base_url" := base_url;
                                      "api_key" := api_key ]}];
                    "temperature" := temperature;
                    "timeout" := timeout;
                    "cache_seed" := PNone ]})) (fun _ =>
  setattr "_agent" PNone)))))))))))).

Definition new (agent_config : gmap string pyval)
  : result (gmap string pyval) :=
  construct methods (__init__ agent_config).

(** [re.search(r'[0-2]', text)]: the first character among 0, 1, 2. *)
Fixpoint _normalize_label (t : text) : string :=
  match t with
  | [] => "UNKNOWN"
  | c :: t' =>
      if Ascii.eqb c "0" then "0"
      else if Ascii.eqb c "1" then "1"
      else if Ascii.eqb c "2" then "2"
      else _normalize_label t'
  end.

Definition _label_to_debt_type (label : string) : option string :=
  ({[ "0" := "No Smell"; "1" := "Blob"; "2" := "Data Class" ]}
     : gmap string string) !! label.

Definition _calculate_confidence (label : string)
    (metrics : gmap string Q) : Q :=
  if String.eqb label "0" then 0.9
  else if String.eqb label "1" then
    let loc := metrics_get metrics "loc" in
    let method_count := metrics_get metrics "method_count" in
    if Qlt_bool 500 loc || Qlt_bool 20 method_count then 0.9
    else if Qlt_bool 300 loc || Qlt_bool 15 method_count then 0.75
    else 0.6
  else if String.eqb label "2" then
    let getter_setter_ratio := metrics_get metrics "getter_setter_ratio" in
    if Qlt_bool (0.8) getter_setter_ratio then 0.9
    else if Qlt_bool (0.6) getter_setter_ratio then 0.75
    else 0.6
  else 0.5.

Section Detect.
Context `{A : Agent}.
Variable TASK_PROMPT_CLASS_DETECTION : text.

Definition detect (class_info : Slicer.class_unit) : detection :=
  let code := Slicer.c_code class_info in
  let class_name := Slicer.c_name class_info in
  let metrics := Slicer.c_metrics class_info in
  let message := code_fence TASK_PROMPT_CLASS_DETECTION code in
  match reply_content (generate_reply message) with
  | Some content =>
      let raw_label := strip content in
      let label := _normalize_label raw_label in
      {| d_type := "class"; d_name := class_name; d_label := label;
         d_debt_type := _label_to_debt_type label;
         d_confidence := _calculate_confidence label metrics;
         d_metrics := Some metrics; d_raw_response := Some raw_label;
         d_granularity := Some "class"; d_error := None;
         d_code := None; d_file_path := None; d_location := None;
         d_explanation := None; d_fix_suggestion := None |}
  | None => no_response "class" class_name
  end.
End Detect.

End ClassDebtDetector.

Module MethodDebtDetector.

Definition methods : list string :=
  ["__init__"; "_get_agent"; "detect"; "_normalize_label";
   "_label_to_debt_type"; "_calculate_confidence"].

Definition __init__ (agent_config : gmap string pyval) : init unit :=
  bind (setattr "config" (PDict agent_config)) (fun _ =>
  bind (setattr "model"
          (dict_get agent_config "model" (PStr "qwen2.5-coder:7b"))) (fun _ =>
  bind (setattr "base_url"
          (dict_get agent_config "base_url"
             (PStr "http://localhost:11434"))) (fun _ =>
  bind (setattr "api_key"
          (dict_get agent_config "api_key" (PStr "ollama"))) (fun _ =>
  bind (setattr "shot_type"
          (dict_get agent_config "shot" (PStr "few"))) (fun _ =>
  bind (setattr "temperature"
          (dict_get agent_config "temperature" (PFloat (0.1)))) (fun _ =>
  bind (setattr "timeout"
          (dict_get agent_config "timeout" (PInt 300))) (fun _ =>
  bind (getattr "model") (fun model =>
  bind (getattr "base_url") (fun base_url =>
  bind (getattr "api_key") (fun api_key =>
  bind (getattr "temperature") (fun temperature =>
  bind (getattr "timeout") (fun timeout =>
  bind (setattr "llm_config"
          (PDict {[ "config_list" :=
                      PList [PDict {[ "model" := model;
                                      "base_url" := base_url;
                                      "api_key" := api_key ]}];
                    "temperature" := temperature;
                    "timeout" := timeout;
                    "cache_seed" := PNone ]})) (fun _ =>
  setattr "_agent" PNone))))))))))))).

Definition new (agent_config : gmap string pyval)
  : result (gmap string pyval) :=
  construct methods (__init__ agent_config).

Definition _normalize_label (t : text) : string :=
  if contains (of_string "3") t then "3"
  else if contains (of_string "4") t then "4"
  else if contains (of_string "0") t then "0"
  else "UNKNOWN".

Definition _label_to_debt_type (label : string) : option string :=
  ({[ "0" := "No Smell"; "3" := "Feature Envy"; "4" := "Long Method" ]}
     : gmap string string) !! label.

Definition _calculate_confidence (label : string)
    (metrics : gmap string Q) : Q :=
  if String.eqb label "0" then 0.9
  else if String.eqb label "3" then
    let external_calls := metrics_get metrics "external_calls" in
    if Qle_bool 7 external_calls then 0.9
    else if Qle_bool 5 external_calls then 0.75
    else 0.6
  else if String.eqb label "4" then
    let loc := metrics_get metrics "loc" in
    let complexity := metrics_get metrics "cyclomatic_complexity" in
    if Qle_bool 25 loc || Qle_bool 15 complexity then 0.9
    else if Qle_bool 15 loc || Qle_bool 10 complexity then 0.75
    else 0.6
  else 0.5.

Section Detect.
Context `{A : Agent}.
Variable TASK_PROMPT_METHOD_DETECTION : text.

Definition detect (method_info : Slicer.method_unit) : detection :=
  let code := Slicer.m_code method_info in
  let method_name := Slicer.m_name method_info in
  let metrics := Slicer.m_metrics method_info in
  let message := code_fence TASK_PROMPT_METHOD_DETECTION code in
  match reply_content (generate_reply message) with
  | Some content =>
      let raw_label := strip content in
      let label := _normalize_label raw_label in
      {| d_type := "method"; d_name := method_name; d_label := label;
         d_debt_type := _label_to_debt_type label;
         d_confidence := _calculate_confidence label metrics;
         d_metrics := Some metrics; d_raw_response := Some raw_label;
         d_granularity := Some "method"; d_error := None;
         d_code := None; d_file_path := None; d_location := None;
         d_explanation := None; d_fix_suggestion := None |}
  | None => no_response "method" method_name
  end.
End Detect.

End MethodDebtDetector.

Module LocalizationAgent.

Definition methods : list string := ["__init__"; "localize"].

Definition __init__ (agent_config : gmap string pyval) : init unit :=
  bind (setattr "config" (PDict agent_config)) (fun _ =>
  setattr "use_ast" (dict_get agent_config "use_ast" (PBool true))).

Definition new (agent_config : gmap string pyval)
  : result (gmap string pyval) :=
  construct methods (__init__ agent_config).

(** The regular expression [\s+] followed by [k], at the head of [s]. *)
Fixpoint spaces_then (k : text -> bool) (s : text) : bool :=
  match s with
  | c :: s' => is_space c && (k s' || spaces_then k s')
  | [] => false
  end.

(** [re.search(p, s)] is not [None], for a pattern [p] given by its
    matcher at the head of a text. *)
Fixpoint search (m : text -> bool) (s : text) : bool :=
  m s || match s with [] => false | _ :: s' => search m s' end.

(** [rf'class\s+{re.escape(name)}'] at the head of [s]. *)
Definition class_pattern (name : text) (s : text) : bool :=
  startswith (of_string "class") s
  && spaces_then (startswith name) (skipn 5 s).

(** [rf'\s+{re.escape(name)}\s*\('] at the head of [s]. *)
Definition method_pattern (name : text) (s : text) : bool :=
  spaces_then
    (fun r => startswith name r
              && startswith (of_string "(") (lstrip (skipn (length name) r)))
    s.

(** [for i, line in enumerate(lines): if P(line): ... i + 1 ...; break] *)
Definition first_line_number (P : text -> bool) (lines : list text)
  : option nat :=
  option_map (fun '(i, _) => i + 1) (list_find (fun l => P l = true) lines).

Definition file_path_or_unknown (debt_result : detection) : string :=
  default "unknown" (d_file_path debt_result).

Definition set_location (debt_result : detection) (l : location)
  : detection :=
  {| d_type := d_type debt_result; d_name := d_name debt_result;
     d_label := d_label debt_result;
     d_debt_type := d_debt_type debt_result;
     d_confidence := d_confidence debt_result;
     d_metrics := d_metrics debt_result;
     d_raw_response := d_raw_response debt_result;
     d_granularity := d_granularity debt_result;
     d_error := d_error debt_result; d_code := d_code debt_result;
     d_file_path := d_file_path debt_result;
     d_location := Some l;
     d_explanation := d_explanation debt_result;
     d_fix_suggestion := d_fix_suggestion debt_result |}.

Definition error_location (msg : string) (file_path : option string)
  : location :=
  {| loc_start_line := None; loc_end_line := None;
     loc_file_path := file_path; loc_approximate := None;
     loc_error := Some msg |}.

Definition localize (debt_result : detection)
    (source_file_content : text) : detection :=
  let code_snippet := default [] (d_code debt_result) in
  let name := of_string (d_name debt_result) in
  if negb (nonempty code_snippet) || negb (nonempty source_file_content)
  then set_location debt_result
         (error_location "Missing code or source file" None)
  else
    let lines := split_lines source_file_content in
    let snippet_lines := split_lines (strip code_snippet) in
    let first_line := strip (hd [] snippet_lines) in
    match first_line_number
            (fun line => contains first_line (strip line)) lines with
    | Some start_line =>
        let end_line := start_line + length snippet_lines - 1 in
        set_location debt_result
          {| loc_start_line := Some start_line;
             loc_end_line := Some end_line;
             loc_file_path := Some (file_path_or_unknown debt_result);
             loc_approximate := None; loc_error := None |}
    | None =>
        let pattern :=
          if String.eqb (d_type debt_result) "class"
          then class_pattern name else method_pattern name in
        match first_line_number (search pattern) lines with
        | Some start_line =>
            let end_line := start_line + length snippet_lines in
            set_location debt_result
              {| loc_start_line := Some start_line;
                 loc_end_line := Some end_line;
                 loc_file_path := Some (file_path_or_unknown debt_result);
                 loc_approximate := Some true; loc_error := None |}
        | None =>
            match d_location debt_result with
            | Some _ => debt_result
            | None =>
                set_location debt_result
                  (error_location "Could not localize code"
                     (Some (file_path_or_unknown debt_result)))
            end
        end
    end.

End LocalizationAgent.

(** [ExplanationAgent] and [FixSuggestionAgent] share their shape: an
    [__init__] that only stores configuration, and one call to the model
    whose stripped answer is attached to the result. *)
Module ExplanationAgent.

Definition methods : list string := ["__init__"; "_get_agent"; "explain"].

Definition __init__ (agent_config : gmap string pyval) : init unit :=
  bind (setattr "config" (PDict agent_config)) (fun _ =>
  bind (setattr "model"
          (dict_get agent_config "model" (PStr "codestral:22b"))) (fun _ =>
  bind (setattr "base_url"
          (dict_get agent_config "base_url"
             (PStr "http://localhost:11434"))) (fun _ =>
  bind (setattr "api_key"
          (dict_get agent_config "api_key" (PStr "ollama"))) (fun _ =>
  bind (setattr "temperature"
          (dict_get agent_config "temperature" (PFloat (0.1)))) (fun _ =>
  bind (setattr "max_tokens"
          (dict_get agent_config "max_tokens" (PInt 1000))) (fun _ =>
  bind (getattr "model") (fun model =>
  bind (getattr "base_url") (fun base_url =>
  bind (getattr "api_key") (fun api_key =>
  bind (getattr "temperature") (fun temperature =>
  bind (getattr "max_tokens") (fun max_tokens =>
  bind (setattr "llm_config"
          (PDict {[ "config_list" :=
                      PList [PDict {[ "model" := model;
                                      "base_url" := base_url;
                                      "api_key" := api_key ]}];
                    "temperature" := temperature;
                    "max_tokens" := max_tokens;
                    "cache_seed" := PNone ]})) (fun _ =>
  setattr "_agent" PNone)))))))))))).

Definition new (agent_config : gmap string pyval)
  : result (gmap string pyval) :=
  construct methods (__init__ agent_config).

Definition set_explanation (debt_result : detection) (e : option text)
  : detection :=
  {| d_type := d_type debt_result; d_name := d_name debt_result;
     d_label := d_label debt_result;
     d_debt_type := d_debt_type debt_result;
     d_confidence := d_confidence debt_result;
     d_metrics := d_metrics debt_result;
     d_raw_response := d_raw_response debt_result;
     d_granularity := d_granularity debt_result;
     d_error := d_error debt_result; d_code := d_code debt_result;
     d_file_path := d_file_path debt_result;
     d_location := d_location debt_result;
     d_explanation := Some e;
     d_fix_suggestion := d_fix_suggestion debt_result |}.

Section Explain.
Context `{A : Agent}.
(** The f-string prompt built from the result. *)
Variable prompt : detection -> text.

Definition explain (debt_result : detection) : detection :=
  match d_debt_type debt_result with
  | None => set_explanation debt_result None
  | Some debt_type =>
      if String.eqb debt_type EmptyString
         || String.eqb debt_type "No Smell"
      then set_explanation debt_result None
      else
        match reply_content (generate_reply (prompt debt_result)) with
        | Some content =>
            set_explanation debt_result (Some (strip content))
        | None =>
            set_explanation debt_result
              (Some (of_string "Could not generate explanation"))
        end
  end.
End Explain.

End ExplanationAgent.

Module FixSuggestionAgent.

Definition methods : list string :=
  ["__init__"; "_get_agent"; "suggest_fix"].

Definition __init__ (agent_config : gmap string pyval) : init unit :=
  bind (setattr "config" (PDict agent_config)) (fun _ =>
  bind (setattr "model"
          (dict_get agent_config "model" (PStr "codestral:22b"))) (fun _ =>
  bind (setattr "base_url"
          (dict_get agent_config "base_url"
             (PStr "http://localhost:11434"))) (fun _ =>
  bind (setattr "api_key"
          (dict_get agent_config "api_key" (PStr "ollama"))) (fun _ =>
  bind (setattr "temperature"
          (dict_get agent_config "temperature" (PFloat (0.1)))) (fun _ =>
  bind (setattr "max_tokens"
          (dict_get agent_config "max_tokens" (PInt 2000))) (fun _ =>
  bind (setattr "validate_fixes"
          (dict_get agent_config "validate_fixes" (PBool false))) (fun _ =>
  bind (getattr "model") (fun model =>
  bind (getattr "base_url") (fun base_url =>
  bind (getattr "api_key") (fun api_key =>
  bind (getattr "temperature") (fun temperature =>
  bind (getattr "max_tokens") (fun max_tokens =>
  bind (setattr "llm_config"
          (PDict {[ "config_list" :=
                      PList [PDict {[ "model" := model;
                                      "base_url" := base_url;
                                      "api_key" := api_key ]}];
                    "temperature" := temperature;
                    "max_tokens" := max_tokens;
                    "cache_seed" := PNone ]})) (fun _ =>
  setattr "_agent" PNone))))))))))))).

Definition new (agent_config : gmap string pyval)
  : result (gmap string pyval) :=
  construct methods (__init__ agent_config).

Definition set_fix_suggestion (debt_result : detection) (e : option text)
  : detection :=
  {| d_type := d_type debt_result; d_name := d_name debt_result;
     d_label := d_label debt_result;
     d_debt_type := d_debt_type debt_result;
     d_confidence := d_confidence debt_result;
     d_metrics := d_metrics debt_result;
     d_raw_response := d_raw_response debt_result;
     d_granularity := d_granularity debt_result;
     d_error := d_error debt_result; d_code := d_code debt_result;
     d_file_path := d_file_path debt_result;
     d_location := d_location debt_result;
     d_explanation := d_explanation debt_result;
     d_fix_suggestion := Some e |}.

Section Suggest.
Context `{A : Agent}.
Variable prompt : detection -> text.

Definition suggest_fix (debt_result : detection) : detection :=
  match d_debt_type debt_result with
  | None => set_fix_suggestion debt_result None
  | Some debt_type =>
      if String.eqb debt_type EmptyString
         || String.eqb debt_type "No Smell"
      then set_fix_suggestion debt_result None
      else
        match reply_content (generate_reply (prompt debt_result)) with
        | Some content =>
            set_fix_suggestion debt_result (Some (strip content))
        | None =>
            set_fix_suggestion debt_result
              (Some (of_string "Could not generate fix suggestion"))
        end
  end.
End Suggest.

End FixSuggestionAgent.

End Detector.

(** ** config.py: the default agent configuration *)
Module Config.
Import Py.

Definition AGENT_CONFIGS : gmap string (gmap string pyval) :=
  {[ "source_loader" := {[ "enabled" := PBool true ]};
     "program_slicer" :=
       {[ "enabled" := PBool true; "extract_metrics" := PBool true;
          "min_method_loc" := PInt 3; "max_class_loc" := PInt 2000 ]};
     "class_detector" :=
       {[ "model" := PStr "codestral:22b";
          "base_url" := PStr "http://localhost:11434";
          "api_key" := PStr "ollama"; "shot" := PStr "few";
          "timeout" := PInt 300; "temperature" := PFloat (0.1);
          "enabled" := PBool true ]};
     "method_detector" :=
       {[ "model" := PStr "qwen2.5-coder:7b";
          "base_url" := PStr "http://localhost:11434";
          "api_key" := PStr "ollama"; "shot" := PStr "zero";
          "timeout" := PInt 300; "temperature" := PFloat (0.1);
          "enabled" := PBool true ]};
     "localization" :=
       {[ "enabled" := PBool true; "use_ast" := PBool true ]};
     "explanation" :=
       {[ "model" := PStr "codestral:22b";
          "base_url" := PStr "http://localhost:11434";
          "api_key" := PStr "ollama"; "temperature" := PFloat (0.1);
          "max_tokens" := PInt 1000; "enabled" := PBool true ]};
     "fix_suggestion" :=
       {[ "model" := PStr "codestral:22b";
          "base_url" := PStr "http://localhost:11434";
          "api_key" := PStr "ollama"; "temperature" := PFloat (0.1);
          "max_tokens" := PInt 2000; "enabled" := PBool false;
          "validate_fixes" := PBool false ]};
     "coordinator" :=
       {[ "parallel_detection" := PBool true;
          "conflict_resolution_strategy" := PStr "prioritize_class";
          "min_confidence" := PFloat (0.5) ]} ]}.

Definition TD_CATEGORIES : gmap Z (gmap string string) :=
  {[ 0%Z := {[ "name" := "No Smell"; "granularity" := "any";
               "severity" := "none";
               "description" := "Code is clean and well-structured" ]};
     1%Z := {[ "name" := "Blob"; "granularity" := "class";
               "severity" := "high";
               "description" :=
                 "Class with too many responsibilities (God Class)" ]};
     2%Z := {[ "name" := "Data Class"; "granularity" := "class";
               "severity" := "medium";
               "description" :=
                 "Class with only getters/setters, no behavior" ]};
     3%Z := {[ "name" := "Feature Envy"; "granularity" := "method";
               "severity" := "medium";
               "description" :=
                 "Method heavily dependent on another class" ]};
     4%Z := {[ "name" := "Long Method"; "granularity" := "method";
               "severity" := "high";
               "description" := "Excessively long or complex method" ]} ]}.

Definition PIPELINE_CONFIG : gmap string pyval :=
  {[ "parallel_detection" := PBool true;
     "enable_localization" := PBool true;
     "enable_explanation" := PBool true;
     "enable_fix_suggestion" := PBool false;
     "batch_size" := PInt 10; "max_workers" := PInt 4 ]}.

End Config.

(** ** program_slicer.py: construction *)
Module ProgramSlicer.
Import Py.

Definition methods : list string :=
  ["__init__"; "slice_file"; "slice_code"; "_strip_comments";
   "_extract_class_from_ast"; "_extract_method_from_ast";
   "_extract_class_code_by_name"; "_extract_method_code_by_name";
   "_extract_classes_regex"; "_extract_methods_regex"; "_extract_block";
   "_count_loc"; "_estimate_complexity"; "_count_external_calls";
   "_count_getters_setters"].

(** [a or b] for a dictionary that may be [None]. *)
Definition dict_or (a : option (gmap string pyval))
    (b : gmap string pyval) : gmap string pyval :=
  match a with
  | Some d => if truthy (PDict d) then d else b
  | None => b
  end.

Definition __init__ (slicer_config : option (gmap string pyval))
  : init unit :=
  let config :=
    dict_or slicer_config
      (default ∅ (Config.AGENT_CONFIGS !! "program_slicer")) in
  bind (setattr "config" (PDict config)) (fun _ =>
  bind (setattr "extract_metrics"
          (dict_get config "extract_metrics" (PBool true))) (fun _ =>
  bind (setattr "min_method_loc"
          (dict_get config "min_method_loc" (PInt 3))) (fun _ =>
  setattr "max_class_loc" (dict_get config "max_class_loc" (PInt 1000))))).

Definition new (slicer_config : option (gmap string pyval))
  : result (gmap string pyval) :=
  construct methods (__init__ slicer_config).

End ProgramSlicer.

(** ** coordinator.py *)
Module Coordinator.
Import PyStr Py Detector.

(** *** Construction *)

(** [config.get(section, {})] *)
Definition section (config : gmap string (gmap string pyval))
    (name : string) : gmap string pyval :=
  default ∅ (config !! name).

(** [self.attr = Cls(cfg)] *)
Definition set_new (attr cls : string)
    (r : result (gmap string pyval)) : init unit :=
  fun _ d =>
    match r with
    | Ok o => Ok (tt, <[ attr := PObject cls o ]> d)
    | Raise e => Raise e
    end.

(** [if cfg.get('enabled', dflt): body] *)
Definition when_enabled (cfg : gmap string pyval) (dflt : bool)
    (body : init unit) : init unit :=
  if truthy (dict_get cfg "enabled" (PBool dflt)) then body else ret tt.

Definition _initialize_agents (config : gmap string (gmap string pyval))
  : init unit :=
  let class_config := section config "class_detector" in
  bind (when_enabled class_config true
          (set_new "class_detector" "ClassDebtDetector"
             (ClassDebtDetector.new class_config))) (fun _ =>
  let method_config := section config "method_detector" in
  bind (when_enabled method_config true
          (set_new "method_detector" "MethodDebtDetector"
             (MethodDebtDetector.new method_config))) (fun _ =>
  let loc_config := section config "localization" in
  bind (when_enabled loc_config true
          (set_new "localizer" "LocalizationAgent"
             (LocalizationAgent.new loc_config))) (fun _ =>
  let exp_config := section config "explanation" in
  bind (when_enabled exp_config true
          (set_new "explainer" "ExplanationAgent"
             (ExplanationAgent.new exp_config))) (fun _ =>
  let fix_config := section config "fix_suggestion" in
  when_enabled fix_config false
    (set_new "fix_suggester" "FixSuggestionAgent"
       (FixSuggestionAgent.new fix_config)))))).

Definition methods : list string :=
  ["__init__"; "_initialize_agents"; "analyze_file"; "_detect_class_debts";
   "_detect_method_debts"; "_post_process"; "_generate_summary";
   "analyze_repository"; "_aggregate_repo_summary"].

Definition __init__ (config : option (gmap string (gmap string pyval)))
  : init unit :=
  let config := default Config.AGENT_CONFIGS config in
  bind (setattr "config" (PDict (PDict <$> config))) (fun _ =>
  bind (setattr "class_detector" PNone) (fun _ =>
  bind (setattr "method_detector" PNone) (fun _ =>
  bind (setattr "localizer" PNone) (fun _ =>
  bind (setattr "explainer" PNone) (fun _ =>
  bind (setattr "fix_suggester" PNone) (fun _ =>
  let coordinator_config := section config "coordinator" in
  bind (setattr "parallel_detection"
          (dict_get coordinator_config "parallel_detection"
             (PBool false))) (fun _ =>
  bind (setattr "conflict_strategy"
          (dict_get coordinator_config "conflict_resolution_strategy"
             (PStr "prioritize_class"))) (fun _ =>
  bind (setattr "min_confidence"
          (dict_get coordinator_config "min_confidence"
             (PFloat (0.5)))) (fun _ =>
  _initialize_agents config))))))))).

Definition new (config : option (gmap string (gmap string pyval)))
  : result (gmap string pyval) :=
  construct methods (__init__ config).

(** *** Analysis *)

(** [concurrent.futures.as_completed]: the results come back in some order
    of completion. *)
Class Scheduler := {
  as_completed : list detection -> list detection;
  as_completed_perm : forall l, Permutation (as_completed l) l
}.

(** The attributes of a constructed coordinator that the analysis reads. *)
Record coordinator := {
  class_detector : option Agent;
  method_detector : option Agent;
  localizer : bool;
  explainer : option Agent;
  fix_suggester : option Agent;
  parallel_detection : bool;
  min_confidence : Q
}.

Record summary := {
  s_total_debts : nat;
  s_by_type : gmap (option string) nat;
  s_by_granularity : gmap string nat;
  s_high_confidence : nat
}.

Record file_analysis := {
  fa_file_path : string;
  fa_total_detections : nat;
  fa_filtered_detections : nat;
  fa_debts : list detection;
  fa_summary : summary
}.

(** [counts[key] = counts.get(key, 0) + 1] *)
Definition bump `{Countable K} (key : K) (counts : gmap K nat)
  : gmap K nat :=
  <[ key := default 0 (counts !! key) + 1 ]> counts.

(** [if key in counts: counts[key] += 1] *)
Definition bump_known (key : string) (counts : gmap string nat)
  : gmap string nat :=
  match counts !! key with
  | Some n => <[ key := n + 1 ]> counts
  | None => counts
  end.

Definition is_no_smell (r : detection) : bool := String.eqb (d_label r) "0".

(** An entry of [file_results] in [analyze_repository]: the analysis of a
    file, or [{'file_path': ..., 'error': ...}]. *)
Inductive repo_file_result :=
| Analysed (file_result : file_analysis)
| Failed (file_path : string) (error : string).

Record repo_summary := {
  rs_total_debts : nat;
  rs_by_type : gmap (option string) nat;
  rs_by_granularity : gmap string nat;
  rs_high_confidence : nat;
  rs_files_with_debts : nat
}.

Record repo_results := {
  rr_repo_path : string;
  rr_total_files : nat;
  rr_analyzed_files : nat;
  rr_total_debts : nat;
  rr_file_results : list repo_file_result;
  rr_summary : option repo_summary      (* [{}] until the loop is over *)
}.

(** [for key, count in counts.items():
        total[key] = total.get(key, 0) + count] *)
Definition add_counts `{Countable K} (counts total : gmap K nat)
  : gmap K nat :=
  map_fold (fun key count total =>
              <[ key := default 0 (total !! key) + count ]> total)
           total counts.

(** [for key, count in counts.items():
        if key in total: total[key] += count] *)
Definition add_known_counts (counts total : gmap string nat)
  : gmap string nat :=
  map_fold (fun key count total =>
              match total !! key with
              | Some n => <[ key := n + count ]> total
              | None => total
              end)
           total counts.

(** The body of the loop of [_aggregate_repo_summary]. *)
Definition add_summary (total_summary : repo_summary)
    (file_result : repo_file_result) : repo_summary :=
  match file_result with
  | Failed _ _ => total_summary
  | Analysed file_result =>
      let summary := fa_summary file_result in
      {| rs_total_debts :=
           rs_total_debts total_summary + s_total_debts summary;
         rs_by_type :=
           add_counts (s_by_type summary) (rs_by_type total_summary);
         rs_by_granularity :=
           add_known_counts (s_by_granularity summary)
             (rs_by_granularity total_summary);
         rs_high_confidence :=
           rs_high_confidence total_summary + s_high_confidence summary;
         rs_files_with_debts :=
           if 0 <? s_total_debts summary
           then rs_files_with_debts total_summary + 1
           else rs_files_with_debts total_summary |}
  end.

Definition _aggregate_repo_summary (file_results : list repo_file_result)
  : repo_summary :=
  fold_left add_summary file_results
    {| rs_total_debts := 0; rs_by_type := ∅;
       rs_by_granularity := {[ "class" := 0; "method" := 0 ]};
       rs_high_confidence := 0; rs_files_with_debts := 0 |}.

(** What [analyze_file] reads of the dictionary [slice_file] returns:
    [get('file_path', 'unknown')], [get('classes', [])] and
    [get('methods', [])]. *)
Definition sliced_data_read (sliced_data : Slicer.sliced)
  : Slicer.slice_result :=
  match sliced_data with
  | Slicer.Sliced result => result
  | Slicer.SliceError _ =>
      {| Slicer.r_file_path := "unknown"; Slicer.r_classes := [];
         Slicer.r_methods := []; Slicer.r_total_loc := 0 |}
  end.

Section Analysis.
Context `{Sch : Scheduler}.
Variable self : coordinator.
Variables TASK_PROMPT_CLASS_DETECTION TASK_PROMPT_METHOD_DETECTION : text.
Variables explanation_prompt fix_prompt : detection -> text.

Definition dispatch {U} (detect : U -> detection) (units : list U)
  : list detection :=
  if parallel_detection self && (1 <? length units)
  then as_completed (map detect units)
  else map detect units.

Definition _detect_class_debts (detector : Agent)
    (classes : list Slicer.class_unit) : list detection :=
  let results :=
    dispatch (@ClassDebtDetector.detect detector
                TASK_PROMPT_CLASS_DETECTION) classes in
  filter (fun r => is_no_smell r = false) results.

Definition _detect_method_debts (detector : Agent)
    (methods : list Slicer.method_unit) : list detection :=
  let results :=
    dispatch (@MethodDebtDetector.detect detector
                TASK_PROMPT_METHOD_DETECTION) methods in
  filter (fun r => is_no_smell r = false) results.

Definition _post_process (detections : list detection)
    (source_content : text) : list detection :=
  map (fun detection =>
         let detection :=
           if localizer self
           then LocalizationAgent.localize detection source_content
           else detection in
         let detection :=
           match explainer self with
           | Some a => @ExplanationAgent.explain a explanation_prompt
                         detection
           | None => detection
           end in
         match fix_suggester self with
         | Some a => @FixSuggestionAgent.suggest_fix a fix_prompt detection
         | None => detection
         end)
      detections.

Definition _generate_summary (detections : list detection) : summary :=
  fold_left
    (fun s detection =>
       {| s_total_debts := s_total_debts s;
          s_by_type := bump (d_debt_type detection) (s_by_type s);
          s_by_granularity :=
            bump_known (default "unknown" (d_granularity detection))
              (s_by_granularity s);
          s_high_confidence :=
            if Qle_bool (0.8) (d_confidence detection)
            then s_high_confidence s + 1 else s_high_confidence s |})
    detections
    {| s_total_debts := length detections; s_by_type := ∅;
       s_by_granularity := {[ "class" := 0; "method" := 0 ]};
       s_high_confidence := 0 |}.

(** The list [all_detections] of [analyze_file]. *)
Definition all_detections (classes : list Slicer.class_unit)
    (methods : list Slicer.method_unit) : list detection :=
  (match class_detector self, classes with
   | Some detector, _ :: _ => _detect_class_debts detector classes
   | _, _ => []
   end)
  ++ (match method_detector self, methods with
      | Some detector, _ :: _ => _detect_method_debts detector methods
      | _, _ => []
      end)
  ++ (match method_detector self with
      | Some detector =>
          concat
            (map (fun class_info =>
                    match Slicer.c_methods class_info with
                    | [] => []
                    | class_methods =>
                        _detect_method_debts detector class_methods
                    end)
                 classes)
      | None => []
      end).

Definition confidence_filter (detections : list detection)
  : list detection :=
  filter (fun d => Qle_bool (min_confidence self) (d_confidence d) = true)
         detections.

Definition analyze_file (sliced_data : Slicer.slice_result)
    (source_file_content : option text) : file_analysis :=
  let file_path := Slicer.r_file_path sliced_data in
  let all := all_detections (Slicer.r_classes sliced_data)
               (Slicer.r_methods sliced_data) in
  let filtered_detections := confidence_filter all in
  let filtered_detections :=
    match source_file_content with
    | Some (c :: s) => _post_process filtered_detections (c :: s)
    | _ => filtered_detections
    end in
  {| fa_file_path := file_path;
     fa_total_detections := length all;
     fa_filtered_detections := length filtered_detections;
     fa_debts := filtered_detections;
     fa_summary := _generate_summary filtered_detections |}.

(** *** Repositories *)

Context `{RE : Slicer.Regex} `{JP : Slicer.JavaParser}
  `{FS : Slicer.FileSystem}.

(** The agent that [ProgramSlicerAgent()] constructs. *)
Variable slicer : Slicer.ProgramSlicerAgent.

(** The body of the [try] of [analyze_repository]: the analysis of the
    file, or the message of the exception raised. *)
Definition analyze_path (file_path : string) : file_analysis + string :=
  let sliced_data := Slicer.slice_file slicer file_path in
  match Slicer.read_text file_path with
  | inl source_content =>
      inl (analyze_file (sliced_data_read sliced_data)
             (Some source_content))
  | inr e => inr e
  end.

Definition analyze_repository (repo_path : string)
    (file_patterns : list string) : repo_results :=
  let all_files := concat (map (Slicer.glob repo_path) file_patterns) in
  let repo_results :=
    fold_left
      (fun repo_results file_path =>
         match analyze_path file_path with
         | inl file_result =>
             {| rr_repo_path := rr_repo_path repo_results;
                rr_total_files := rr_total_files repo_results;
                rr_analyzed_files := rr_analyzed_files repo_results + 1;
                rr_total_debts :=
                  rr_total_debts repo_results
                  + fa_filtered_detections file_result;
                rr_file_results :=
                  rr_file_results repo_results ++ [Analysed file_result];
                rr_summary := rr_summary repo_results |}
         | inr e =>
             {| rr_repo_path := rr_repo_path repo_results;
                rr_total_files := rr_total_files repo_results;
                rr_analyzed_files := rr_analyzed_files repo_results;
                rr_total_debts := rr_total_debts repo_results;
                rr_file_results :=
                  rr_file_results repo_results ++ [Failed file_path e];
                rr_summary := rr_summary repo_results |}
         end)
      all_files
      {| rr_repo_path := repo_path; rr_total_files := length all_files;
         rr_analyzed_files := 0; rr_total_debts := 0;
         rr_file_results := []; rr_summary := None |} in
  {| rr_repo_path := rr_repo_path repo_results;
     rr_total_files := rr_total_files repo_results;
     rr_analyzed_files := rr_analyzed_files repo_results;
     rr_total_debts := rr_total_debts repo_results;
     rr_file_results := rr_file_results repo_results;
     rr_summary :=
       Some (_aggregate_repo_summary (rr_file_results repo_results)) |}.

End Analysis.

End Coordinator.

(** ** debt_guardian.py: repository-level aggregation *)
Module Guardian.
Import Detector.

(** One entry of [file_results]; [fr_debts] is [result.get('debts', [])]. *)
Record file_result := {
  fr_file_path : string;
  fr_status : option string;
  fr_error : option string;
  fr_debts : list detection
}.

Record aggregate := {
  total_debts : nat;
  by_type : gmap (option string) nat;
  by_granularity : gmap string nat;
  high_confidence_debts : nat;
  files_with_debts : nat;
  average_debts_per_file : Q
}.

Definition completed (result : file_result) : bool :=
  bool_decide (fr_status result = Some "completed").

(** [if debts:] *)
Definition has_debts (result : file_result) : bool :=
  match fr_debts result with [] => false | _ => true end.

(** The inner [for debt in debts] loop. *)
Definition add_debt (a : aggregate) (debt : detection) : aggregate :=
  {| total_debts := total_debts a;
     by_type := Coordinator.bump (d_debt_type debt) (by_type a);
     by_granularity :=
       Coordinator.bump_known (default "unknown" (d_granularity debt))
         (by_granularity a);
     high_confidence_debts :=
       if Qle_bool (0.8) (d_confidence debt)
       then high_confidence_debts a + 1 else high_confidence_debts a;
     files_with_debts := files_with_debts a;
     average_debts_per_file := average_debts_per_file a |}.

(** The body of [for result in file_results]; the state is the aggregate
    and [valid_files]. *)
Definition add_file (st : aggregate * nat) (result : file_result)
  : aggregate * nat :=
  let '(a, valid_files) := st in
  if negb (completed result) then (a, valid_files)
  else
    let debts := fr_debts result in
    let a :=
      {| total_debts := total_debts a + length debts;
         by_type := by_type a; by_granularity := by_granularity a;
         high_confidence_debts := high_confidence_debts a;
         files_with_debts :=
           match debts with
           | [] => files_with_debts a
           | _ => files_with_debts a + 1
           end;
         average_debts_per_file := average_debts_per_file a |} in
    (fold_left add_debt debts a, valid_files + 1).

Definition aggregate_init : aggregate :=
  {| total_debts := 0; by_type := ∅;
     by_granularity := {[ "class" := 0; "method" := 0 ]};
     high_confidence_debts := 0; files_with_debts := 0;
     average_debts_per_file := 0.0 |}.

Definition _aggregate_results (file_results : list file_result)
  : aggregate :=
  let '(a, valid_files) := fold_left add_file file_results
                             (aggregate_init, 0) in
  if 0 <? valid_files then
    {| total_debts := total_debts a; by_type := by_type a;
       by_granularity := by_granularity a;
       high_confidence_debts := high_confidence_debts a;
       files_with_debts := files_with_debts a;
       average_debts_per_file :=
         (Slicer.qn (total_debts a) / Slicer.qn valid_files)%Q |}
  else a.

(** *** Construction *)

(** What [DebtGuardian] is given as [config]: an object with the
    attributes of [config.py] ([PIPELINE_CONFIG] may be missing), or a
    dictionary. *)
Inductive configuration :=
| Settings (AGENT_CONFIGS : gmap string (gmap string Py.pyval))
    (PIPELINE_CONFIG : option (gmap string Py.pyval))
| Dict (d : gmap string Py.pyval).

(** The module [config]. *)
Definition cfg : configuration :=
  Settings Config.AGENT_CONFIGS (Some Config.PIPELINE_CONFIG).

Definition as_pyval (config : configuration) : Py.pyval :=
  match config with
  | Settings agent_configs pipeline_config =>
      Py.PObject "module"
        (<[ "AGENT_CONFIGS" := Py.PDict (Py.PDict <$> agent_configs) ]>
           (match pipeline_config with
            | Some d => {[ "PIPELINE_CONFIG" := Py.PDict d ]}
            | None => ∅
            end))
  | Dict d => Py.PDict d
  end.

Definition methods : list string :=
  ["__init__"; "analyze_file"; "analyze_directory"; "analyze_repository";
   "_aggregate_results"; "_format_as_report"; "save_results"].

Definition __init__ (config : option configuration) : Py.init unit :=
  let config := default cfg config in
  Py.bind (Py.setattr "config" (as_pyval config)) (fun _ =>
  match config with
  | Dict _ => fun _ _ => Py.Raise (Py.AttributeError "AGENT_CONFIGS")
  | Settings agent_configs pipeline_config =>
      Py.bind (Coordinator.set_new "slicer" "ProgramSlicerAgent"
                 (ProgramSlicer.new
                    (Some (default ∅ (agent_configs !! "program_slicer")))))
        (fun _ =>
      Py.bind (Coordinator.set_new "coordinator" "DebtDetectionCoordinator"
                 (Coordinator.new (Some agent_configs))) (fun _ =>
      let pipeline_config := default ∅ pipeline_config in
      Py.bind (Py.setattr "enable_localization"
                 (Py.dict_get pipeline_config "enable_localization"
                    (Py.PBool true))) (fun _ =>
      Py.bind (Py.setattr "enable_explanation"
                 (Py.dict_get pipeline_config "enable_explanation"
                    (Py.PBool true))) (fun _ =>
      Py.bind (Py.setattr "enable_fix_suggestion"
                 (Py.dict_get pipeline_config "enable_fix_suggestion"
                    (Py.PBool false))) (fun _ =>
      Py.setattr "batch_size"
        (Py.dict_get pipeline_config "batch_size" (Py.PInt 10)))))))
  end).

Definition new (config : option configuration)
  : Py.result (gmap string Py.pyval) :=
  Py.construct methods (__init__ config).

(** *** Files and directories *)

(** What [analyze_file] returns with [output_format='json']: the
    coordinator's results with the status [completed] (and the time taken
    and a timestamp, which are not modelled), or
    [{'file_path': ..., 'error': ..., 'status': 'failed'}]. *)
Inductive analysis :=
| Completed (results : Coordinator.file_analysis)
| Failure (file_path : string) (error : string).

(** [result.get('debts', [])] *)
Definition debts (result : analysis) : list detection :=
  match result with
  | Completed results => Coordinator.fa_debts results
  | Failure _ _ => []
  end.

(** The keys of a result that [analyze_directory] and [_aggregate_results]
    read. *)
Definition as_file_result (result : analysis) : file_result :=
  match result with
  | Completed results =>
      {| fr_file_path := Coordinator.fa_file_path results;
         fr_status := Some "completed"; fr_error := None;
         fr_debts := Coordinator.fa_debts results |}
  | Failure file_path error =>
      {| fr_file_path := file_path; fr_status := Some "failed";
         fr_error := Some error; fr_debts := [] |}
  end.

Record directory_results := {
  dr_directory : string;
  dr_total_files : nat;
  dr_analyzed_files : nat;
  dr_failed_files : nat;
  dr_file_results : list analysis;
  dr_aggregate_summary : option aggregate   (* [{}] until the loop is over *)
}.

Section Files.
Context `{Sch : Coordinator.Scheduler} `{RE : Slicer.Regex}
  `{JP : Slicer.JavaParser} `{FS : Slicer.FileSystem}.
(** [self.slicer] and [self.coordinator], with the prompts of [config]. *)
Variable slicer : Slicer.ProgramSlicerAgent.
Variable coordinator : Coordinator.coordinator.
Variables TASK_PROMPT_CLASS_DETECTION TASK_PROMPT_METHOD_DETECTION
  : PyStr.text.
Variables explanation_prompt fix_prompt : detection -> PyStr.text.

Definition analyze_file (file_path : string) : analysis :=
  match Slicer.slice_file slicer file_path with
  | Slicer.SliceError e => Failure file_path e
  | Slicer.Sliced sliced_data =>
      let source_content :=
        match Slicer.read_text file_path with
        | inl content => Some content
        | inr _ => None
        end in
      Completed
        (Coordinator.analyze_file coordinator TASK_PROMPT_CLASS_DETECTION
           TASK_PROMPT_METHOD_DETECTION explanation_prompt fix_prompt
           sliced_data source_content)
  end.

(** [self.analyze_file(str(file_path), output_format='json')] as the loop
    of [analyze_directory] calls it: its result, or the message of an
    exception it raises. *)
Variable try_analyze_file : string -> analysis + string.

Definition analyze_directory (directory file_extension : string)
    (recursive : bool) : directory_results :=
  let pattern :=
    if recursive then String.append "**/*" file_extension
    else String.append "*" file_extension in
  let files := Slicer.glob directory pattern in
  let results :=
    fold_left
      (fun results file_path =>
         match try_analyze_file file_path with
         | inl file_result =>
             {| dr_directory := dr_directory results;
                dr_total_files := dr_total_files results;
                dr_analyzed_files :=
                  if completed (as_file_result file_result)
                  then dr_analyzed_files results + 1
                  else dr_analyzed_files results;
                dr_failed_files :=
                  if completed (as_file_result file_result)
                  then dr_failed_files results
                  else dr_failed_files results + 1;
                dr_file_results := dr_file_results results ++ [file_result];
                dr_aggregate_summary := dr_aggregate_summary results |}
         | inr e =>
             {| dr_directory := dr_directory results;
                dr_total_files := dr_total_files results;
                dr_analyzed_files := dr_analyzed_files results;
                dr_failed_files := dr_failed_files results + 1;
                dr_file_results :=
                  dr_file_results results ++ [Failure file_path e];
                dr_aggregate_summary := dr_aggregate_summary results |}
         end)
      files
      {| dr_directory := directory; dr_total_files := length files;
         dr_analyzed_files := 0; dr_failed_files := 0;
         dr_file_results := []; dr_aggregate_summary := None |} in
  {| dr_directory := dr_directory results;
     dr_total_files := dr_total_files results;
     dr_analyzed_files := dr_analyzed_files results;
     dr_failed_files := dr_failed_files results;
     dr_file_results := dr_file_results results;
     dr_aggregate_summary :=
       Some (_aggregate_results
               (map as_file_result (dr_file_results results))) |}.

End Files.

End Guardian.

(** ** pipeline_adapter.py *)
Module Adapter.
Import PyStr Detector.

(** A detection in the format of the old backend; a key the dictionary
    does not have is [None]. *)
Record old_format := {
  o_file_path : string;
  o_code_name : string;
  o_code_type : string;
  o_detected_category_int : Z;
  o_confidence : Q;
  o_granularity : string;
  o_localization : option (nat * nat);
  o_explanation : option text;
  o_fix_suggestion : option text;
  o_code_snippet : option text
}.

(** A result, or the [KeyError] raised by a subscript. *)
Inductive outcome (A : Type) :=
| Returned (a : A)
| KeyError (key : string).
Arguments Returned {A} a.
Arguments KeyError {A} key.

Definition category_map : gmap string Z :=
  {[ "No Smell" := 0%Z; "Blob" := 1%Z; "Data Class" := 2%Z;
     "Feature Envy" := 3%Z; "Long Method" := 4%Z ]}.

(** [category_map.get(debt.get('debt_type', ''), 0)] *)
Definition category_int (debt : detection) : Z :=
  match d_debt_type debt with
  | Some debt_type => default 0%Z (category_map !! debt_type)
  | None => 0%Z
  end.

(** [location = debt.get('location', {})], then the entry built when
    ['start_line' in location]. *)
Definition localization (debt : detection) : outcome (option (nat * nat)) :=
  match d_location debt with
  | Some location =>
      match loc_start_line location with
      | Some start_line =>
          match loc_end_line location with
          | Some end_line => Returned (Some (start_line, end_line))
          | None => KeyError "end_line"
          end
      | None => Returned None
      end
  | None => Returned None
  end.

(** [if debt.get(key):], then [debt[key]]. *)
Definition text_if_any (value : option (option text)) : option text :=
  match value with
  | Some (Some (c :: s)) => Some (c :: s)
  | _ => None
  end.

(** [debt['code'][:1000]] when [debt.get('code')]. *)
Definition code_snippet (debt : detection) : option text :=
  match d_code debt with
  | Some (c :: s) => Some (take 1000 (c :: s))
  | _ => None
  end.

(** One round of the loop of [_convert_to_old_format]. *)
Definition convert_debt (file_path : string) (converted : list old_format)
    (debt : detection) : outcome (list old_format) :=
  let category_int := category_int debt in
  if (category_int =? 0)%Z then Returned converted
  else
    match localization debt with
    | KeyError key => KeyError key
    | Returned localization =>
        Returned
          (converted
           ++ [ {| o_file_path := file_path;
                   o_code_name := d_name debt;
                   o_code_type := default "unknown" (d_granularity debt);
                   o_detected_category_int := category_int;
                   o_confidence := d_confidence debt;
                   o_granularity := default "unknown" (d_granularity debt);
                   o_localization := localization;
                   o_explanation := text_if_any (d_explanation debt);
                   o_fix_suggestion := text_if_any (d_fix_suggestion debt);
                   o_code_snippet := code_snippet debt |} ])
    end.

Fixpoint convert_loop (file_path : string) (debts : list detection)
    (converted : list old_format) : outcome (list old_format) :=
  match debts with
  | [] => Returned converted
  | debt :: debts =>
      match convert_debt file_path converted debt with
      | Returned converted => convert_loop file_path debts converted
      | KeyError key => KeyError key
      end
  end.

Definition _convert_to_old_format (new_result : Guardian.analysis)
    (file_path : string) : outcome (list old_format) :=
  convert_loop file_path (Guardian.debts new_result) [].

Record report := {
  total_issues : nat;
  by_category : gmap string nat;
  by_severity : gmap string nat;
  by_granularity : gmap string nat
}.

Definition generate_report (results : list old_format) : report :=
  fold_left
    (fun r result =>
       let cat := o_detected_category_int result in
       if (0 <? cat)%Z then
         let cat_info := default ∅ (Config.TD_CATEGORIES !! cat) in
         let cat_name := default "Unknown" (cat_info !! "name") in
         let severity := default "low" (cat_info !! "severity") in
         {| total_issues := total_issues r;
            by_category := Coordinator.bump cat_name (by_category r);
            by_severity := Coordinator.bump severity (by_severity r);
            by_granularity :=
              Coordinator.bump_known (o_granularity result)
                (by_granularity r) |}
       else r)
    results
    {| total_issues := length results; by_category := ∅;
       by_severity := {[ "high" := 0; "medium" := 0; "low" := 0 ]};
       by_granularity := {[ "class" := 0; "method" := 0 ]} |}.

(** [any(file.endswith(ext) for ext in supported_extensions)] *)
Definition supported (file : string) : bool :=
  existsb (fun ext => bool_decide (of_string ext `suffix_of` of_string file))
    [".java"; ".cpp"; ".cs"; ".py"; ".js"].

Section Pipeline.
(** [os.path.join] and [self.guardian.analyze_file(file_path, 'json')]:
    its result, or the message of an exception it raises. *)
Variable path_join : string -> string -> string.
Variable try_analyze_file : string -> Guardian.analysis + string.

(** [walk] is what [os.walk(self.repo_path)] yields: each directory with
    the names of its files. *)
Definition analyze_repository (walk : list (string * list string))
  : list old_format :=
  let files_to_analyze :=
    concat
      (map (fun '(root, files) =>
              map (path_join root) (filter (fun file => supported file = true)
                                      files))
           walk) in
  fold_left
    (fun all_results file_path =>
       match try_analyze_file file_path with
       | inl file_result =>
           match _convert_to_old_format file_result file_path with
           | Returned converted_results => all_results ++ converted_results
           | KeyError _ => all_results
           end
       | inr _ => all_results
       end)
    files_to_analyze [].

End Pipeline.

(** [DebtGuardianPipeline.__init__]; [mkdtemp] is what
    [tempfile.mkdtemp()] returns. *)
Definition __init__ (mkdtemp : string) (repo_path : string)
    (output_dir : option string) : Py.init unit :=
  Py.bind (Py.setattr "repo_path" (Py.PStr repo_path)) (fun _ =>
  Py.bind (Py.setattr "output_dir"
             (Py.PStr (match output_dir with
                       | Some dir =>
                           if Py.truthy (Py.PStr dir) then dir else mkdtemp
                       | None => mkdtemp
                       end))) (fun _ =>
  Py.bind (Coordinator.set_new "guardian" "DebtGuardian"
             (Guardian.new None)) (fun _ =>
  Py.bind (Py.getattr "guardian") (fun guardian =>
  Py.bind (Py.setattr "coordinator"
             (Py.PObject "CoordinatorAdapter"
                {[ "coordinator" :=
                     match guardian with
                     | Py.PObject _ attrs =>
                         default Py.PNone (attrs !! "coordinator")
                     | _ => Py.PNone
                     end ]})) (fun _ =>
  Py.setattr "results" (Py.PList [])))))).

(** [create_pipeline(repo_path, output_dir)] *)
Definition create_pipeline (mkdtemp : string) (repo_path : string)
    (output_dir : option string) : Py.result (gmap string Py.pyval) :=
  Py.construct ["__init__"; "analyze_repository"; "_convert_to_old_format"]
    (__init__ mkdtemp repo_path output_dir).

End Adapter.

(** * Specifications *)
Module Spec.
Import PyStr Slicer Py Detector.

(** The line count recorded in a unit's metrics, when there is one, is
    the line count of the unit's code. *)
Definition loc_recorded (metrics : gmap string Q) (code : text) : Prop :=
  metrics !! "loc" = None ∨ metrics !! "loc" = Some (qn (_count_loc code)).

Definition method_within_bounds (self : ProgramSlicerAgent)
    (m : method_unit) : Prop :=
  (min_method_loc self <= Z.of_nat (_count_loc (m_code m)))%Z
  ∧ loc_recorded (m_metrics m) (m_code m).

Definition class_within_bounds (self : ProgramSlicerAgent)
    (c : class_unit) : Prop :=
  (Z.of_nat (_count_loc (c_code c)) <= max_class_loc self)%Z
  ∧ loc_recorded (c_metrics c) (c_code c)
  ∧ Forall (method_within_bounds self) (c_methods c).

#[local] Instance Qle_decision (x y : Q) : Decision (x <= y)%Q.
Proof.
  destruct (Qlt_le_dec y x); [right; by apply Qlt_not_le | by left].
Defined.

#[local] Instance Qlt_decision (x y : Q) : Decision (x < y)%Q.
Proof.
  destruct (Qlt_le_dec x y); [by left | right; by apply Qle_not_lt].
Defined.

(** The confidence table, by label: the tier conditions of each label,
    and the value when the label has no tiers. *)
Definition tier1 (label : string) (metrics : gmap string Q) : Prop :=
  let loc := metrics_get metrics "loc" in
  let methods := metrics_get metrics "method_count" in
  let ratio := metrics_get metrics "getter_setter_ratio" in
  let external_calls := metrics_get metrics "external_calls" in
  let complexity := metrics_get metrics "cyclomatic_complexity" in
  (label = "0")
  ∨ (label = "1" ∧ (500 < loc ∨ 20 < methods)%Q)
  ∨ (label = "2" ∧ (0.8 < ratio)%Q)
  ∨ (label = "3" ∧ (7 <= external_calls)%Q)
  ∨ (label = "4" ∧ (25 <= loc ∨ 15 <= complexity)%Q).

Definition tier2 (label : string) (metrics : gmap string Q) : Prop :=
  let loc := metrics_get metrics "loc" in
  let methods := metrics_get metrics "method_count" in
  let ratio := metrics_get metrics "getter_setter_ratio" in
  let external_calls := metrics_get metrics "external_calls" in
  let complexity := metrics_get metrics "cyclomatic_complexity" in
  (label = "1" ∧ (300 < loc ∨ 15 < methods)%Q)
  ∨ (label = "2" ∧ (0.6 < ratio)%Q)
  ∨ (label = "3" ∧ (5 <= external_calls)%Q)
  ∨ (label = "4" ∧ (15 <= loc ∨ 10 <= complexity)%Q).

Definition confidence_table (label : string) (metrics : gmap string Q) : Q :=
  if decide (label = "UNKNOWN") then 0.5
  else if decide (tier1 label metrics) then 0.9
  else if decide (tier2 label metrics) then 0.75
  else 0.6.

Definition class_labels : list string := ["0"; "1"; "2"; "UNKNOWN"].
Definition method_labels : list string := ["0"; "3"; "4"; "UNKNOWN"].

(** The accessor ratio as specified: trivial accessors are counted among
    all the methods the class declares, each given by its name and the
    line count of its own code. *)
Definition trivial_accessor (method : string * nat) : bool :=
  (String.prefix "get" method.1 || String.prefix "set" method.1
   || String.prefix "is" method.1)
  && (method.2 <=? 3).

Definition getter_setter_ratio (declared : list (string * nat)) : Q :=
  if 0 <? length declared
  then (qn (length (filter (fun m => trivial_accessor m = true) declared))
        / qn (length declared))%Q
  else 0%Q.

(** *** Localization *)

(** The lines of a unit's code, the code trimmed as a whole, and its first
    line trimmed. *)
Definition unit_lines (code : text) : list text := split_lines (strip code).
Definition first_code_line (code : text) : text :=
  strip (hd [] (unit_lines code)).

(** Line number [n] (from 1) is the first line satisfying [P]. *)
Definition first_line_where (P : text -> bool) (lines : list text)
    (n : nat) : Prop :=
  exists i line, n = i + 1 ∧ lines !! i = Some line ∧ P line = true
                 ∧ forall j l, j < i -> lines !! j = Some l -> P l = false.

Definition no_line_where (P : text -> bool) (lines : list text) : Prop :=
  Forall (fun l => P l = false) lines.

(** Strategy (a): the file line contains the unit's first code line. *)
Definition exact_match (code : text) (line : text) : bool :=
  contains (first_code_line code) (strip line).

(** Strategy (b): the file line contains the declaration header of the
    unit, [class NAME] for a class and [ NAME(] for a method. *)
Definition header_match (type name : string) (line : text) : bool :=
  if String.eqb type "class"
  then LocalizationAgent.search
         (LocalizationAgent.class_pattern (of_string name)) line
  else LocalizationAgent.search
         (LocalizationAgent.method_pattern (of_string name)) line.

Definition located (start_line end_line : nat) (file_path : string)
    (approximate : option bool) : location :=
  {| loc_start_line := Some start_line; loc_end_line := Some end_line;
     loc_file_path := Some file_path; loc_approximate := approximate;
     loc_error := None |}.

Definition is_error_marker (l : location) : Prop :=
  loc_error l ≠ None ∧ loc_start_line l = None ∧ loc_end_line l = None
  ∧ loc_approximate l = None.

(** The end line of an exact match as specified: the line count is that of
    the unit's raw text. *)
Definition specified_end_line (start_line : nat) (code : text) : nat :=
  start_line + length (split_lines code) - 1.

(** What localization attaches, with [n] the number of lines of the unit's
    code trimmed as a whole; when both strategies fail, an error marker, or
    the location the result already had. *)
Definition localized_by_strategy (debt_result : detection) (code : text)
    (source_file_content : text) (l : location) : Prop :=
  let lines := split_lines source_file_content in
  let n := length (unit_lines code) in
  let file_path := default "unknown" (d_file_path debt_result) in
  let exact := exact_match code in
  let header := header_match (d_type debt_result) (d_name debt_result) in
  (exists start_line,
      first_line_where exact lines start_line
      ∧ l = located start_line (start_line + n - 1) file_path None)
  ∨ (no_line_where exact lines
     ∧ exists start_line,
         first_line_where header lines start_line
         ∧ l = located start_line (start_line + n) file_path (Some true))
  ∨ (no_line_where exact lines ∧ no_line_where header lines
     ∧ match d_location debt_result with
       | None => is_error_marker l
       | Some earlier => l = earlier
       end).

(** *** Dispatch *)

(** One detection per submitted unit: the classes, the standalone
    methods, and the methods nested in the classes. *)
Definition submitted_results (self : Coordinator.coordinator)
    (class_prompt method_prompt : text) (classes : list class_unit)
    (methods : list method_unit) : list detection :=
  (match Coordinator.class_detector self with
   | Some detector =>
       map (@ClassDebtDetector.detect detector class_prompt) classes
   | None => []
   end)
  ++ (match Coordinator.method_detector self with
      | Some detector =>
          map (@MethodDebtDetector.detect detector method_prompt) methods
          ++ concat
               (map (fun c => map (@MethodDebtDetector.detect detector
                                     method_prompt) (c_methods c))
                    classes)
      | None => []
      end).

(** *** Line counting *)

Definition line_at (lines : list text) (i : nat) : text := nth i lines [].

Definition has_open (line : text) : bool := contains block_open (strip line).
Definition has_close (line : text) : bool :=
  contains block_close (strip line).
Definition is_blank (line : text) : bool := negb (nonempty (strip line)).
Definition is_line_comment (line : text) : bool :=
  startswith line_comment (strip line).

(** Line [i] lies in a comment span: some line [j <= i] holds the start
    token and no line from [j] to before [i] holds the end token.  The line
    holding the end token is thus part of the span. *)
Definition in_comment_span (lines : list text) (i : nat) : bool :=
  existsb
    (fun j => has_open (line_at lines j)
              && forallb (fun k => negb (has_close (line_at lines k)))
                   (seq j (i - j)))
    (seq 0 (S i)).

(** The line count as specified: blank lines, line comments and the lines
    of comment spans are excluded, and no other line. *)
Definition specified_excluded (lines : list text) (i : nat) : bool :=
  is_blank (line_at lines i) || is_line_comment (line_at lines i)
  || in_comment_span lines i.

Definition specified_count_loc (code : text) : nat :=
  let lines := split_lines code in
  length (filter (fun i => specified_excluded lines i = false)
            (seq 0 (length lines))).

(** The line count as computed: a line holding the end token is excluded
    as well when no span is open. *)
Definition excluded (lines : list text) (i : nat) : bool :=
  specified_excluded lines i || has_close (line_at lines i).

Definition counted_lines (code : text) : list nat :=
  let lines := split_lines code in
  filter (fun i => excluded lines i = false) (seq 0 (length lines)).

(** A comment is open after line [n - 1]. *)
Definition open_before (lines : list text) (n : nat) : Prop :=
  exists j, j < n ∧ has_open (line_at lines j) = true
            ∧ forall k, j <= k < n -> has_close (line_at lines k) = false.

(** *** Block extraction *)

(** Where the scan is: in code, or inside a string or character literal;
    and whether the previous character was an unescaped backslash. *)
Inductive mode := Code | StringLiteral | CharLiteral.

Record lexer := Lexer { lx_mode : mode; lx_escaped : bool }.

Definition lex_start : lexer := Lexer Code false.

Definition lex_step (s : lexer) (c : ascii) : lexer :=
  if lx_escaped s then Lexer (lx_mode s) false
  else if Ascii.eqb c backslash then Lexer (lx_mode s) true
  else
    Lexer
      match lx_mode s with
      | Code => if Ascii.eqb c dquote then StringLiteral
                else if Ascii.eqb c squote then CharLiteral
                else Code
      | StringLiteral => if Ascii.eqb c dquote then Code else StringLiteral
      | CharLiteral => if Ascii.eqb c squote then Code else CharLiteral
      end
      false.

(** The change of depth on reading [c]: braces count in code only, and
    not right after a backslash. *)
Definition depth_change (s : lexer) (c : ascii) : Z :=
  match lx_mode s, lx_escaped s with
  | Code, false =>
      if Ascii.eqb c lbrace then 1
      else if Ascii.eqb c rbrace then -1
      else 0
  | _, _ => 0
  end.

Fixpoint depth_from (s : lexer) (t : text) : Z :=
  match t with
  | [] => 0
  | c :: t' => depth_change s c + depth_from (lex_step s c) t'
  end.

(** The depth after reading [t], a text that starts at the opening
    brace. *)
Definition depth (t : text) : Z := depth_from lex_start t.

(** The literal flags of the loop state of [_extract_block], read as a
    scanning mode. *)
Definition mode_of (st : scan) : mode :=
  if in_string st then StringLiteral
  else if in_char st then CharLiteral
  else Code.

Definition lexer_of (st : scan) : lexer := Lexer (mode_of st) (escape st).

Definition one_literal (st : scan) : Prop :=
  in_string st = false ∨ in_char st = false.

(** [brace_pos] is the first opening brace at or after [start_pos]. *)
Definition first_brace (source_code : text) (start_pos brace_pos : nat)
  : Prop :=
  start_pos <= brace_pos
  ∧ source_code !! brace_pos = Some lbrace
  ∧ forall j, start_pos <= j < brace_pos -> source_code !! j ≠ Some lbrace.

(** [i] is the first position at which the depth, counted from
    [brace_pos], is zero again. *)
Definition block_end (source_code : text) (brace_pos i : nat) : Prop :=
  brace_pos <= i < length source_code
  ∧ depth (slice source_code brace_pos (i + 1)) = 0%Z
  ∧ forall j, brace_pos <= j < i ->
              depth (slice source_code brace_pos (j + 1)) ≠ 0%Z.

Definition unbalanced (source_code : text) (brace_pos : nat) : Prop :=
  forall i, brace_pos <= i < length source_code ->
            depth (slice source_code brace_pos (i + 1)) ≠ 0%Z.

(** *** Detection results *)

(** A detection built from a unit with the given metrics: its label is in
    the detector's vocabulary, it has a debt type unless the label is
    [UNKNOWN], and either it has no error and its confidence is the table's,
    or it is the no-response result. *)
Definition detection_follows_table (labels : list string)
    (metrics : gmap string Q) (d : detection) : Prop :=
  d_label d ∈ labels
  ∧ (d_debt_type d = None <-> d_label d = "UNKNOWN")
  ∧ match d_error d with
    | None => d_confidence d = confidence_table (d_label d) metrics
              ∧ d_metrics d = Some metrics
    | Some _ => d_label d = "UNKNOWN" ∧ d_confidence d = 0.0%Q
    end
  ∧ (0 <= d_confidence d <= 1)%Q.

(** The detection goes with the reply of the model.  When the model
    replied, the detection has no error, its label is the reply as the
    detector reads it, and its raw response is the trimmed reply; when it
    did not, the detection is the no-response result of the unit, which
    carries an error. *)
Definition detection_of_reply (read : text -> string) (type name : string)
    (reply : option text) (d : detection) : Prop :=
  match reply with
  | Some content =>
      d_error d = None
      ∧ d_label d = read (strip content)
      ∧ d_raw_response d = Some (strip content)
  | None => d_error d ≠ None ∧ d = no_response type name
  end.

(** What a detector reported, apart from what post-processing attaches. *)
Definition detection_core (d : detection) :=
  (d_type d, d_name d, d_label d, d_debt_type d, d_confidence d,
   d_metrics d, d_raw_response d, d_granularity d, d_error d, d_code d,
   d_file_path d).

(** *** Units *)

(** A method unit of the fallback extraction: not named as a bare accessor
    prefix, with no parent class. *)
Definition fallback_method (file_path : string) (m : method_unit) : Prop :=
  (m_name m ∉ ["get"; "set"; "is"])
  ∧ m_parent_class m = None
  ∧ m_file_path m = file_path.

(** A class unit of the fallback extraction: its [method_count] is the
    number of the methods it holds, absent when it holds none, and it has no
    accessor ratio. *)
Definition fallback_class (file_path : string) (c : class_unit) : Prop :=
  c_file_path c = file_path
  ∧ Forall (fallback_method file_path) (c_methods c)
  ∧ c_metrics c !! "method_count"
    = match c_methods c with
      | [] => None
      | methods => Some (qn (length methods))
      end
  ∧ c_metrics c !! "getter_setter_ratio" = None.

(** What a method unit is, apart from its metrics. *)
Definition unit_text (m : method_unit)
  : string * text * string * option string :=
  (m_name m, m_code m, m_file_path m, m_parent_class m).

(** The slicer with the same bounds and metrics extraction on. *)
Definition with_metrics (self : ProgramSlicerAgent) : ProgramSlicerAgent :=
  {| extract_metrics := true; min_method_loc := min_method_loc self;
     max_class_loc := max_class_loc self |}.

(** A method unit nested in a class unit of the parsed path. *)
Definition nested_method (node : ClassDeclaration) (file_path : string)
    (m : method_unit) : Prop :=
  m_parent_class m = Some (cd_name node)
  ∧ m_file_path m = file_path
  ∧ m_name m ∈ map md_name (cd_methods node).

(** *** Summaries *)

(** The number of detections with the property [P]. *)
Definition count_where (P : detection -> Prop) `{forall d, Decision (P d)}
    (detections : list detection) : nat :=
  length (filter P detections).

(** A count as the entry of a dictionary that gets its keys on first use:
    absent while the count is zero. *)
Definition entry (n : nat) : option nat :=
  match n with 0 => None | _ => Some n end.

(** The sum of the counts of a dictionary. *)
Definition dict_total `{Countable K} (counts : gmap K nat) : nat :=
  map_fold (fun _ n acc => n + acc) 0 counts.

Definition of_type (debt_type : option string) (d : detection) : Prop :=
  d_debt_type d = debt_type.

Definition of_granularity (granularity : string) (d : detection) : Prop :=
  d_granularity d = Some granularity.

Definition high_confidence (d : detection) : Prop :=
  Qle_bool (0.8) (d_confidence d) = true.

#[global] Instance of_type_dec debt_type d : Decision (of_type debt_type d).
Proof. unfold of_type. apply _. Defined.

#[global] Instance of_granularity_dec granularity d :
  Decision (of_granularity granularity d).
Proof. unfold of_granularity. apply _. Defined.

#[global] Instance high_confidence_dec d : Decision (high_confidence d).
Proof. unfold high_confidence. apply _. Defined.

(** [by_type] holds, for each debt type, the number of detections of that
    type, and no key for a type that does not occur. *)
Definition counts_by_type (detections : list detection)
    (by_type : gmap (option string) nat) : Prop :=
  forall debt_type,
    by_type !! debt_type = entry (count_where (of_type debt_type) detections).

(** [by_granularity] has the two keys [class] and [method], each with the
    number of detections of that granularity. *)
Definition counts_by_granularity (detections : list detection)
    (by_granularity : gmap string nat) : Prop :=
  forall granularity,
    by_granularity !! granularity
    = if decide (granularity ∈ ["class"; "method"])
      then Some (count_where (of_granularity granularity) detections)
      else None.

(** *** Reports *)

(** What every result of a detector has in common: the type [No Smell] goes
    with the label 0 only; a result without an error is marked with the
    granularity of its detector; a result with an error, and a result
    without a debt type, has a confidence of at most 0.5, the former 0.0. *)
Definition detector_result (d : detection) : Prop :=
  (d_debt_type d = Some "No Smell" -> d_label d = "0")
  ∧ d_type d ∈ ["class"; "method"]
  ∧ match d_error d with
    | None => d_granularity d = Some (d_type d)
    | Some _ => d_confidence d = 0.0%Q
    end
  ∧ (d_debt_type d = None -> (d_confidence d <= 0.5)%Q).

(** A reported debt whose detector got a reply. *)
Definition answered (d : detection) : Prop :=
  d_error d = None ∧ d_granularity d = Some (d_type d)
  ∧ d_type d ∈ ["class"; "method"].

(** *** Repositories *)

(** An entry as [analyze_repository] appends it: an analysis carries the
    summary and the number of its own debts. *)
Definition summarised (entry : Coordinator.repo_file_result) : Prop :=
  match entry with
  | Coordinator.Analysed a =>
      Coordinator.fa_summary a
      = Coordinator._generate_summary (Coordinator.fa_debts a)
      ∧ Coordinator.fa_filtered_detections a
        = length (Coordinator.fa_debts a)
  | Coordinator.Failed _ _ => True
  end.

Definition analysed_debts (entry : Coordinator.repo_file_result)
  : list detection :=
  match entry with
  | Coordinator.Analysed a => Coordinator.fa_debts a
  | Coordinator.Failed _ _ => []
  end.

Definition is_analysed (entry : Coordinator.repo_file_result) : bool :=
  match entry with
  | Coordinator.Analysed _ => true
  | Coordinator.Failed _ _ => false
  end.

(** *** Directories *)

Definition is_completed (entry : Guardian.analysis) : bool :=
  match entry with
  | Guardian.Completed _ => true
  | Guardian.Failure _ _ => false
  end.

(** The entry appended for a file, given how the call went. *)
Definition directory_entry (file_path : string)
    (outcome : Guardian.analysis + string) : Guardian.analysis :=
  match outcome with
  | inl file_result => file_result
  | inr e => Guardian.Failure file_path e
  end.

(** The entry appended for a file, given how its analysis went. *)
Definition repo_entry (file_path : string)
    (outcome : Coordinator.file_analysis + string)
  : Coordinator.repo_file_result :=
  match outcome with
  | inl file_result => Coordinator.Analysed file_result
  | inr e => Coordinator.Failed file_path e
  end.

(** *** The old format *)

(** The digit of a label, 0 for the label 0 and for [UNKNOWN]. *)
Definition label_number (label : string) : Z :=
  default 0%Z
    (({[ "1" := 1%Z; "2" := 2%Z; "3" := 3%Z; "4" := 4%Z ]} : gmap string Z)
       !! label).

(** A debt the adapter passes on: its type is one of the four smells. *)
Definition smelly (debt : detection) : Prop :=
  Adapter.category_int debt ≠ 0%Z.

#[global] Instance smelly_dec debt : Decision (smelly debt).
Proof. unfold smelly. apply _. Defined.

(** A location with a start line has an end line too. *)
Definition lines_complete (debt : detection) : Prop :=
  match d_location debt with
  | Some location =>
      is_Some (loc_start_line location) -> is_Some (loc_end_line location)
  | None => True
  end.

#[global] Instance lines_complete_dec debt : Decision (lines_complete debt).
Proof. unfold lines_complete. destruct (d_location debt); apply _. Defined.

(** The line numbers of a debt, when its location has both. *)
Definition line_numbers (debt : detection) : option (nat * nat) :=
  match d_location debt with
  | Some location =>
      match loc_start_line location, loc_end_line location with
      | Some start_line, Some end_line => Some (start_line, end_line)
      | _, _ => None
      end
  | None => None
  end.

(** [config.TD_CATEGORIES.get(cat, {}).get('name', 'Unknown')] and
    [.get('severity', 'low')] *)
Definition category_name (cat : Z) : string :=
  default "Unknown" (default ∅ (Config.TD_CATEGORIES !! cat) !! "name").

Definition category_severity (cat : Z) : string :=
  default "low" (default ∅ (Config.TD_CATEGORIES !! cat) !! "severity").

Definition smells : list string :=
  ["Blob"; "Data Class"; "Feature Envy"; "Long Method"].

(** The old-format entry of a debt. *)
Definition old_entry (file_path : string) (debt : detection)
  : Adapter.old_format :=
  {| Adapter.o_file_path := file_path;
     Adapter.o_code_name := d_name debt;
     Adapter.o_code_type := default "unknown" (d_granularity debt);
     Adapter.o_detected_category_int := Adapter.category_int debt;
     Adapter.o_confidence := d_confidence debt;
     Adapter.o_granularity := default "unknown" (d_granularity debt);
     Adapter.o_localization := line_numbers debt;
     Adapter.o_explanation := Adapter.text_if_any (d_explanation debt);
     Adapter.o_fix_suggestion :=
       Adapter.text_if_any (d_fix_suggestion debt);
     Adapter.o_code_snippet := Adapter.code_snippet debt |}.

(** What one file adds to the results of the pipeline: its converted
    debts, or nothing when its analysis or the conversion raises. *)
Definition pipeline_entries
    (try_analyze_file : string -> Guardian.analysis + string)
    (file_path : string) : list Adapter.old_format :=
  match try_analyze_file file_path with
  | inl file_result =>
      match Adapter._convert_to_old_format file_result file_path with
      | Adapter.Returned converted => converted
      | Adapter.KeyError _ => []
      end
  | inr _ => []
  end.

End Spec.

(** * A worked input

    A one-class file, what [javalang] and [re] return on it, and a model
    that never answers. *)
Module Fixture.
Import PyStr Slicer Detector.

Definition Point_java : text :=
  of_string "class Point {
    private int x;
    public int getX() { return x; }
}".

Definition parser : JavaParser := {|
  parse_classes source_code :=
    if decide (source_code = Point_java)
    then Some [ {| cd_name := "Point"; cd_modifiers := [];
                   cd_methods := [ {| md_name := "getX";
                                      md_parameters := 0 |} ];
                   cd_fields := 1 |} ]
    else None
|}.

(** The same class with a three-line getter and its last brace missing:
    the parser rejects it. *)
Definition Broken_java : text :=
  of_string "class Point {
    public int getX() {
        return x;
    }
".

(** The header of [Point] is found at [class Point], the header of [getX]
    at [public int getX]; the texts have no decision keyword, no call and
    no comment.  On the broken file the declaration patterns match once
    each. *)
Definition regex : Regex := {|
  re_escape := of_string;
  re_search pattern s :=
    if contains (of_string "class\s+Point") pattern
    then find (of_string "class Point") s
    else if contains (of_string "\s+getX") pattern
    then find (of_string "public int getX") s
    else None;
  re_finditer pattern s :=
    if decide (s = Broken_java) then
      if contains (of_string "class\s+(\w+)") pattern
      then [(0, "Point")]
      else [(default 0 (find (of_string "public int getX") s), "getX")]
    else [];
  re_findall_len _ _ := 0;
  re_sub_empty _ _ s := s
|}.

(** A slicer whose configuration names none of the settings: the defaults
    of [__init__]. *)
Definition slicer : ProgramSlicerAgent :=
  {| extract_metrics := true; min_method_loc := 3; max_class_loc := 1000 |}.

Definition silent : Agent := {| generate_reply _ := NoReply |}.

Definition in_order : Coordinator.Scheduler := {|
  Coordinator.as_completed l := l;
  Coordinator.as_completed_perm l := Permutation_refl l
|}.

Definition getX_code : text := of_string "public int getX() { return x; }".

(** A method unit as the fallback extraction would produce it. *)
Definition getX_unit : method_unit :=
  {| m_name := "getX"; m_code := getX_code; m_file_path := "Point.java";
     m_parent_class := None; m_metrics := {[ "loc" := 1%Q ]} |}.

Definition Point_unit : class_unit :=
  {| c_name := "Point"; c_code := Point_java; c_file_path := "Point.java";
     c_methods := []; c_metrics := {[ "loc" := 4%Q ]} |}.

Definition sliced : slice_result :=
  {| r_file_path := "Point.java"; r_classes := [];
     r_methods := [getX_unit]; r_total_loc := 4 |}.

(** A method-level result that carries the code of its unit. *)
Definition method_result (name : string) (code : text) : detection :=
  {| d_type := "method"; d_name := name; d_label := "4";
     d_debt_type := Some "Long Method"; d_confidence := 0.6%Q;
     d_metrics := Some {[ "loc" := 1%Q ]};
     d_raw_response := Some (of_string "4");
     d_granularity := Some "method"; d_error := None;
     d_code := Some code; d_file_path := Some "Point.java";
     d_location := None; d_explanation := None;
     d_fix_suggestion := None |}.

Definition getX_result : detection := method_result "getX" getX_code.

(** A coordinator with the method detector only, as constructed from a
    configuration that disables the other agents. *)
Definition methods_only : Coordinator.coordinator :=
  {| Coordinator.class_detector := None;
     Coordinator.method_detector := Some silent;
     Coordinator.localizer := true;
     Coordinator.explainer := None;
     Coordinator.fix_suggester := None;
     Coordinator.parallel_detection := false;
     Coordinator.min_confidence := 0.5%Q |}.

(** A block whose string literal holds escaped quotes around a brace. *)
Definition escaped_block : text :=
  of_string "{ String s = " ++ [dquote] ++ of_string "a\" ++ [dquote]
  ++ of_string "{\" ++ [dquote] ++ of_string " b" ++ [dquote]
  ++ of_string "; }".

(** A model that answers every prompt with the digit 4. *)
Definition says_4 : Agent :=
  {| generate_reply _ := ReplyDict {[ "content" := of_string "4" ]} |}.

Definition reversed : Coordinator.Scheduler := {|
  Coordinator.as_completed l := rev l;
  Coordinator.as_completed_perm l := Permutation_sym (Permutation_rev l)
|}.

(** A coordinator with every agent but the class detector, and a
    threshold above the confidence of an unreadable reply. *)
Definition strict : Coordinator.coordinator :=
  {| Coordinator.class_detector := None;
     Coordinator.method_detector := Some says_4;
     Coordinator.localizer := true;
     Coordinator.explainer := Some says_4;
     Coordinator.fix_suggester := Some says_4;
     Coordinator.parallel_detection := true;
     Coordinator.min_confidence := 0.6%Q |}.

(** A directory with one readable file; every pattern matches that file
    and one that cannot be read. *)
Definition files : FileSystem := {|
  read_text path :=
    if String.eqb path "Point.java" then inl Point_java
    else inr "No such file or directory";
  glob _ _ := ["Point.java"; "Missing.java"]
|}.

End Fixture.

(** * Verification *)
Import PyStr Slicer Py Detector.

Lemma Forall_omap_intro {A B} (f : A -> option B) (P : B -> Prop) l :
  (forall x y, f x = Some y -> P y) -> Forall P (omap f l).
Proof.
  intros HP. induction l as [|x l IH]; simpl; [constructor|].
  destruct (f x) as [y|] eqn:E; [constructor; eauto|assumption].
Qed.

Lemma qn_le_of_Qle_bool (z : Z) (n : nat) :
  Qle_bool (inject_Z z) (qn n) = true -> (z <= Z.of_nat n)%Z.
Proof. intros H%Qle_bool_iff. unfold qn in H. by rewrite <- Zle_Qle in H. Qed.

Lemma Qlt_bool_iff (a b : Q) : Qlt_bool a b = true <-> (a < b)%Q.
Proof.
  unfold Qlt_bool. rewrite negb_true_iff, <- not_true_iff_false, Qle_bool_iff.
  split; [apply Qnot_le_lt | apply Qlt_not_le].
Qed.

Lemma Qlt_bool_false (a b : Q) : Qlt_bool a b = false -> ¬ (a < b)%Q.
Proof. intros H Hlt%Qlt_bool_iff. congruence. Qed.

Lemma Qle_bool_false (a b : Q) : Qle_bool a b = false -> ¬ (a <= b)%Q.
Proof. intros H Hle%Qle_bool_iff. congruence. Qed.

(** Decide every comparison of the goal both in its boolean form (as the
    detectors test it) and in its propositional form (as the table states
    it), and discard the contradictory combinations. *)
Ltac tiers :=
  repeat match goal with
    | |- context [Qlt_bool ?a ?b] =>
        let E := fresh "E" in
        destruct (Qlt_bool a b) eqn:E;
        [apply Qlt_bool_iff in E | apply Qlt_bool_false in E]
    | |- context [Qle_bool ?a ?b] =>
        let E := fresh "E" in
        destruct (Qle_bool a b) eqn:E;
        [apply Qle_bool_iff in E | apply Qle_bool_false in E]
    end;
  simpl;
  repeat (case_decide; try reflexivity);
  exfalso; unfold Spec.tier1, Spec.tier2 in *; intuition congruence.

(** C4. The confidence computed by either detector is the value of the
    confidence table at the label and the unit's metrics, for every label
    of the detector's vocabulary: 0.9 for label 0; for label 1, 0.9 if
    loc > 500 or method_count > 20, else 0.75 if loc > 300 or
    method_count > 15, else 0.6; for label 2, 0.9 if the accessor ratio
    exceeds 0.8, else 0.75 if it exceeds 0.6, else 0.6; for label 3, 0.9 if
    external_calls >= 7, else 0.75 if >= 5, else 0.6; for label 4, 0.9 if
    loc >= 25 or complexity >= 15, else 0.75 if loc >= 15 or
    complexity >= 10, else 0.6; 0.5 for UNKNOWN.  A method labelled 4 with
    loc 20 and complexity 12 gets 0.75. *)
Theorem calculate_confidence_table :
  Forall (fun label => forall metrics,
            ClassDebtDetector._calculate_confidence label metrics
            = Spec.confidence_table label metrics) Spec.class_labels
  ∧ Forall (fun label => forall metrics,
              MethodDebtDetector._calculate_confidence label metrics
              = Spec.confidence_table label metrics) Spec.method_labels
  ∧ MethodDebtDetector._calculate_confidence "4"
      {[ "loc" := 20%Q; "cyclomatic_complexity" := 12%Q ]} = 0.75%Q.
Proof.
  split; [|split]; [| |reflexivity].
  - repeat constructor; intros metrics;
      unfold ClassDebtDetector._calculate_confidence, Spec.confidence_table;
      simpl; tiers.
  - repeat constructor; intros metrics;
      unfold MethodDebtDetector._calculate_confidence, Spec.confidence_table;
      simpl; tiers.
Qed.

(** C1. Constructing a [ClassDebtDetector] raises [AttributeError] on
    [timeout] for every configuration dictionary, and so does constructing
    a [DebtDetectionCoordinator] (from the default configuration or from a
    given one) whenever the class detector section is enabled, which it is
    when the section has no [enabled] key. *)
Theorem class_detector_never_constructed :
  (forall agent_config : gmap string pyval,
      ClassDebtDetector.new agent_config = Raise (AttributeError "timeout"))
  ∧ (forall config : option (gmap string (gmap string pyval)),
        truthy (dict_get
                  (Coordinator.section (default Config.AGENT_CONFIGS config)
                     "class_detector")
                  "enabled" (PBool true)) = true ->
        Coordinator.new config = Raise (AttributeError "timeout")).
Proof.
  assert (Hnew : forall agent_config : gmap string pyval,
             ClassDebtDetector.new agent_config
             = Raise (AttributeError "timeout")) by reflexivity.
  split; [exact Hnew|].
  intros config Hen.
  unfold Coordinator.new, construct, Coordinator.__init__, bind, setattr.
  unfold Coordinator._initialize_agents, bind, Coordinator.when_enabled.
  rewrite Hen. unfold Coordinator.set_new. by rewrite Hnew.
Qed.

Lemma class_detector_never_constructed_witness :
  (truthy (dict_get (Coordinator.section
                       (default Config.AGENT_CONFIGS (Some ∅))
                       "class_detector")
             "enabled" (PBool true)) = true
   ∧ Coordinator.new (Some ∅) = Raise (AttributeError "timeout"))
  ∧ (truthy (dict_get (Coordinator.section
                         (default Config.AGENT_CONFIGS None) "class_detector")
               "enabled" (PBool true)) = true
     ∧ Coordinator.new None = Raise (AttributeError "timeout")).
Proof.
  split; (split; [reflexivity|]);
    apply (proj2 class_detector_never_constructed); reflexivity.
Defined.

(** The sibling detector assigns [timeout] and is constructed; so is a
    coordinator whose configuration disables the class detector. *)
Lemma method_detector_constructed (agent_config : gmap string pyval) :
  exists self, MethodDebtDetector.new agent_config = Ok self
               ∧ self !! "timeout"
                 = Some (dict_get agent_config "timeout" (PInt 300)).
Proof. eexists. split; reflexivity. Qed.

Example coordinator_without_class_detector :
  exists self,
    Coordinator.new
      (Some {[ "class_detector" := {[ "enabled" := PBool false ]} ]})
    = Ok self
    ∧ self !! "class_detector" = Some PNone
    ∧ is_Some (self !! "method_detector").
Proof. eexists. split_and!; [reflexivity|reflexivity|by eexists]. Qed.

Section SlicerFacts.
Context `{RE : Regex} `{JP : JavaParser}.
Variable self : ProgramSlicerAgent.

Lemma extract_method_from_ast_loc node source_code file_path parent m :
  _extract_method_from_ast self node source_code file_path parent = Some m ->
  m_metrics m !! "loc"
  = if extract_metrics self then Some (qn (_count_loc (m_code m))) else None.
Proof.
  unfold _extract_method_from_ast.
  destruct (_extract_method_code_by_name _ _) as [[|c code]|]; try done.
  intros [= <-]; simpl. by destruct (extract_metrics self).
Qed.

Lemma ast_methods_within_bounds node class_code file_path :
  Forall (Spec.method_within_bounds self)
    (ast_methods self node class_code file_path).
Proof.
  apply Forall_omap_intro. intros method_node m.
  destruct (_extract_method_from_ast _ _ _ _ _) as [mi|] eqn:E; [|done].
  apply extract_method_from_ast_loc in E.
  unfold metrics_get. rewrite E.
  destruct (Qle_bool _ _) eqn:Hle; [|done]. intros [= <-].
  unfold Spec.method_within_bounds, Spec.loc_recorded. rewrite E.
  destruct (extract_metrics self); simpl in Hle.
  - split; [by apply qn_le_of_Qle_bool | by right].
  - split; [|by left].
    apply (qn_le_of_Qle_bool _ 0) in Hle. lia.
Qed.

Lemma extract_methods_regex_within_bounds source_code file_path :
  Forall (Spec.method_within_bounds self)
    (_extract_methods_regex self source_code file_path).
Proof.
  apply Forall_omap_intro. intros [start_pos method_name] m.
  case_bool_decide; [done|].
  destruct (_extract_block _ _) as [[|c code]|]; try done. cbv zeta.
  destruct (Z.leb_spec (min_method_loc self)
              (Z.of_nat (_count_loc (c :: code)))) as [Hle|]; [|done].
  intros [= <-]. split; cbn [m_code m_metrics]; [exact Hle|].
  unfold Spec.loc_recorded.
  destruct (extract_metrics self); [right|left]; done.
Qed.

Lemma extract_class_from_ast_within_bounds node source_code file_path c :
  _extract_class_from_ast self node source_code file_path = Some c ->
  Spec.class_within_bounds self c.
Proof.
  unfold _extract_class_from_ast.
  destruct (_extract_class_code_by_name _ _) as [[|ch code]|]; try done.
  cbv zeta.
  destruct (Z.ltb_spec (max_class_loc self)
              (Z.of_nat (_count_loc (ch :: code)))) as [|Hle]; [done|].
  intros [= <-].
  split; [exact Hle|]. split; cbn [c_code c_metrics c_methods].
  - unfold Spec.loc_recorded.
    destruct (extract_metrics self); [right|left]; done.
  - apply ast_methods_within_bounds.
Qed.

Lemma extract_classes_regex_within_bounds source_code file_path :
  Forall (Spec.class_within_bounds self)
    (_extract_classes_regex self source_code file_path).
Proof.
  apply Forall_omap_intro. intros [start_pos class_name] c.
  destruct (_extract_block _ _) as [[|ch code]|]; try done. cbv zeta.
  destruct (Z.leb_spec (Z.of_nat (_count_loc (ch :: code)))
              (max_class_loc self)) as [Hle|]; [|done].
  intros [= <-].
  split; [exact Hle|]. split; cbn [c_code c_metrics c_methods].
  - unfold Spec.loc_recorded.
    destruct (_extract_methods_regex _ _ _), (extract_metrics self);
      [right|left|right|left]; done.
  - apply extract_methods_regex_within_bounds.
Qed.

End SlicerFacts.

(** C2. Whatever the source text, the slicer configuration, the parser and
    the regular expression engine, every class unit returned by
    [slice_code] has at most [max_class_loc] lines and every method unit
    returned, standalone or nested in a returned class, has at least
    [min_method_loc] lines; a line count recorded in a unit's metrics is the
    line count of its code.  Both the parsed path and the fallback path are
    covered. *)
Theorem slice_code_loc_bounds `{RE : Regex} `{JP : JavaParser}
    (self : ProgramSlicerAgent) (source_code : text) (file_path : string) :
  Forall (Spec.class_within_bounds self)
    (r_classes (slice_code self source_code file_path))
  ∧ Forall (Spec.method_within_bounds self)
      (r_methods (slice_code self source_code file_path)).
Proof.
  unfold slice_code. destruct (parse_classes source_code) as [nodes|]; simpl.
  - split; [|constructor].
    apply Forall_omap_intro. intros node c.
    apply extract_class_from_ast_within_bounds.
  - split; [apply extract_classes_regex_within_bounds
           |apply extract_methods_regex_within_bounds].
Qed.

(** On the broken file the fallback runs: the class, whose block never
    closes, is discarded, and the getter is a standalone method of three
    lines. *)
Example slice_code_fallback :
  let result := @slice_code Fixture.regex Fixture.parser Fixture.slicer
                  Fixture.Broken_java "Point.java" in
  r_classes result = []
  ∧ map m_name (r_methods result) = ["getX"]
  ∧ map (fun m => m_metrics m !! "loc") (r_methods result) = [Some 3%Q].
Proof. vm_compute. split_and!; reflexivity. Qed.

(** C10. When the parser accepts the source text, [slice_code] returns no
    standalone method unit; standalone method units are those of the
    fallback extraction, which runs only when the parser raises. *)
Theorem parsed_source_has_no_standalone_methods `{RE : Regex}
    `{JP : JavaParser} (self : ProgramSlicerAgent) (source_code : text)
    (file_path : string) :
  (parse_classes source_code ≠ None ->
   r_methods (slice_code self source_code file_path) = [])
  ∧ (parse_classes source_code = None ->
     r_methods (slice_code self source_code file_path)
     = _extract_methods_regex self source_code file_path).
Proof.
  unfold slice_code. destruct (parse_classes source_code); simpl; split; done.
Qed.

Lemma parsed_source_has_no_standalone_methods_witness :
  (@parse_classes Fixture.parser Fixture.Point_java ≠ None
   ∧ r_methods (@slice_code Fixture.regex Fixture.parser Fixture.slicer
                  Fixture.Point_java "Point.java") = [])
  ∧ (@parse_classes Fixture.parser [] = None
     ∧ r_methods (@slice_code Fixture.regex Fixture.parser Fixture.slicer
                    [] "Empty.java")
       = @_extract_methods_regex Fixture.regex Fixture.slicer []
           "Empty.java").
Proof.
  split; (split; [done|]).
  - apply (proj1 (@parsed_source_has_no_standalone_methods
                    Fixture.regex Fixture.parser
                    Fixture.slicer Fixture.Point_java "Point.java")).
    done.
  - apply (proj2 (@parsed_source_has_no_standalone_methods
                    Fixture.regex Fixture.parser
                    Fixture.slicer [] "Empty.java")).
    done.
Defined.


(** C5, at the class [Point] with its one-line getter.  The class declares
    one method, [getX], whose own code has one line, so the specified
    accessor ratio is 1; the slicer, which counts accessors among the
    methods it retained (those of at least [min_method_loc] = 3 lines), has
    dropped [getX] before counting and records the ratio 0. *)
Theorem accessor_ratio_misses_short_getter :
  let result := @slice_code Fixture.regex Fixture.parser Fixture.slicer
                  Fixture.Point_java "Point.java" in
  exists class_info getX_code,
    r_classes result = [class_info]
    ∧ @_extract_method_code_by_name Fixture.regex (c_code class_info) "getX"
      = Some getX_code
    ∧ _count_loc getX_code = 1
    ∧ Spec.getter_setter_ratio [("getX", _count_loc getX_code)] = 1%Q
    ∧ c_metrics class_info !! "method_count" = Some 1%Q
    ∧ c_methods class_info = []
    ∧ c_metrics class_info !! "getter_setter_ratio" = Some 0%Q.
Proof. vm_compute. do 2 eexists. repeat split; reflexivity. Qed.

Section Aggregation.
Import Guardian.

Lemma add_debts_counters debts a :
  total_debts (fold_left add_debt debts a) = total_debts a
  ∧ files_with_debts (fold_left add_debt debts a) = files_with_debts a
  ∧ average_debts_per_file (fold_left add_debt debts a)
    = average_debts_per_file a.
Proof.
  revert a. induction debts as [|d debts IH]; intros a; [done|].
  simpl. destruct (IH (add_debt a d)) as (-> & -> & ->). done.
Qed.

Lemma add_file_failed st result :
  completed result = false -> add_file st result = st.
Proof. intros H. destruct st. unfold add_file. by rewrite H. Qed.

Lemma fold_add_file_completed file_results st :
  fold_left add_file file_results st
  = fold_left add_file
      (filter (fun r => completed r = true) file_results) st.
Proof.
  revert st. induction file_results as [|r rs IH]; intros st; [done|].
  simpl. destruct (completed r) eqn:E.
  - rewrite filter_cons_True by done. simpl. apply IH.
  - rewrite filter_cons_False by congruence.
    rewrite add_file_failed by done. apply IH.
Qed.

Lemma fold_add_file_counters file_results a valid_files :
  Forall (fun r => completed r = true) file_results ->
  (fold_left add_file file_results (a, valid_files)).2
  = valid_files + length file_results
  ∧ total_debts (fold_left add_file file_results (a, valid_files)).1
    = total_debts a + sum_list (map (fun r => length (fr_debts r))
                                  file_results)
  ∧ files_with_debts (fold_left add_file file_results (a, valid_files)).1
    = files_with_debts a
      + length (filter (fun r => has_debts r = true) file_results)
  ∧ average_debts_per_file
      (fold_left add_file file_results (a, valid_files)).1
    = average_debts_per_file a.
Proof.
  intros Hall. revert a valid_files.
  induction Hall as [|r rs Hr _ IH]; intros a valid_files.
  { simpl. repeat split; lia. }
  cbn [fold_left]. unfold add_file at 2 4 6 8. rewrite Hr.
  cbn [negb].
  match goal with
  | |- context [fold_left add_file rs (fold_left add_debt ?ds ?a0, ?v)] =>
      destruct (IH (fold_left add_debt ds a0) v) as (E1 & E2 & E3 & E4);
      destruct (add_debts_counters ds a0) as (Ht & Hf & Ha)
  end.
  rewrite E1, E2, E3, E4, Ht, Hf, Ha. cbn [total_debts files_with_debts
    average_debts_per_file length map sum_list sum_list_with].
  repeat split; try (unfold id; lia).
  destruct (fr_debts r) eqn:E.
  - rewrite filter_cons_False by (unfold has_debts; rewrite E; done). lia.
  - rewrite filter_cons_True by (unfold has_debts; rewrite E; done).
    simpl. lia.
Qed.

End Aggregation.

(** C9. In the aggregate of a list of file results, with [N] the number of
    results whose status is [completed]: [average_debts_per_file] is 0.0
    when [N] is zero and [total_debts / N] otherwise; [total_debts] and
    [files_with_debts] are the sum of the debt counts and the number of
    files with debts over the completed results only; and the whole
    aggregate is the one computed from the completed results alone, so a
    failed result contributes to none of its fields. *)
Theorem aggregate_results_average (file_results : list Guardian.file_result) :
  let valid := filter (fun r => Guardian.completed r = true) file_results in
  let a := Guardian._aggregate_results file_results in
  Guardian.average_debts_per_file a
  = (if decide (length valid = 0) then 0.0%Q
     else (qn (Guardian.total_debts a) / qn (length valid))%Q)
  ∧ Guardian.total_debts a
    = sum_list (map (fun r => length (Guardian.fr_debts r)) valid)
  ∧ Guardian.files_with_debts a
    = length (filter (fun r => Guardian.has_debts r = true) valid)
  ∧ a = Guardian._aggregate_results valid.
Proof.
  intros valid a. subst a. unfold Guardian._aggregate_results.
  rewrite (fold_add_file_completed file_results). fold valid.
  assert (Hvalid : Forall (fun r => Guardian.completed r = true) valid).
  { apply Forall_forall. intros r Hr. subst valid.
    by apply list_elem_of_filter in Hr as [? _]. }
  destruct (fold_add_file_counters valid Guardian.aggregate_init 0 Hvalid)
    as (Hn & Ht & Hf & Ha).
  destruct (fold_left Guardian.add_file valid (Guardian.aggregate_init, 0))
    as [agg n].
  simpl in Hn, Ht, Hf, Ha. subst n.
  destruct (length valid) as [|k] eqn:Hlen; simpl.
  - repeat split; done.
  - repeat split; done.
Qed.

Lemma first_line_number_Some (P : text -> bool) lines n :
  LocalizationAgent.first_line_number P lines = Some n
  <-> Spec.first_line_where P lines n.
Proof.
  unfold LocalizationAgent.first_line_number, Spec.first_line_where.
  destruct (list_find _ lines) as [[i line]|] eqn:E; simpl; split.
  - intros [= <-]. apply list_find_Some in E as (Hi & HP & Hleast).
    exists i, line. split_and!; [done..|].
    intros j l Hj Hl. specialize (Hleast j l Hl Hj).
    by destruct (P l).
  - intros (i' & line' & -> & Hi' & HP' & Hleast').
    apply list_find_Some in E as (Hi & HP & Hleast).
    f_equal. destruct (Nat.lt_trichotomy i i') as [Hlt|[->|Hgt]]; [|done|].
    + specialize (Hleast' i line Hlt Hi). congruence.
    + by specialize (Hleast i' line' Hi' Hgt).
  - done.
  - intros (i & line & -> & Hi & HP & _).
    apply list_find_None in E.
    apply (Forall_lookup_1 _ _ _ _ E) in Hi. done.
Qed.

Lemma first_line_number_None (P : text -> bool) lines :
  LocalizationAgent.first_line_number P lines = None
  <-> Spec.no_line_where P lines.
Proof.
  unfold LocalizationAgent.first_line_number, Spec.no_line_where.
  destruct (list_find _ lines) as [[i line]|] eqn:E; simpl; split; try done.
  - intros Hall. apply list_find_Some in E as (Hi & HP & _).
    apply (Forall_lookup_1 _ _ _ _ Hall) in Hi. congruence.
  - intros _. apply list_find_None in E.
    eapply Forall_impl; [exact E|]. intros l Hl. by apply not_true_iff_false.
Qed.

(** C8, as amended.  For a result that carries the code of its unit, and a
    non-empty file: localization returns the same result with a location,
    and that location is (a) when some file line contains the unit's
    trimmed first code line, the first such line as [start_line],
    [end_line = start_line + n - 1] and no approximate flag, where [n] is
    the number of lines of the unit's code after the code as a whole is
    trimmed, not of its raw text; (b) otherwise, when some file line
    contains the declaration header, the first such line as [start_line],
    [end_line = start_line + n] and [approximate = True]; (c) otherwise an
    error marker with no line numbers, or the location the result already
    had. *)
Theorem localize_strategy_order (debt_result : detection) (code : text)
    (source_file_content : text) :
  d_code debt_result = Some code -> code ≠ [] ->
  source_file_content ≠ [] ->
  exists l,
    LocalizationAgent.localize debt_result source_file_content
    = LocalizationAgent.set_location debt_result l
    ∧ Spec.localized_by_strategy debt_result code source_file_content l.
Proof.
  intros Hcode Hne Hsrc. unfold Spec.localized_by_strategy.
  set (lines := split_lines source_file_content).
  set (exact := Spec.exact_match code).
  set (header := Spec.header_match (d_type debt_result) (d_name debt_result)).
  unfold LocalizationAgent.localize. rewrite Hcode. simpl.
  destruct code as [|c code]; [done|].
  destruct source_file_content as [|s src]; [done|].
  cbn [nonempty negb orb].
  fold lines. change (split_lines (strip (c :: code)))
    with (Spec.unit_lines (c :: code)).
  change (fun line => contains (strip (hd [] (Spec.unit_lines (c :: code))))
                        (strip line)) with exact.
  destruct (LocalizationAgent.first_line_number exact lines)
    as [start_line|] eqn:Ea.
  { eexists. split; [reflexivity|]. left. exists start_line.
    split; [by apply first_line_number_Some|done]. }
  apply first_line_number_None in Ea.
  assert (Hpat :
    LocalizationAgent.first_line_number
      (LocalizationAgent.search
         (if String.eqb (d_type debt_result) "class"
          then LocalizationAgent.class_pattern (of_string (d_name debt_result))
          else LocalizationAgent.method_pattern
                 (of_string (d_name debt_result)))) lines
    = LocalizationAgent.first_line_number header lines).
  { subst header. unfold Spec.header_match.
    by destruct (String.eqb (d_type debt_result) "class"). }
  rewrite Hpat.
  destruct (LocalizationAgent.first_line_number header lines)
    as [start_line|] eqn:Eb.
  { eexists. split; [reflexivity|]. right; left. split; [done|].
    exists start_line. split; [by apply first_line_number_Some|done]. }
  apply first_line_number_None in Eb.
  destruct (d_location debt_result) as [earlier|] eqn:Hloc.
  - exists earlier. split; [|by right; right].
    destruct debt_result. simpl in Hloc. by subst.
  - eexists. split; [reflexivity|]. right; right.
    split_and!; done.
Qed.

Lemma localize_strategy_order_witness :
  d_code Fixture.getX_result = Some Fixture.getX_code
  ∧ Fixture.getX_code ≠ [] ∧ Fixture.Point_java ≠ []
  ∧ exists l,
      LocalizationAgent.localize Fixture.getX_result Fixture.Point_java
      = LocalizationAgent.set_location Fixture.getX_result l
      ∧ Spec.localized_by_strategy Fixture.getX_result Fixture.getX_code
          Fixture.Point_java l.
Proof.
  split_and!; [reflexivity|discriminate|discriminate|].
  apply (localize_strategy_order Fixture.getX_result Fixture.getX_code
           Fixture.Point_java);
    [reflexivity|discriminate|discriminate].
Defined.

(** C8, as stated, fails on a unit whose text starts with a line break, as
    the method header pattern of the slicer allows.  The raw text has three
    lines and the trimmed first code line is first found in line 2 of the
    file, so the specified end line is 4; the code counts the two lines of
    the trimmed text and reports the end line 3, with no approximate
    flag. *)
Lemma localize_raw_line_count :
  let code := [newline] ++ of_string "    public int getX() {" ++ [newline]
              ++ of_string "    }" in
  let debt_result := Fixture.method_result "getX" code in
  length (split_lines code) = 3
  ∧ LocalizationAgent.first_line_number (Spec.exact_match code)
      (split_lines Fixture.Broken_java) = Some 2
  ∧ Spec.specified_end_line 2 code = 4
  ∧ d_location (LocalizationAgent.localize debt_result Fixture.Broken_java)
    = Some (Spec.located 2 3 "Point.java" None)
  ∧ d_location (LocalizationAgent.localize debt_result Fixture.Broken_java)
    ≠ Some (Spec.located 2 (Spec.specified_end_line 2 code) "Point.java"
              None).
Proof. split_and!; [reflexivity..|discriminate]. Qed.

(** The three strategies on the file [Point.java]. *)
Example localize_exact :
  d_location (LocalizationAgent.localize Fixture.getX_result
                Fixture.Point_java)
  = Some (Spec.located 3 3 "Point.java" None).
Proof. reflexivity. Qed.

Example localize_approximate :
  d_location (LocalizationAgent.localize
                (Fixture.method_result "getX"
                   (of_string "int getX ( ) { return x; }"))
                Fixture.Point_java)
  = Some (Spec.located 3 4 "Point.java" (Some true)).
Proof. reflexivity. Qed.

Example localize_failure :
  d_location (LocalizationAgent.localize
                (Fixture.method_result "getY"
                   (of_string "int getY() { return y; }"))
                Fixture.Point_java)
  = Some (LocalizationAgent.error_location "Could not localize code"
            (Some "Point.java")).
Proof. reflexivity. Qed.

(** A unit whose text starts with a line break, as the method header
    pattern allows: the line count used is that of the trimmed text, two
    lines here, where the raw text has three. *)
Example localize_leading_newline :
  let code := [newline] ++ of_string "    public int getX() {" ++ [newline]
              ++ of_string "    }" in
  length (split_lines code) = 3
  ∧ length (Spec.unit_lines code) = 2
  ∧ d_location (LocalizationAgent.localize
                  (Fixture.method_result "getX" code) Fixture.Broken_java)
    = Some (Spec.located 2 3 "Point.java" None).
Proof. split_and!; reflexivity. Qed.

Lemma unit_lines_untrimmed (code : text) :
  strip code = code -> Spec.unit_lines code = split_lines code.
Proof. unfold Spec.unit_lines. by intros ->. Qed.

(** The results the detectors build carry no code, and without code
    localization gives the error marker at once. *)
Lemma detected_results_carry_no_code `{A : Agent} (prompt : text)
    (class_info : class_unit) (method_info : method_unit) :
  d_code (ClassDebtDetector.detect prompt class_info) = None
  ∧ d_code (MethodDebtDetector.detect prompt method_info) = None.
Proof.
  unfold ClassDebtDetector.detect, MethodDebtDetector.detect.
  split; by case_match.
Qed.

Lemma localize_without_code (debt_result : detection)
    (source_file_content : text) :
  d_code debt_result = None ->
  LocalizationAgent.localize debt_result source_file_content
  = LocalizationAgent.set_location debt_result
      (LocalizationAgent.error_location "Missing code or source file" None).
Proof. intros H. unfold LocalizationAgent.localize. by rewrite H. Qed.

Example header_patterns :
  LocalizationAgent.search
    (LocalizationAgent.class_pattern (of_string "Point"))
    (of_string "public final class   Point extends Shape {") = true
  ∧ LocalizationAgent.search
      (LocalizationAgent.class_pattern (of_string "Point"))
      (of_string "classPoint {") = false
  ∧ LocalizationAgent.search
      (LocalizationAgent.method_pattern (of_string "getX"))
      (of_string "    public int getX  () {") = true
  ∧ LocalizationAgent.search
      (LocalizationAgent.method_pattern (of_string "getX"))
      (of_string "getX()") = false.
Proof. repeat split; reflexivity. Qed.

Section Dispatch.
Context `{Sch : Coordinator.Scheduler}.
Variable self : Coordinator.coordinator.
Variables class_prompt method_prompt : text.
Variables explanation_prompt fix_prompt : detection -> text.

Local Abbreviation kept := (fun r : detection => Coordinator.is_no_smell r = false).

Lemma dispatch_Permutation {U} (detect : U -> detection) units :
  Coordinator.dispatch self detect units ≡ₚ map detect units.
Proof.
  unfold Coordinator.dispatch.
  destruct (_ && _); [apply Coordinator.as_completed_perm|done].
Qed.

Lemma detect_class_debts_Permutation detector classes :
  Coordinator._detect_class_debts self class_prompt detector classes
  ≡ₚ filter kept (map (@ClassDebtDetector.detect detector class_prompt)
                    classes).
Proof.
  unfold Coordinator._detect_class_debts. by rewrite dispatch_Permutation.
Qed.

Lemma detect_method_debts_Permutation detector methods :
  Coordinator._detect_method_debts self method_prompt detector methods
  ≡ₚ filter kept (map (@MethodDebtDetector.detect detector method_prompt)
                    methods).
Proof.
  unfold Coordinator._detect_method_debts. by rewrite dispatch_Permutation.
Qed.

Lemma all_detections_Permutation classes methods :
  Coordinator.all_detections self class_prompt method_prompt classes methods
  ≡ₚ filter kept
       (Spec.submitted_results self class_prompt method_prompt
          classes methods).
Proof.
  unfold Coordinator.all_detections, Spec.submitted_results.
  rewrite filter_app. apply Permutation_app.
  { destruct (Coordinator.class_detector self) as [detector|]; [|done].
    destruct classes; [done|]. apply detect_class_debts_Permutation. }
  destruct (Coordinator.method_detector self) as [detector|];
    [|by rewrite app_nil_r].
  rewrite filter_app. apply Permutation_app.
  { destruct methods; [done|]. apply detect_method_debts_Permutation. }
  induction classes as [|c classes IH]; [done|].
  simpl. rewrite filter_app. apply Permutation_app; [|exact IH].
  destruct (c_methods c) eqn:E; [done|].
  apply detect_method_debts_Permutation.
Qed.

Lemma post_process_confidence detections source_content :
  map d_confidence
    (Coordinator._post_process self explanation_prompt fix_prompt
       detections source_content)
  = map d_confidence detections.
Proof.
  unfold Coordinator._post_process. rewrite map_map.
  apply map_ext. intros d.
  assert (Hloc : forall d, d_confidence
                   (LocalizationAgent.localize d source_content)
                 = d_confidence d).
  { intros d0. unfold LocalizationAgent.localize.
    repeat (case_match; simpl; try done). }
  assert (Hexp : forall a d, d_confidence
                   (@ExplanationAgent.explain a explanation_prompt d)
                 = d_confidence d).
  { intros a d0. unfold ExplanationAgent.explain.
    repeat (case_match; simpl; try done). }
  assert (Hfix : forall a d, d_confidence
                   (@FixSuggestionAgent.suggest_fix a fix_prompt d)
                 = d_confidence d).
  { intros a d0. unfold FixSuggestionAgent.suggest_fix.
    repeat (case_match; simpl; try done). }
  destruct (Coordinator.localizer self),
    (Coordinator.explainer self), (Coordinator.fix_suggester self);
    by rewrite ?Hfix, ?Hexp, ?Hloc.
Qed.

Lemma confidence_filter_bound detections :
  Forall (fun d => (Coordinator.min_confidence self <= d_confidence d)%Q)
    (Coordinator.confidence_filter self detections).
Proof.
  apply Forall_forall. intros d [H _]%list_elem_of_filter.
  by apply Qle_bool_iff.
Qed.

Lemma analyze_file_debts_bound sliced_data source_file_content :
  Forall (fun d => (Coordinator.min_confidence self <= d_confidence d)%Q)
    (Coordinator.fa_debts
       (Coordinator.analyze_file self class_prompt method_prompt
          explanation_prompt fix_prompt sliced_data source_file_content)).
Proof.
  unfold Coordinator.analyze_file. cbn [Coordinator.fa_debts].
  assert (Hmap : forall ds ds' : list detection,
             map d_confidence ds' = map d_confidence ds ->
             Forall (fun d => (Coordinator.min_confidence self
                               <= d_confidence d)%Q) ds ->
             Forall (fun d => (Coordinator.min_confidence self
                               <= d_confidence d)%Q) ds').
  { intros ds ds' Heq H.
    apply (Forall_fmap d_confidence
             (fun q => (Coordinator.min_confidence self <= q)%Q)).
    change (Forall (fun q => (Coordinator.min_confidence self <= q)%Q)
              (map d_confidence ds')).
    rewrite Heq.
    by apply (Forall_fmap d_confidence
                (fun q => (Coordinator.min_confidence self <= q)%Q)). }
  destruct source_file_content as [[|c s]|];
    try apply confidence_filter_bound.
  eapply Hmap; [apply post_process_confidence|].
  apply confidence_filter_bound.
Qed.

End Dispatch.

(** C7. A detector that gets no response for a unit returns, instead of
    raising, a result labelled [UNKNOWN] with confidence 0.0.  The
    detections of a file are then, up to order, one result per submitted
    unit other than those labelled 0, so every other unit of the batch is
    still processed and the [UNKNOWN] result is among them and counted in
    [total_detections]; and when [min_confidence] is positive (0.5 by
    default) that result does not pass the confidence filter: every
    reported debt has a confidence of at least [min_confidence]. *)
Theorem no_response_counted_then_filtered `{Sch : Coordinator.Scheduler}
    (self : Coordinator.coordinator) (class_prompt method_prompt : text)
    (explanation_prompt fix_prompt : detection -> text)
    (sliced_data : slice_result) (source_file_content : option text) :
  let all :=
    Coordinator.all_detections self class_prompt method_prompt
      (r_classes sliced_data) (r_methods sliced_data) in
  let submitted :=
    Spec.submitted_results self class_prompt method_prompt
      (r_classes sliced_data) (r_methods sliced_data) in
  let analysis :=
    Coordinator.analyze_file self class_prompt method_prompt
      explanation_prompt fix_prompt sliced_data source_file_content in
  (forall (detector : Agent) (class_info : class_unit),
      reply_content
        (@generate_reply detector
           (code_fence class_prompt (c_code class_info))) = None ->
      @ClassDebtDetector.detect detector class_prompt class_info
      = no_response "class" (c_name class_info))
  ∧ (forall (detector : Agent) (method_info : method_unit),
        reply_content
          (@generate_reply detector
             (code_fence method_prompt (m_code method_info))) = None ->
        @MethodDebtDetector.detect detector method_prompt method_info
        = no_response "method" (m_name method_info))
  ∧ (forall type name,
        d_label (no_response type name) = "UNKNOWN"
        ∧ d_confidence (no_response type name) = 0.0%Q)
  ∧ all ≡ₚ filter (fun r => Coordinator.is_no_smell r = false) submitted
  ∧ Coordinator.fa_total_detections analysis = length all
  ∧ (forall type name,
        no_response type name ∈ submitted -> no_response type name ∈ all)
  ∧ ((0 < Coordinator.min_confidence self)%Q ->
     (forall type name,
         no_response type name ∉ Coordinator.confidence_filter self all)
     ∧ Forall (fun d => (0 < d_confidence d)%Q)
         (Coordinator.fa_debts analysis)).
Proof.
  intros all submitted analysis.
  assert (Hperm := all_detections_Permutation self class_prompt method_prompt
                     (r_classes sliced_data) (r_methods sliced_data)).
  fold all submitted in Hperm.
  split_and!.
  - intros detector class_info H.
    unfold ClassDebtDetector.detect. by rewrite H.
  - intros detector method_info H.
    unfold MethodDebtDetector.detect. by rewrite H.
  - done.
  - exact Hperm.
  - done.
  - intros type name Hin. rewrite Hperm.
    apply list_elem_of_filter. by split.
  - intros Hpos. split.
    + intros type name [Hle _]%list_elem_of_filter.
      apply Qle_bool_iff in Hle. simpl in Hle.
      pose proof (Qlt_le_trans _ _ _ Hpos Hle) as Hlt. by vm_compute in Hlt.
    + eapply Forall_impl;
        [apply (analyze_file_debts_bound self class_prompt method_prompt
                  explanation_prompt fix_prompt)|].
      intros d Hd. simpl in Hd. by eapply Qlt_le_trans.
Qed.

Lemma no_response_counted_then_filtered_witness :
  let all :=
    @Coordinator.all_detections Fixture.in_order Fixture.methods_only [] []
      (r_classes Fixture.sliced) (r_methods Fixture.sliced) in
  let analysis :=
    @Coordinator.analyze_file Fixture.in_order Fixture.methods_only [] []
      (fun _ => []) (fun _ => []) Fixture.sliced (Some Fixture.Point_java) in
  @ClassDebtDetector.detect Fixture.silent [] Fixture.Point_unit
  = no_response "class" "Point"
  ∧ @MethodDebtDetector.detect Fixture.silent [] Fixture.getX_unit
    = no_response "method" "getX"
  ∧ no_response "method" "getX" ∈ all
  ∧ Coordinator.fa_total_detections analysis = length all
  ∧ (0 < Coordinator.min_confidence Fixture.methods_only)%Q
  ∧ (no_response "method" "getX"
     ∉ Coordinator.confidence_filter Fixture.methods_only all)
  ∧ Forall (fun d => (0 < d_confidence d)%Q) (Coordinator.fa_debts analysis).
Proof.
  intros all analysis.
  destruct (@no_response_counted_then_filtered Fixture.in_order
              Fixture.methods_only [] [] (fun _ => []) (fun _ => [])
              Fixture.sliced (Some Fixture.Point_java))
    as (Hclass & Hmethod & _ & _ & Htotal & Hin & Hfilter).
  assert (Hpos : (0 < Coordinator.min_confidence Fixture.methods_only)%Q)
    by reflexivity.
  destruct (Hfilter Hpos) as [Hout Hdebts].
  split_and!.
  - apply (Hclass Fixture.silent Fixture.Point_unit). reflexivity.
  - apply (Hmethod Fixture.silent Fixture.getX_unit). reflexivity.
  - apply Hin. apply list_elem_of_here.
  - exact Htotal.
  - exact Hpos.
  - apply Hout.
  - exact Hdebts.
Defined.

Example no_response_totals :
  let analysis :=
    @Coordinator.analyze_file Fixture.in_order Fixture.methods_only [] []
      (fun _ => []) (fun _ => []) Fixture.sliced (Some Fixture.Point_java) in
  Coordinator.fa_total_detections analysis = 1
  ∧ Coordinator.fa_filtered_detections analysis = 0.
Proof. split; reflexivity. Qed.

Section CountLoc.
Variable lines : list text.

Local Abbreviation line := (Spec.line_at lines).

Local Abbreviation open_before := (Spec.open_before lines).

Lemma in_comment_span_iff i :
  Spec.in_comment_span lines i = true
  <-> exists j, j <= i ∧ Spec.has_open (line j) = true
                ∧ forall k, j <= k < i -> Spec.has_close (line k) = false.
Proof.
  unfold Spec.in_comment_span. rewrite existsb_exists. split.
  - intros (j & Hj%in_seq & (Ho & Hall)%andb_true_iff).
    exists j. split_and!; [lia|done|].
    intros k Hk. rewrite forallb_forall in Hall.
    apply negb_true_iff, Hall, in_seq. lia.
  - intros (j & Hj & Ho & Hall). exists j. split; [apply in_seq; lia|].
    apply andb_true_iff. split; [done|].
    apply forallb_forall. intros k Hk%in_seq.
    apply negb_true_iff, Hall. lia.
Qed.

Lemma in_comment_span_open_before i :
  Spec.in_comment_span lines i = true
  <-> Spec.has_open (line i) = true ∨ open_before i.
Proof.
  rewrite in_comment_span_iff. unfold open_before. split.
  - intros (j & Hj & Ho & Hall).
    destruct (decide (j = i)) as [->|]; [by left|].
    right. exists j. split_and!; [lia|done..].
  - intros [Ho|(j & Hj & Ho & Hall)].
    + exists i. split_and!; [done..|]. intros k Hk. lia.
    + exists j. split_and!; [lia|done..].
Qed.

Lemma open_before_S n :
  open_before (S n)
  <-> (Spec.has_open (line n) = true ∨ open_before n)
      ∧ Spec.has_close (line n) = false.
Proof.
  unfold open_before. split.
  - intros (j & Hj & Ho & Hall). split; [|apply Hall; lia].
    destruct (decide (j = n)) as [->|]; [by left|].
    right. exists j. split_and!; [lia|done|].
    intros k Hk. apply Hall. lia.
  - intros [[Ho|(j & Hj & Ho & Hall)] Hc].
    + exists n. split_and!; [lia|done|].
      intros k Hk. by replace k with n by lia.
    + exists j. split_and!; [lia|done|].
      intros k Hk. destruct (decide (k = n)) as [->|]; [done|].
      apply Hall. lia.
Qed.

Lemma count_loc_prefix n :
  n <= length lines ->
  exists flag,
    fold_left count_loc_step (firstn n lines) (0, false)
    = (length (filter (fun i => Spec.excluded lines i = false) (seq 0 n)),
       flag)
    ∧ (flag = true <-> open_before n).
Proof.
  induction n as [|n IH]; intros Hn.
  { exists false. split; [done|]. split; [done|].
    intros (j & Hj & _). lia. }
  destruct IH as (flag & Hfold & Hflag); [lia|].
  destruct (lookup_lt_is_Some_2 lines n) as [x Hx]; [lia|].
  assert (Hline : line n = x).
  { unfold Spec.line_at. by rewrite nth_lookup, Hx. }
  rewrite seq_S, filter_app, length_app.
  rewrite (take_S_r _ _ _ Hx), fold_left_app, Hfold.
  cbn [fold_left Nat.add]. unfold count_loc_step.
  assert (length (filter (fun i => Spec.excluded lines i = false) [n])
          = if Spec.excluded lines n then 0 else 1) as ->.
  { rewrite filter_cons, filter_nil.
    destruct (Spec.excluded lines n); by case_decide. }
  set (counted := length (filter _ (seq 0 n))).
  pose proof (open_before_S n) as HS.
  pose proof (in_comment_span_open_before n) as Hspan.
  unfold Spec.excluded, Spec.specified_excluded.
  unfold Spec.has_open, Spec.has_close, Spec.is_blank,
    Spec.is_line_comment in *.
  rewrite Hline in *.
  destruct (contains block_close (strip x)) eqn:Hc.
  { exists false. split.
    - rewrite orb_true_r. f_equal. lia.
    - split; [done|]. rewrite HS. intros [_ ?]. done. }
  destruct (contains block_open (strip x)) eqn:Ho.
  { exists true. split.
    - assert (Spec.in_comment_span lines n = true) as ->
        by (apply Hspan; by left).
      rewrite !orb_true_r. f_equal. simpl. lia.
    - split; [|done]. intros _. apply HS. split; [by left|done]. }
  destruct flag.
  { exists true. split.
    - assert (Spec.in_comment_span lines n = true) as ->
        by (apply Hspan; right; by apply Hflag).
      rewrite !orb_true_r. f_equal. simpl. lia.
    - split; [|done]. intros _. apply HS.
      split; [right; by apply Hflag|done]. }
  exists false.
  assert (Hnot : ¬ open_before n).
  { intros H%Hflag. done. }
  assert (Spec.in_comment_span lines n = false) as ->.
  { apply not_true_iff_false. rewrite Hspan. intros [?|?]; done. }
  split.
  - rewrite !orb_false_r.
    destruct (nonempty (strip x)), (startswith line_comment (strip x));
      simpl; f_equal; lia.
  - split; [done|]. rewrite HS. intros [[?|?] _]; done.
Qed.

End CountLoc.

Lemma filter_ext_seq (P Q : nat -> Prop) `{forall i, Decision (P i)}
    `{forall i, Decision (Q i)} (n : nat) :
  (forall i, i < n -> (P i <-> Q i)) ->
  filter P (seq 0 n) = filter Q (seq 0 n).
Proof.
  intros Hpq. induction n as [|n IH]; [done|].
  rewrite seq_S, !filter_app, IH by (intros i Hi; apply Hpq; lia).
  f_equal. simpl. rewrite !filter_cons, !filter_nil.
  destruct (decide (P n)) as [HP|HP], (decide (Q n)) as [HQ|HQ]; try done;
    exfalso; apply (Hpq n) in HP || apply (Hpq n) in HQ; done || lia.
Qed.

(** What [_count_loc] computes.  The line count of a text is the number of
    its lines, after splitting on newlines, that are none of: blank after
    trimming; starting, after trimming, with the line comment token; part
    of a comment span, from a line holding the start token to the next line
    holding the end token, this one included; or, whether or not a span is
    open, a line holding the end token. *)
Lemma count_loc_counts_lines (code : text) :
  _count_loc code = length (Spec.counted_lines code).
Proof.
  unfold _count_loc, Spec.counted_lines.
  destruct (count_loc_prefix (split_lines code) (length (split_lines code)))
    as (flag & Hfold & _); [done|].
  rewrite firstn_all in Hfold. by rewrite Hfold.
Qed.

(** The code counts as specified on every text in which the end token
    occurs only on lines of a comment span. *)
Lemma count_loc_as_specified (code : text) :
  (forall i, i < length (split_lines code) ->
             Spec.has_close (Spec.line_at (split_lines code) i) = true ->
             Spec.in_comment_span (split_lines code) i = true) ->
  _count_loc code = Spec.specified_count_loc code.
Proof.
  intros Hclosed. rewrite count_loc_counts_lines.
  unfold Spec.counted_lines, Spec.specified_count_loc. cbv zeta.
  f_equal. apply filter_ext_seq. intros i Hi.
  unfold Spec.excluded, Spec.specified_excluded.
  destruct (Spec.has_close _) eqn:Hc; [|by rewrite orb_false_r].
  rewrite (Hclosed i Hi Hc). by rewrite !orb_true_r.
Qed.

(** C6, at a line of code that holds the end token in a string literal
    while no comment is open.  The line is not blank, is not a line comment
    and lies in no comment span, so the specified count of this text is 1;
    the code skips every line that holds the end token before it looks at
    its comment flag, and returns 0. *)
Theorem count_loc_stray_close :
  let code := of_string "String close = " ++ [dquote] ++ of_string "*/"
              ++ [dquote] ++ of_string ";" in
  let lines := split_lines code in
  length lines = 1
  ∧ Spec.is_blank (Spec.line_at lines 0) = false
  ∧ Spec.is_line_comment (Spec.line_at lines 0) = false
  ∧ Spec.in_comment_span lines 0 = false
  ∧ Spec.has_close (Spec.line_at lines 0) = true
  ∧ Spec.specified_count_loc code = 1
  ∧ _count_loc code = 0
  ∧ _count_loc code ≠ Spec.specified_count_loc code.
Proof. split_and!; [reflexivity..|discriminate]. Qed.

Section ExtractBlock.

Lemma find_from_spec c s start :
  match find_from c s start with
  | Some pos => start <= pos ∧ s !! pos = Some c
                ∧ forall j, start <= j < pos -> s !! j ≠ Some c
  | None => forall j, start <= j -> s !! j ≠ Some c
  end.
Proof.
  revert start. induction s as [|x s IH]; intros start.
  { destruct start; simpl; intros j _; by rewrite lookup_nil. }
  destruct start as [|n]; simpl.
  - destruct (Ascii.eqb_spec x c) as [->|Hne].
    + split_and!; [lia|done|]. intros j Hj. lia.
    + specialize (IH 0). destruct (find_from c s 0) as [pos|]; simpl.
      * destruct IH as (_ & Hpos & Hleast). split_and!; [lia|done|].
        intros [|j] Hj; simpl; [congruence|]. apply Hleast. lia.
      * intros [|j] _; simpl; [congruence|]. apply IH. lia.
  - specialize (IH n). destruct (find_from c s n) as [pos|]; simpl.
    + destruct IH as (Hle & Hpos & Hleast). split_and!; [lia|done|].
      intros [|j] Hj; simpl; [lia|]. apply Hleast. lia.
    + intros [|j] Hj; simpl; [lia|]. apply IH. lia.
Qed.

Local Abbreviation mode_of := Spec.mode_of.
Local Abbreviation lexer_of := Spec.lexer_of.
Local Abbreviation one_literal := Spec.one_literal.

Lemma scan_char_spec st char :
  one_literal st ->
  let st' := (scan_char st char).1 in
  one_literal st'
  ∧ lexer_of st' = Spec.lex_step (lexer_of st) char
  ∧ count st' = (count st + Spec.depth_change (lexer_of st) char)%Z
  ∧ (scan_char st char).2
    = bool_decide (Spec.depth_change (lexer_of st) char = (-1)%Z
                   ∧ count st' = 0%Z).
Proof.
  destruct st as [n s c e]. unfold one_literal, scan_char, lexer_of,
    mode_of, Spec.lex_step, Spec.depth_change.
  cbn [count in_string in_char escape Spec.lx_mode Spec.lx_escaped].
  intros Hone.
  assert (Hret : forall (b : bool) (P : Prop) `{Decision P},
             (if b then P else ¬ P) -> b = bool_decide P).
  { intros [] P ? HP; symmetry;
      [by apply bool_decide_eq_true|by apply bool_decide_eq_false]. }
  destruct s, c; try (destruct Hone; discriminate);
    destruct e; cbn [negb andb fst snd];
    repeat match goal with
      | |- context [Ascii.eqb ?a ?b] =>
          destruct (Ascii.eqb_spec a b); try discriminate; subst;
          cbn [negb andb fst snd]
      end;
    cbn [count in_string in_char escape fst snd negb andb];
    (split_and!; [auto|reflexivity|lia|]);
    apply Hret; try (intros [? _]; discriminate).
  destruct (Z.eqb_spec (n - 1) 0); [split; [done|lia]|intros [_ ?]; lia].
Qed.

Lemma depth_change_range s c :
  (-1 <= Spec.depth_change s c <= 1)%Z.
Proof.
  unfold Spec.depth_change.
  destruct (Spec.lx_mode s), (Spec.lx_escaped s); try lia.
  destruct (Ascii.eqb c lbrace), (Ascii.eqb c rbrace); lia.
Qed.

Lemma scan_loop_spec rest :
  forall st i, one_literal st -> (1 <= count st)%Z ->
  match scan_loop st i rest with
  | Some k =>
      exists m, k = i + m ∧ m < length rest
        ∧ (count st + Spec.depth_from (lexer_of st) (firstn (S m) rest)
           = 0)%Z
        ∧ forall j, j < m ->
            (count st + Spec.depth_from (lexer_of st) (firstn (S j) rest)
             ≠ 0)%Z
  | None =>
      forall j, j < length rest ->
        (count st + Spec.depth_from (lexer_of st) (firstn (S j) rest)
         ≠ 0)%Z
  end.
Proof.
  induction rest as [|c rest IH]; intros st i Hone Hcount.
  { simpl. intros j Hj. lia. }
  cbn [scan_loop].
  destruct (scan_char_spec st c Hone) as (Hone' & Hlex & Hcnt & Hret).
  pose proof (depth_change_range (lexer_of st) c) as Hrange.
  destruct (scan_char st c) as [st' ret]. cbn [fst snd] in *.
  destruct ret.
  { symmetry in Hret. apply bool_decide_eq_true in Hret as [_ Hzero].
    exists 0. split_and!; [lia|simpl; lia| |intros j Hj; lia].
    cbn [firstn Spec.depth_from]. rewrite firstn_O. simpl. lia. }
  symmetry in Hret. apply bool_decide_eq_false in Hret.
  assert (Hcount' : (1 <= count st')%Z).
  { destruct (decide (count st' = 0%Z)) as [Hz|]; [|lia].
    exfalso. apply Hret. split; [lia|done]. }
  specialize (IH st' (S i) Hone' Hcount'). rewrite Hlex in IH.
  destruct (scan_loop st' (S i) rest) as [k|].
  - destruct IH as (m & -> & Hm & Hzero & Hleast).
    exists (S m). split_and!; [lia|simpl; lia| |].
    + cbn [firstn Spec.depth_from] in *. lia.
    + intros [|j] Hj; cbn [firstn Spec.depth_from] in *;
        [rewrite firstn_O; simpl; lia|].
      specialize (Hleast j). lia.
  - intros [|j] Hj; cbn [firstn Spec.depth_from] in *;
      [rewrite firstn_O; simpl; lia|].
    simpl in Hj. specialize (IH j). lia.
Qed.

End ExtractBlock.

(** C3. [_extract_block] locates the first opening brace at or after the
    start position; from there the depth goes up and down on the braces
    read in code, not on those read inside a string or character literal,
    and a character that follows a backslash neither counts nor ends a
    literal.  The result is the text from the start position through the
    first position at which the depth is zero again; it is [None] when
    there is no opening brace or when the depth is never zero again before
    the end of the text.  A block whose string literal holds escaped quotes
    around a brace is extracted whole. *)
Theorem extract_block_balanced (source_code : text) (start_pos : nat) :
  match _extract_block source_code start_pos with
  | Some block =>
      exists brace_pos i,
        Spec.first_brace source_code start_pos brace_pos
        ∧ Spec.block_end source_code brace_pos i
        ∧ block = slice source_code start_pos (i + 1)
  | None =>
      (forall brace_pos, ¬ Spec.first_brace source_code start_pos brace_pos)
      ∨ (exists brace_pos,
            Spec.first_brace source_code start_pos brace_pos
            ∧ Spec.unbalanced source_code brace_pos)
  end
  ∧ _extract_block (of_string "void f() " ++ Fixture.escaped_block
                    ++ of_string " }") 5
    = Some (of_string "f() " ++ Fixture.escaped_block).
Proof.
  split; [|reflexivity].
  unfold _extract_block.
  pose proof (find_from_spec lbrace source_code start_pos) as Hfind.
  destruct (find_from lbrace source_code start_pos) as [brace_pos|].
  2: { left. intros brace_pos (Hle & Hbrace & _). by apply (Hfind brace_pos). }
  assert (Hfirst : Spec.first_brace source_code start_pos brace_pos) by done.
  destruct Hfind as (Hle & Hbrace & _).
  pose proof (lookup_lt_Some _ _ _ Hbrace) as Hlen.
  rewrite (drop_S _ _ _ Hbrace). cbn [scan_loop].
  change (scan_char scan_init lbrace) with (Scan 1 false false false, false).
  cbn iota.
  pose proof (scan_loop_spec (drop (S brace_pos) source_code)
                (Scan 1 false false false) (S brace_pos)) as Hscan.
  assert (Hdepth : forall m,
    Spec.depth (slice source_code brace_pos (brace_pos + m + 1))
    = (1 + Spec.depth_from (Spec.Lexer Spec.Code false)
             (firstn m (drop (S brace_pos) source_code)))%Z).
  { intros m. unfold slice, Spec.depth.
    replace (brace_pos + m + 1 - brace_pos) with (S m) by lia.
    rewrite (drop_S _ _ _ Hbrace). reflexivity. }
  assert (Hrest : length (drop (S brace_pos) source_code)
                  = length source_code - S brace_pos) by apply length_drop.
  destruct (scan_loop _ _ _) as [k|].
  - destruct Hscan as (m & -> & Hm & Hzero & Hleast);
      [by left|simpl; lia|].
    exists brace_pos, (S brace_pos + m).
    split; [done|]. split; [|done]. unfold Spec.block_end.
    split_and!; [lia|lia| |].
    + replace (S brace_pos + m + 1) with (brace_pos + S m + 1) by lia.
      rewrite Hdepth. exact Hzero.
    + intros j Hj.
      replace (j + 1) with (brace_pos + (j - brace_pos) + 1) by lia.
      rewrite Hdepth.
      destruct (j - brace_pos) as [|j'] eqn:Ej; [simpl; lia|].
      apply (Hleast j'). lia.
  - right. exists brace_pos. split; [done|]. intros i Hi.
    replace (i + 1) with (brace_pos + (i - brace_pos) + 1) by lia.
    rewrite Hdepth.
    destruct (i - brace_pos) as [|i'] eqn:Ei; [simpl; lia|].
    apply Hscan; [by left|simpl; lia|lia].
Qed.

(** * Further properties of the code *)

(** Membership in an explicit list. *)
Ltac in_list :=
  repeat first [apply list_elem_of_here | apply list_elem_of_further].

(** ** Detection results *)

Lemma class_normalize_label_vocabulary (t : text) :
  ClassDebtDetector._normalize_label t ∈ Spec.class_labels.
Proof.
  unfold Spec.class_labels.
  induction t as [|c t IH]; simpl; [in_list|].
  repeat case_match; first [exact IH | in_list].
Qed.

Lemma method_normalize_label_vocabulary (t : text) :
  MethodDebtDetector._normalize_label t ∈ Spec.method_labels.
Proof.
  unfold MethodDebtDetector._normalize_label, Spec.method_labels.
  repeat case_match; in_list.
Qed.

Lemma class_confidence_by_table label metrics :
  label ∈ Spec.class_labels ->
  ClassDebtDetector._calculate_confidence label metrics
  = Spec.confidence_table label metrics.
Proof.
  intros Hin. revert metrics. revert label Hin.
  refine (proj1 (Forall_forall _ _) _).
  repeat constructor; intros metrics;
    unfold ClassDebtDetector._calculate_confidence, Spec.confidence_table;
    simpl; tiers.
Qed.

Lemma method_confidence_by_table label metrics :
  label ∈ Spec.method_labels ->
  MethodDebtDetector._calculate_confidence label metrics
  = Spec.confidence_table label metrics.
Proof.
  intros Hin. revert metrics. revert label Hin.
  refine (proj1 (Forall_forall _ _) _).
  repeat constructor; intros metrics;
    unfold MethodDebtDetector._calculate_confidence, Spec.confidence_table;
    simpl; tiers.
Qed.

Lemma confidence_table_values label metrics :
  Spec.confidence_table label metrics ∈ [0.5; 0.6; 0.75; 0.9]%Q.
Proof.
  unfold Spec.confidence_table. repeat case_decide; in_list.
Qed.

(** X1. Whatever the model replies, a detection has a label of its
    detector's vocabulary, a debt type exactly when the label is not
    [UNKNOWN], and a confidence between 0 and 1.  When the model replied to
    the prompt built from the unit's code, the detection has no error, its
    label is the reply as the detector reads it, and its confidence is the
    table's value at that label and the unit's metrics; when the model did
    not reply, the detection is the no-response result of the unit: an
    error, the label [UNKNOWN] and the confidence 0.0. *)
Theorem detection_label_confidence `{A : Agent} (class_prompt : text)
    (method_prompt : text) (class_info : class_unit)
    (method_info : method_unit) :
  let class_reply :=
    reply_content
      (generate_reply (code_fence class_prompt (c_code class_info))) in
  let method_reply :=
    reply_content
      (generate_reply (code_fence method_prompt (m_code method_info))) in
  (Spec.detection_follows_table Spec.class_labels (c_metrics class_info)
     (ClassDebtDetector.detect class_prompt class_info)
   ∧ Spec.detection_of_reply ClassDebtDetector._normalize_label
       "class" (c_name class_info) class_reply
       (ClassDebtDetector.detect class_prompt class_info))
  ∧ (Spec.detection_follows_table Spec.method_labels
       (m_metrics method_info)
       (MethodDebtDetector.detect method_prompt method_info)
     ∧ Spec.detection_of_reply MethodDebtDetector._normalize_label
         "method" (m_name method_info) method_reply
         (MethodDebtDetector.detect method_prompt method_info)).
Proof.
  assert (Hrange : forall label metrics,
             (0 <= Spec.confidence_table label metrics <= 1)%Q).
  { intros label metrics.
    pose proof (confidence_table_values label metrics) as Hin.
    rewrite !elem_of_cons, elem_of_nil in Hin.
    destruct Hin as [->|[->|[->|[->|[]]]]]; split; by vm_compute. }
  cbv zeta. unfold Spec.detection_follows_table, Spec.detection_of_reply.
  split.
  - unfold ClassDebtDetector.detect. cbv zeta.
    destruct (reply_content _) as [content|]; cbn -[Spec.confidence_table].
    + pose proof (class_normalize_label_vocabulary (strip content)) as Hin.
      rewrite (class_confidence_by_table _ _ Hin).
      split; [|done].
      split_and!; [done| |done|done|apply Hrange..].
      unfold Spec.class_labels in Hin.
      rewrite !elem_of_cons, elem_of_nil in Hin.
      destruct Hin as [->|[->|[->|[->|[]]]]]; by vm_compute.
    + split; [|done].
      split_and!; [unfold Spec.class_labels; in_list|done..].
  - unfold MethodDebtDetector.detect. cbv zeta.
    destruct (reply_content _) as [content|]; cbn -[Spec.confidence_table].
    + pose proof (method_normalize_label_vocabulary (strip content)) as Hin.
      rewrite (method_confidence_by_table _ _ Hin).
      split; [|done].
      split_and!; [done| |done|done|apply Hrange..].
      unfold Spec.method_labels in Hin.
      rewrite !elem_of_cons, elem_of_nil in Hin.
      destruct Hin as [->|[->|[->|[->|[]]]]]; by vm_compute.
    + split; [|done].
      split_and!; [unfold Spec.method_labels; in_list|done..].
Qed.

(** Turn every boolean comparison of the goal into the proposition it
    decides. *)
Ltac compare_all :=
  repeat match goal with
    | |- context [Qlt_bool ?a ?b] =>
        let E := fresh "E" in
        destruct (Qlt_bool a b) eqn:E;
        [apply Qlt_bool_iff in E | apply Qlt_bool_false in E]
    | |- context [Qle_bool ?a ?b] =>
        let E := fresh "E" in
        destruct (Qle_bool a b) eqn:E;
        [apply Qle_bool_iff in E | apply Qle_bool_false in E]
    end.

(** X2. Confidence never decreases when the metrics grow: for every label,
    if each metric of one unit is at most that of another, the confidence
    either detector computes for the first is at most the one it computes
    for the second. *)
Theorem confidence_monotone (label : string) (m1 m2 : gmap string Q) :
  (forall key, (Slicer.metrics_get m1 key <= Slicer.metrics_get m2 key)%Q) ->
  (ClassDebtDetector._calculate_confidence label m1
   <= ClassDebtDetector._calculate_confidence label m2)%Q
  ∧ (MethodDebtDetector._calculate_confidence label m1
     <= MethodDebtDetector._calculate_confidence label m2)%Q.
Proof.
  intros Hle.
  pose proof (Hle "loc") as Hloc.
  pose proof (Hle "method_count") as Hmc.
  pose proof (Hle "getter_setter_ratio") as Hratio.
  pose proof (Hle "external_calls") as Hcalls.
  pose proof (Hle "cyclomatic_complexity") as Hcc.
  unfold ClassDebtDetector._calculate_confidence,
    MethodDebtDetector._calculate_confidence.
  split;
    repeat match goal with
      | |- context [String.eqb label ?l] => destruct (String.eqb label l)
      end;
    try lra; compare_all; simpl; lra.
Qed.

Lemma confidence_monotone_witness :
  (forall key, (Slicer.metrics_get ∅ key
                <= Slicer.metrics_get {[ "loc" := 600%Q ]} key)%Q)
  ∧ (ClassDebtDetector._calculate_confidence "1" ∅
     <= ClassDebtDetector._calculate_confidence "1" {[ "loc" := 600%Q ]})%Q.
Proof.
  assert (H : forall key, (Slicer.metrics_get ∅ key
                           <= Slicer.metrics_get {[ "loc" := 600%Q ]} key)%Q).
  { intros key. unfold Slicer.metrics_get. rewrite lookup_empty. simpl.
    destruct (decide (key = "loc")) as [->|Hne].
    - by rewrite lookup_singleton_eq.
    - by rewrite lookup_singleton_ne. }
  split; [exact H|].
  exact (proj1 (confidence_monotone "1" ∅ {[ "loc" := 600%Q ]} H)).
Defined.

Lemma contains_char (c : ascii) (t : text) :
  contains [c] t = true <-> c ∈ t.
Proof.
  induction t as [|x t IH]; simpl.
  - split; [done|]. by intros ?%elem_of_nil.
  - rewrite orb_true_iff, andb_true_r, IH, elem_of_cons.
    destruct (Ascii.eqb_spec c x); intuition congruence.
Qed.

(** X3. The class detector reads the reply as the first of the characters
    0, 1 and 2 that occurs in it, and as [UNKNOWN] when none occurs.  The
    method detector does not look at positions: a reply that contains a 3
    anywhere is read as 3, otherwise one that contains a 4 as 4, otherwise
    one that contains a 0 as 0, otherwise as [UNKNOWN]. *)
Theorem normalize_label_reading :
  (forall (before after : text) (c : ascii),
      c ∈ ["0"; "1"; "2"]%char ->
      Forall (fun x => x ∉ ["0"; "1"; "2"]%char) before ->
      ClassDebtDetector._normalize_label (before ++ c :: after)
      = String c EmptyString)
  ∧ (forall t : text,
        Forall (fun x => x ∉ ["0"; "1"; "2"]%char) t ->
        ClassDebtDetector._normalize_label t = "UNKNOWN")
  ∧ (forall t : text,
        MethodDebtDetector._normalize_label t
        = if decide ("3"%char ∈ t) then "3"
          else if decide ("4"%char ∈ t) then "4"
          else if decide ("0"%char ∈ t) then "0"
          else "UNKNOWN").
Proof.
  split_and!.
  - intros before after c Hc Hbefore.
    induction Hbefore as [|x before Hx _ IH]; simpl.
    + rewrite !elem_of_cons, elem_of_nil in Hc.
      destruct Hc as [->|[->|[->|[]]]]; reflexivity.
    + rewrite !elem_of_cons, elem_of_nil in Hx.
      repeat match goal with
        | |- context [Ascii.eqb ?a ?b] =>
            destruct (Ascii.eqb_spec a b); [exfalso; intuition congruence|]
        end.
      exact IH.
  - intros t Ht. induction Ht as [|x t Hx _ IH]; simpl; [done|].
    rewrite !elem_of_cons, elem_of_nil in Hx.
    repeat match goal with
      | |- context [Ascii.eqb ?a ?b] =>
          destruct (Ascii.eqb_spec a b); [exfalso; intuition congruence|]
      end.
    exact IH.
  - intros t. unfold MethodDebtDetector._normalize_label.
    change (of_string "3") with ["3"%char].
    change (of_string "4") with ["4"%char].
    change (of_string "0") with ["0"%char].
    repeat match goal with
      | |- context [contains [?c] t] =>
          let E := fresh "E" in
          destruct (contains [c] t) eqn:E;
          [apply contains_char in E
          |apply not_true_iff_false in E; rewrite contains_char in E]
      end;
      repeat case_decide; done.
Qed.

Lemma normalize_label_reading_witness :
  ("1"%char ∈ ["0"; "1"; "2"]%char
   ∧ Forall (fun x => x ∉ ["0"; "1"; "2"]%char) (of_string "Label: ")
   ∧ ClassDebtDetector._normalize_label (of_string "Label: 12") = "1")
  ∧ MethodDebtDetector._normalize_label (of_string "4, not 3") = "3".
Proof.
  destruct normalize_label_reading as (Hfirst & _ & Hmethod).
  assert (H1 : "1"%char ∈ ["0"; "1"; "2"]%char) by in_list.
  assert (H2 : Forall (fun x => x ∉ ["0"; "1"; "2"]%char)
                 (of_string "Label: ")).
  { repeat constructor; rewrite !elem_of_cons, elem_of_nil;
      intros [?|[?|[?|[]]]]; discriminate. }
  split; [split_and!; [exact H1|exact H2|]|].
  - exact (Hfirst (of_string "Label: ") (of_string "2") "1"%char H1 H2).
  - rewrite Hmethod. reflexivity.
Defined.

(** ** Localization *)

Lemma set_location_twice d l1 l2 :
  LocalizationAgent.set_location (LocalizationAgent.set_location d l1) l2
  = LocalizationAgent.set_location d l2.
Proof. reflexivity. Qed.

Lemma set_location_same d l :
  d_location d = Some l -> LocalizationAgent.set_location d l = d.
Proof. destruct d. simpl. by intros ->. Qed.

(** [localize] either attaches a location or, when both searches fail on a
    result that has one already, returns the result as it is. *)
Lemma localize_cases (debt_result : detection) (source_file_content : text) :
  (exists l, LocalizationAgent.localize debt_result source_file_content
             = LocalizationAgent.set_location debt_result l)
  ∧ is_Some (d_location
               (LocalizationAgent.localize debt_result source_file_content)).
Proof.
  unfold LocalizationAgent.localize.
  repeat case_match; simpl;
    (split; [|by eexists]);
    first [by eexists
          |match goal with
           | H : d_location debt_result = Some ?l |- _ =>
               exists l; by rewrite set_location_same
           end].
Qed.

(** X4. Localization touches the location and nothing else, always leaves
    a location (line numbers or an error marker) on the result, and gives
    the same result when it is run again on its own output. *)
Theorem localize_idempotent (debt_result : detection)
    (source_file_content : text) (l0 : location) :
  let located :=
    LocalizationAgent.localize debt_result source_file_content in
  LocalizationAgent.set_location located l0
  = LocalizationAgent.set_location debt_result l0
  ∧ is_Some (d_location located)
  ∧ LocalizationAgent.localize located source_file_content = located.
Proof.
  intros located. subst located.
  destruct (localize_cases debt_result source_file_content)
    as [[l Hl] Hsome].
  split_and!; [by rewrite Hl|exact Hsome|].
  unfold LocalizationAgent.localize in *.
  destruct (negb (nonempty (default [] (d_code debt_result)))
            || negb (nonempty source_file_content)) eqn:Emissing.
  { cbn [d_code LocalizationAgent.set_location]. by rewrite Emissing. }
  destruct (LocalizationAgent.first_line_number _ _) as [start|] eqn:Eexact.
  { cbn [d_code LocalizationAgent.set_location d_location d_file_path].
    rewrite Emissing, Eexact. reflexivity. }
  destruct (LocalizationAgent.first_line_number
              (LocalizationAgent.search _) _) as [start|] eqn:Eheader.
  { cbn [d_code d_name d_type LocalizationAgent.set_location d_location
           d_file_path].
    rewrite Emissing, Eexact, Eheader. reflexivity. }
  destruct (d_location debt_result) as [l'|] eqn:Eloc.
  { rewrite Emissing, Eexact, Eheader, Eloc. reflexivity. }
  cbn [d_code d_name d_type LocalizationAgent.set_location d_location
         d_file_path].
  rewrite Emissing, Eexact, Eheader. reflexivity.
Qed.

Lemma first_line_number_bounds (P : text -> bool) lines n :
  LocalizationAgent.first_line_number P lines = Some n ->
  1 <= n <= length lines.
Proof.
  intros (i & line & -> & Hi & _)%first_line_number_Some.
  apply lookup_lt_Some in Hi. lia.
Qed.

(** X5. When localization attaches line numbers to a result that had no
    location, the start line is a line of the file (counted from 1), the
    end line is not before it and at most the unit's line count after it,
    and the location holds no error. *)
Theorem localize_line_bounds (debt_result : detection)
    (source_file_content : text) (l : location) (start_line : nat) :
  d_location debt_result = None ->
  d_location (LocalizationAgent.localize debt_result source_file_content)
  = Some l ->
  loc_start_line l = Some start_line ->
  1 <= start_line <= length (split_lines source_file_content)
  ∧ loc_error l = None
  ∧ exists end_line,
      loc_end_line l = Some end_line
      ∧ start_line <= end_line
        <= start_line
           + length (Spec.unit_lines (default [] (d_code debt_result))).
Proof.
  intros Hnone Hloc Hstart. unfold LocalizationAgent.localize in Hloc.
  fold (Spec.unit_lines (default [] (d_code debt_result))) in Hloc.
  set (n := length (Spec.unit_lines (default [] (d_code debt_result)))) in *.
  assert (Hn : 1 <= n).
  { subst n. unfold Spec.unit_lines.
    destruct (strip (default [] (d_code debt_result))) as [|c t]; simpl;
      [lia|].
    destruct (Ascii.eqb c newline); [simpl; lia|].
    destruct (split_lines t); simpl; lia. }
  destruct (_ || _); [simpl in Hloc; by simplify_eq|].
  destruct (LocalizationAgent.first_line_number _ _) as [s|] eqn:Eexact.
  { apply first_line_number_bounds in Eexact.
    simpl in Hloc. simplify_eq. simpl in Hstart. simplify_eq.
    split_and!; [lia|lia|done|]. eexists. split; [reflexivity|]. lia. }
  destruct (LocalizationAgent.first_line_number
              (LocalizationAgent.search _) _) as [s|] eqn:Eheader.
  { apply first_line_number_bounds in Eheader.
    simpl in Hloc. simplify_eq. simpl in Hstart. simplify_eq.
    split_and!; [lia|lia|done|]. eexists. split; [reflexivity|]. lia. }
  rewrite Hnone in Hloc. simpl in Hloc. by simplify_eq.
Qed.

Lemma localize_line_bounds_witness :
  d_location Fixture.getX_result = None
  ∧ d_location (LocalizationAgent.localize Fixture.getX_result
                  Fixture.Point_java)
    = Some (Spec.located 3 3 "Point.java" None)
  ∧ 1 <= 3 <= length (split_lines Fixture.Point_java).
Proof.
  split_and!; [reflexivity|reflexivity|..];
    apply (localize_line_bounds Fixture.getX_result Fixture.Point_java
             (Spec.located 3 3 "Point.java" None) 3);
    reflexivity.
Defined.

(** X6. Post-processing keeps the detections, their order and everything
    the detectors reported; it attaches a location to every detection when
    a localizer is configured, an explanation entry when an explainer is,
    and a fix suggestion entry when a fix suggester is. *)
Theorem post_process_frame (self : Coordinator.coordinator)
    (explanation_prompt fix_prompt : detection -> text)
    (detections : list detection) (source_content : text) :
  let processed :=
    Coordinator._post_process self explanation_prompt fix_prompt
      detections source_content in
  map Spec.detection_core processed = map Spec.detection_core detections
  ∧ (Coordinator.localizer self = true ->
     Forall (fun d => is_Some (d_location d)) processed)
  ∧ (is_Some (Coordinator.explainer self) ->
     Forall (fun d => is_Some (d_explanation d)) processed)
  ∧ (is_Some (Coordinator.fix_suggester self) ->
     Forall (fun d => is_Some (d_fix_suggestion d)) processed).
Proof.
  intros processed. subst processed. unfold Coordinator._post_process.
  assert (Hloc : forall d, Spec.detection_core
                   (LocalizationAgent.localize d source_content)
                 = Spec.detection_core d
                 ∧ d_explanation (LocalizationAgent.localize d source_content)
                   = d_explanation d
                 ∧ d_fix_suggestion
                     (LocalizationAgent.localize d source_content)
                   = d_fix_suggestion d).
  { intros d. destruct (localize_cases d source_content) as [[l ->] _].
    done. }
  assert (Hexp : forall a d,
             Spec.detection_core
               (@ExplanationAgent.explain a explanation_prompt d)
             = Spec.detection_core d
             ∧ d_location (@ExplanationAgent.explain a explanation_prompt d)
               = d_location d
             ∧ is_Some (d_explanation
                          (@ExplanationAgent.explain a explanation_prompt d))
             ∧ d_fix_suggestion
                 (@ExplanationAgent.explain a explanation_prompt d)
               = d_fix_suggestion d).
  { intros a d. unfold ExplanationAgent.explain.
    repeat case_match; split_and!; try done; by eexists. }
  assert (Hfix : forall a d,
             Spec.detection_core
               (@FixSuggestionAgent.suggest_fix a fix_prompt d)
             = Spec.detection_core d
             ∧ d_location (@FixSuggestionAgent.suggest_fix a fix_prompt d)
               = d_location d
             ∧ d_explanation (@FixSuggestionAgent.suggest_fix a fix_prompt d)
               = d_explanation d
             ∧ is_Some (d_fix_suggestion
                          (@FixSuggestionAgent.suggest_fix a fix_prompt d))).
  { intros a d. unfold FixSuggestionAgent.suggest_fix.
    repeat case_match; split_and!; try done; by eexists. }
  split_and!.
  - rewrite map_map. apply map_ext. intros d.
    destruct (Coordinator.localizer self),
      (Coordinator.explainer self) as [e|],
      (Coordinator.fix_suggester self) as [f|];
      repeat first [rewrite (proj1 (Hfix _ _))
                   |rewrite (proj1 (Hexp _ _))
                   |rewrite (proj1 (Hloc _))];
      reflexivity.
  - intros ->. apply Forall_map, Forall_forall. intros d _.
    destruct (localize_cases d source_content) as [_ Hsome].
    destruct (Coordinator.explainer self) as [e|],
      (Coordinator.fix_suggester self) as [f|];
      repeat first [rewrite (proj1 (proj2 (Hfix _ _)))
                   |rewrite (proj1 (proj2 (Hexp _ _)))];
      exact Hsome.
  - intros [e ->]. apply Forall_map, Forall_forall. intros d _.
    destruct (Coordinator.fix_suggester self) as [f|];
      repeat rewrite (proj1 (proj2 (proj2 (Hfix _ _))));
      apply Hexp.
  - intros [f ->]. apply Forall_map, Forall_forall. intros d _.
    apply Hfix.
Qed.

Lemma post_process_frame_witness :
  let processed :=
    Coordinator._post_process Fixture.strict (fun _ => [])
      (fun _ => []) [Fixture.getX_result] Fixture.Point_java in
  Coordinator.localizer Fixture.strict = true
  ∧ is_Some (Coordinator.explainer Fixture.strict)
  ∧ is_Some (Coordinator.fix_suggester Fixture.strict)
  ∧ map Spec.detection_core processed
    = map Spec.detection_core [Fixture.getX_result]
  ∧ Forall (fun d => is_Some (d_location d)) processed
  ∧ Forall (fun d => is_Some (d_explanation d)) processed
  ∧ Forall (fun d => is_Some (d_fix_suggestion d)) processed.
Proof.
  intros processed.
  destruct (post_process_frame Fixture.strict (fun _ => [])
              (fun _ => []) [Fixture.getX_result] Fixture.Point_java)
    as (Hcore & Hloc & Hexp & Hfix).
  assert (He : is_Some (Coordinator.explainer Fixture.strict))
    by (by eexists).
  assert (Hf : is_Some (Coordinator.fix_suggester Fixture.strict))
    by (by eexists).
  split_and!; [reflexivity|exact He|exact Hf|exact Hcore
              |apply Hloc; reflexivity|apply Hexp; exact He
              |apply Hfix; exact Hf].
Defined.

(** ** Block extraction *)

Lemma find_from_Some c s start pos :
  find_from c s start = Some pos
  <-> start <= pos ∧ s !! pos = Some c
      ∧ forall j, start <= j < pos -> s !! j ≠ Some c.
Proof.
  pose proof (find_from_spec c s start) as H.
  destruct (find_from c s start) as [p|]; split.
  - by intros [= <-].
  - intros (Hle & Hpos & Hleast). destruct H as (Hle' & Hp & Hleast').
    f_equal. destruct (Nat.lt_trichotomy p pos) as [Hlt|[->|Hgt]]; [|done|].
    + exfalso. apply (Hleast p); [lia|done].
    + exfalso. apply (Hleast' pos); [lia|done].
  - done.
  - intros (Hle & Hpos & _). exfalso. by apply (H pos).
Qed.

Lemma scan_loop_shift rest :
  forall st i, scan_loop st i rest = Nat.add i <$> scan_loop st 0 rest.
Proof.
  induction rest as [|c rest IH]; intros st i; [done|].
  cbn [scan_loop]. destruct (scan_char st c) as [st' [|]].
  - simpl. f_equal. lia.
  - rewrite (IH st' (S i)), (IH st' 1).
    destruct (scan_loop st' 0 rest); simpl; [f_equal; lia|done].
Qed.

Lemma scan_char_returns_on_brace st c :
  (scan_char st c).2 = true -> c = rbrace.
Proof.
  unfold scan_char.
  repeat case_match; simpl; intros; try discriminate;
    by apply Ascii.eqb_eq.
Qed.

(** The loop returns on a closing brace, and what follows that brace plays
    no part. *)
Lemma scan_loop_prefix rest :
  forall st m,
    scan_loop st 0 rest = Some m ->
    rest !! m = Some rbrace
    ∧ forall tail, scan_loop st 0 (firstn (S m) rest ++ tail) = Some m.
Proof.
  induction rest as [|c rest IH]; intros st m; [done|].
  cbn [scan_loop]. destruct (scan_char st c) as [st' ret] eqn:E.
  destruct ret.
  - intros [= <-]. split.
    + simpl. f_equal. apply (scan_char_returns_on_brace st). by rewrite E.
    + intros tail. cbn [firstn app scan_loop]. by rewrite E.
  - rewrite scan_loop_shift.
    destruct (scan_loop st' 0 rest) as [m'|] eqn:E'; [|done].
    intros [= <-]. destruct (IH st' m' E') as [Hlast Htail].
    split; [exact Hlast|].
    intros tail. cbn [firstn app scan_loop Nat.add]. rewrite E.
    by rewrite scan_loop_shift, Htail.
Qed.

(** A returned block, taken apart: what precedes the first brace, the
    brace, and the body up to the closing brace at which the loop
    returned. *)
Lemma extract_block_inv source_code start_pos block :
  _extract_block source_code start_pos = Some block
  <-> exists brace_pos m,
        find_from lbrace source_code start_pos = Some brace_pos
        ∧ scan_loop scan_init 0 (skipn brace_pos source_code) = Some m
        ∧ block = slice source_code start_pos (brace_pos + m + 1).
Proof.
  unfold _extract_block.
  destruct (find_from lbrace source_code start_pos) as [brace_pos|];
    [|split; [done|by intros (? & ? & ? & _)]].
  rewrite scan_loop_shift.
  destruct (scan_loop scan_init 0 (skipn brace_pos source_code)) as [m|]
    eqn:E; simpl; split.
  - intros [= <-]. exists brace_pos, m. split_and!; done.
  - intros (bp & m' & [= <-] & Hm & ->). rewrite E in Hm.
    by injection Hm as <-.
  - done.
  - intros (bp & m' & [= <-] & Hm & _). by rewrite E in Hm.
Qed.

Lemma extract_block_decompose source_code start_pos block :
  _extract_block source_code start_pos = Some block ->
  exists before_brace body,
    block = before_brace ++ lbrace :: body
    ∧ (lbrace ∉ before_brace)
    ∧ (forall tail,
          scan_loop scan_init 0 (lbrace :: body ++ tail)
          = Some (length body))
    ∧ last body = Some rbrace
    ∧ firstn (length block) (skipn start_pos source_code) = block
    ∧ start_pos + length block <= length source_code.
Proof.
  intros (brace_pos & m & Hfind & Hscan & ->)%extract_block_inv.
  apply find_from_Some in Hfind as (Hle & Hbrace & Hleast).
  destruct (scan_loop_prefix _ _ _ Hscan) as [Hlast Htail].
  rewrite lookup_drop in Hlast.
  pose proof (lookup_lt_Some _ _ _ Hlast) as Hlen.
  rewrite (drop_S _ _ _ Hbrace) in Htail, Hscan.
  destruct m as [|m].
  { rewrite Nat.add_0_r, Hbrace in Hlast. discriminate. }
  cbn [firstn] in Htail.
  set (rest := drop (S brace_pos) source_code) in *.
  assert (Hslice : slice source_code start_pos (brace_pos + S m + 1)
                   = take (brace_pos - start_pos) (drop start_pos source_code)
                     ++ lbrace :: take (S m) rest).
  { unfold slice.
    replace (brace_pos + S m + 1 - start_pos)
      with ((brace_pos - start_pos) + S (S m)) by lia.
    rewrite <- (take_drop (brace_pos - start_pos)
                  (drop start_pos source_code)) at 1.
    rewrite (take_app_add' _ _ (brace_pos - start_pos))
      by (rewrite length_take, length_drop; lia).
    f_equal. rewrite drop_drop.
    replace (start_pos + (brace_pos - start_pos)) with brace_pos by lia.
    by rewrite (drop_S _ _ _ Hbrace). }
  exists (take (brace_pos - start_pos) (drop start_pos source_code)),
    (take (S m) rest).
  assert (Hbody : length (take (S m) rest) = S m).
  { rewrite length_take. subst rest. rewrite length_drop. lia. }
  split_and!.
  - exact Hslice.
  - intros [i Hi]%list_elem_of_lookup.
    rewrite lookup_take_Some in Hi. destruct Hi as [Hi Hlt].
    rewrite lookup_drop in Hi. apply (Hleast (start_pos + i)); [lia|done].
  - intros tail. rewrite Hbody. apply Htail.
  - rewrite last_lookup, Hbody. cbn [pred].
    rewrite lookup_take_lt by lia. subst rest.
    rewrite lookup_drop. rewrite <- Hlast. f_equal. lia.
  - unfold slice. rewrite length_take, length_drop. f_equal. lia.
  - unfold slice. rewrite length_take, length_drop. lia.
Qed.

(** X7. A block returned by [_extract_block] is the stretch of the source
    that starts at the start position: it lies within the source, holds an
    opening brace, ends with a closing brace, and is at least two
    characters long. *)
Theorem extract_block_shape (source_code : text) (start_pos : nat)
    (block : text) :
  _extract_block source_code start_pos = Some block ->
  firstn (length block) (skipn start_pos source_code) = block
  ∧ start_pos + length block <= length source_code
  ∧ lbrace ∈ block
  ∧ last block = Some rbrace
  ∧ 2 <= length block.
Proof.
  intros (pre & body & -> & _ & _ & Hlast & Hslice & Hlen)
    %extract_block_decompose.
  split_and!; [exact Hslice|exact Hlen| | |].
  - apply elem_of_app. right. apply list_elem_of_here.
  - rewrite last_app. cbn [last]. destruct body as [|b body]; [done|].
    by rewrite last_cons, Hlast.
  - rewrite length_app. cbn [length]. destruct body; [done|]. simpl. lia.
Qed.

Lemma extract_block_shape_witness :
  _extract_block Fixture.Point_java 37 = Some Fixture.getX_code
  ∧ firstn (length Fixture.getX_code) (skipn 37 Fixture.Point_java)
    = Fixture.getX_code
  ∧ last Fixture.getX_code = Some rbrace.
Proof.
  assert (H : _extract_block Fixture.Point_java 37 = Some Fixture.getX_code)
    by reflexivity.
  destruct (extract_block_shape _ _ _ H) as (Hslice & _ & _ & Hlast & _).
  split_and!; [exact H|exact Hslice|exact Hlast].
Defined.

(** X8. Extraction depends on the block alone: a block returned at some
    position of some source is returned again from any text that holds the
    block, at the position where the block starts there, whatever comes
    before and after.  In particular, extracting from the block itself gives
    the block back. *)
Theorem extract_block_local (source_code : text) (start_pos : nat)
    (block : text) :
  _extract_block source_code start_pos = Some block ->
  (forall before after : text,
      _extract_block (before ++ block ++ after) (length before) = Some block)
  ∧ _extract_block block 0 = Some block.
Proof.
  intros (pre & body & -> & Hpre & Hscan & _ & _ & _)
    %extract_block_decompose.
  assert (Hgen : forall before after : text,
             _extract_block (before ++ (pre ++ lbrace :: body) ++ after)
               (length before)
             = Some (pre ++ lbrace :: body)).
  { intros before after. apply extract_block_inv.
    exists (length before + length pre), (length body).
    assert (Hsplit : before ++ (pre ++ lbrace :: body) ++ after
                     = (before ++ pre) ++ lbrace :: body ++ after).
    { by rewrite <- !app_assoc. }
    split_and!.
    - apply find_from_Some. split_and!; [lia| |].
      + rewrite Hsplit, lookup_app_r by (rewrite length_app; lia).
        rewrite length_app, Nat.sub_diag. done.
      + intros j Hj Hlookup.
        rewrite Hsplit, lookup_app_l in Hlookup
          by (rewrite length_app; lia).
        rewrite lookup_app_r in Hlookup by lia.
        apply Hpre. eapply list_elem_of_lookup_2. exact Hlookup.
    - rewrite Hsplit, <- length_app, drop_app_length. apply Hscan.
    - unfold slice. rewrite drop_app_length.
      replace (length before + length pre + length body + 1
               - length before)
        with (length (pre ++ lbrace :: body))
        by (rewrite length_app; simpl; lia).
      by rewrite take_app_length. }
  split; [exact Hgen|].
  specialize (Hgen [] []). by rewrite app_nil_r in Hgen.
Qed.

Lemma extract_block_local_witness :
  _extract_block Fixture.Point_java 37 = Some Fixture.getX_code
  ∧ _extract_block
      (of_string "// moved" ++ [newline] ++ Fixture.getX_code ++ of_string " }")
      9
    = Some Fixture.getX_code
  ∧ _extract_block Fixture.getX_code 0 = Some Fixture.getX_code.
Proof.
  assert (H : _extract_block Fixture.Point_java 37 = Some Fixture.getX_code)
    by reflexivity.
  destruct (extract_block_local _ _ _ H) as [Hany Hself].
  split_and!; [exact H| |exact Hself].
  exact (Hany (of_string "// moved" ++ [newline]) (of_string " }")).
Defined.

(** ** Line counting *)

Lemma split_lines_app (a b : text) :
  split_lines (a ++ newline :: b) = split_lines a ++ split_lines b.
Proof.
  induction a as [|c a IH]; simpl.
  - reflexivity.
  - rewrite IH. destruct (Ascii.eqb c newline); [done|].
    destruct (split_lines a) as [|l ls] eqn:E; [|done].
    destruct a; simpl in E; repeat case_match; discriminate.
Qed.

Lemma count_loc_step_shift n flag line :
  count_loc_step (n, flag) line
  = (n + (count_loc_step (0, flag) line).1,
     (count_loc_step (0, flag) line).2).
Proof.
  unfold count_loc_step. repeat case_match; simpl; f_equal; lia.
Qed.

Lemma count_loc_fold lines :
  forall n flag,
    fold_left count_loc_step lines (n, flag)
    = (n + (fold_left count_loc_step lines (0, flag)).1,
       (fold_left count_loc_step lines (0, flag)).2).
Proof.
  induction lines as [|line lines IH]; intros n flag; cbn [fold_left].
  { simpl. f_equal. lia. }
  rewrite (count_loc_step_shift n).
  destruct (count_loc_step (0, flag) line) as [k f]. cbn [fst snd].
  rewrite (IH (n + k)), (IH k). cbn [fst snd]. f_equal. lia.
Qed.

(** The comment flag after the lines of a text. *)
Lemma count_loc_flag lines :
  (fold_left count_loc_step lines (0, false)).2 = true
  <-> Spec.open_before lines (length lines).
Proof.
  destruct (count_loc_prefix lines (length lines)) as (flag & Hfold & Hflag);
    [done|].
  rewrite firstn_all in Hfold. by rewrite Hfold.
Qed.

(** X9. The line count of a text is at most its number of lines.  It adds
    up over texts joined by a line break, provided the first text leaves
    no comment open, which is the case when none of its lines holds the
    start token of a block comment. *)
Theorem count_loc_additive (a b : text) :
  _count_loc a <= length (split_lines a)
  ∧ (¬ Spec.open_before (split_lines a) (length (split_lines a)) ->
     _count_loc (a ++ newline :: b) = _count_loc a + _count_loc b)
  ∧ (Forall (fun line => Spec.has_open line = false) (split_lines a) ->
     _count_loc (a ++ newline :: b) = _count_loc a + _count_loc b).
Proof.
  assert (Hadd : ¬ Spec.open_before (split_lines a) (length (split_lines a))
                 -> _count_loc (a ++ newline :: b)
                    = _count_loc a + _count_loc b).
  { intros Hclosed. unfold _count_loc.
    rewrite split_lines_app, fold_left_app.
    destruct (fold_left count_loc_step (split_lines a) (0, false))
      as [n flag] eqn:E.
    assert (flag = false) as ->.
    { apply not_true_iff_false. intros ->. apply Hclosed.
      apply count_loc_flag. by rewrite E. }
    by rewrite count_loc_fold. }
  split_and!; [|exact Hadd|].
  - unfold _count_loc.
    destruct (count_loc_prefix (split_lines a) (length (split_lines a)))
      as (flag & Hfold & _); [done|].
    rewrite firstn_all in Hfold. rewrite Hfold. cbn [fst].
    etransitivity; [apply length_filter|]. by rewrite length_seq.
  - intros Hnone. apply Hadd. intros (j & Hj & Hopen & _).
    unfold Spec.line_at in Hopen.
    destruct (lookup_lt_is_Some_2 (split_lines a) j Hj) as [line Hline].
    rewrite nth_lookup, Hline in Hopen. simpl in Hopen.
    apply (Forall_lookup_1 _ _ _ _ Hnone) in Hline. congruence.
Qed.

Lemma count_loc_additive_witness :
  Forall (fun line => Spec.has_open line = false)
    (split_lines Fixture.getX_code)
  ∧ _count_loc (Fixture.getX_code ++ newline :: Fixture.Point_java)
    = _count_loc Fixture.getX_code + _count_loc Fixture.Point_java
  ∧ ¬ Spec.open_before (split_lines Fixture.getX_code)
        (length (split_lines Fixture.getX_code)).
Proof.
  assert (H : Forall (fun line => Spec.has_open line = false)
                (split_lines Fixture.getX_code))
    by (repeat constructor).
  assert (Hclosed : ¬ Spec.open_before (split_lines Fixture.getX_code)
                        (length (split_lines Fixture.getX_code))).
  { intros (j & Hj & Hopen & _). simpl in Hj.
    destruct j as [|j]; [discriminate|lia]. }
  destruct (count_loc_additive Fixture.getX_code Fixture.Point_java)
    as (_ & Hclosed_add & Hnone_add).
  split_and!; [exact H|exact (Hnone_add H)|exact Hclosed].
Defined.

(** ** Units *)

Lemma length_omap_le {A B} (f : A -> option B) (l : list A) :
  length (omap f l) <= length l.
Proof.
  induction l as [|x l IH]; [done|].
  change (omap f (x :: l))
    with (match f x with Some y => y :: omap f l | None => omap f l end).
  destruct (f x); cbn [length]; lia.
Qed.

Lemma ratio_within_unit (k n : nat) :
  k <= n -> 0 < n -> (0 <= qn k / qn n <= 1)%Q.
Proof.
  intros Hkn Hn. unfold qn.
  assert (Hpos : (0 < inject_Z (Z.of_nat n))%Q).
  { rewrite <- (Zlt_Qlt 0). lia. }
  split.
  - apply Qle_shift_div_l; [exact Hpos|].
    rewrite Qmult_0_l. rewrite <- (Zle_Qle 0). lia.
  - apply Qle_shift_div_r; [exact Hpos|].
    rewrite Qmult_1_l. rewrite <- Zle_Qle. lia.
Qed.

(** X10. On the fallback path no method unit is named [get], [set] or
    [is] and none records a parent class, also when it is nested in a
    class unit; a class unit's [method_count] is the number of methods it
    holds and is absent when it holds none; and no class unit has an
    accessor ratio. *)
Theorem fallback_units `{RE : Regex} (self : ProgramSlicerAgent)
    (source_code : text) (file_path : string) :
  Forall (Spec.fallback_method file_path)
    (_extract_methods_regex self source_code file_path)
  ∧ Forall (Spec.fallback_class file_path)
      (_extract_classes_regex self source_code file_path).
Proof.
  assert (Hmethods : forall code,
             Forall (Spec.fallback_method file_path)
               (_extract_methods_regex self code file_path)).
  { intros code. apply Forall_omap_intro. intros [start_pos name] m.
    case_bool_decide as Hname; [done|].
    destruct (_extract_block _ _) as [[|ch block]|]; try done. cbv zeta.
    destruct (_ <=? _)%Z; [|done].
    intros [= <-]. by split_and!. }
  split; [apply Hmethods|].
  apply Forall_omap_intro. intros [start_pos name] c.
  destruct (_extract_block _ _) as [[|ch block]|]; try done. cbv zeta.
  destruct (_ <=? _)%Z; [|done].
  intros [= <-].
  split_and!; [reflexivity|apply Hmethods| |]; cbn [c_methods c_metrics];
    destruct (_extract_methods_regex _ _ _), (extract_metrics self);
    by simplify_map_eq.
Qed.

Lemma ast_methods_nested `{RE : Regex} (self : ProgramSlicerAgent)
    (node : ClassDeclaration) (class_code : text) (file_path : string) :
  Forall (Spec.nested_method node file_path)
    (ast_methods self node class_code file_path).
Proof.
  apply Forall_forall. intros m Hm.
  unfold ast_methods in Hm.
  apply list_elem_of_omap in Hm as (method_node & Hin & Hm).
  unfold _extract_method_from_ast in Hm.
  destruct (_extract_method_code_by_name _ _) as [[|ch code]|]; try done.
  destruct (Qle_bool _ _); [|done].
  injection Hm as <-. split_and!; [done..|].
  cbn [m_name]. apply list_elem_of_fmap. by exists method_node.
Qed.

Lemma count_getters_setters_le `{RE : Regex} (methods : list method_unit) :
  _count_getters_setters methods <= length methods.
Proof. unfold _count_getters_setters. apply length_filter. Qed.

(** X11. A class unit of the parsed path has the name of its declaration;
    its method units are among the declared methods and record the class
    as their parent, and they are at most as many as the class declares.
    With metrics extraction on, [method_count] is the number of declared
    methods, [field_count] the number of declared fields, and the accessor
    ratio lies between 0 and 1. *)
Theorem ast_class_unit `{RE : Regex} (self : ProgramSlicerAgent)
    (node : ClassDeclaration) (source_code : text) (file_path : string)
    (c : class_unit) :
  _extract_class_from_ast self node source_code file_path = Some c ->
  c_name c = cd_name node
  ∧ c_file_path c = file_path
  ∧ _extract_class_code_by_name source_code (cd_name node) = Some (c_code c)
  ∧ Forall (Spec.nested_method node file_path) (c_methods c)
  ∧ length (c_methods c) <= length (cd_methods node)
  ∧ (extract_metrics self = true ->
     c_metrics c !! "method_count" = Some (qn (length (cd_methods node)))
     ∧ c_metrics c !! "field_count" = Some (qn (cd_fields node))
     ∧ exists ratio,
         c_metrics c !! "getter_setter_ratio" = Some ratio
         ∧ (0 <= ratio <= 1)%Q).
Proof.
  unfold _extract_class_from_ast.
  destruct (_extract_class_code_by_name _ _) as [[|ch code]|] eqn:Ecode;
    try done. cbv zeta.
  destruct (_ <? _)%Z; [done|].
  intros [= <-]. cbn [c_name c_file_path c_code c_methods c_metrics].
  split_and!; [done|done|done|apply ast_methods_nested
              |apply length_omap_le|].
  intros ->. split_and!; [by simplify_map_eq..|].
  eexists. split; [by simplify_map_eq|].
  destruct (Nat.ltb_spec 0 (length (cd_methods node))) as [Hpos|Hzero].
  - apply ratio_within_unit; [|exact Hpos].
    etransitivity; [apply count_getters_setters_le|apply length_omap_le].
  - split; by vm_compute.
Qed.

Lemma ast_class_unit_witness :
  let node := {| cd_name := "Point"; cd_modifiers := [];
                 cd_methods := [ {| md_name := "getX";
                                    md_parameters := 0 |} ];
                 cd_fields := 1 |} in
  exists c,
    @_extract_class_from_ast Fixture.regex Fixture.slicer node
      Fixture.Point_java "Point.java" = Some c
    ∧ c_name c = "Point"
    ∧ length (c_methods c) <= 1
    ∧ c_metrics c !! "method_count" = Some (qn 1).
Proof.
  intros node.
  destruct (@_extract_class_from_ast Fixture.regex Fixture.slicer node
              Fixture.Point_java "Point.java") as [c|] eqn:E;
    [|by vm_compute in E].
  exists c.
  destruct (@ast_class_unit Fixture.regex Fixture.slicer node
              Fixture.Point_java "Point.java" c E)
    as (Hname & _ & _ & _ & Hlen & Hmetrics).
  destruct (Hmetrics eq_refl) as (Hcount & _).
  split_and!; [reflexivity|exact Hname|exact Hlen|exact Hcount].
Defined.

Lemma omap_map_related {A B C} (f g : A -> option B) (h : B -> C)
    (l : list A) :
  (forall x, h <$> f x = h <$> g x) ->
  map h (omap f l) = map h (omap g l).
Proof.
  intros Hfg. induction l as [|x l IH]; [done|].
  change (omap f (x :: l))
    with (match f x with Some y => y :: omap f l | None => omap f l end).
  change (omap g (x :: l))
    with (match g x with Some y => y :: omap g l | None => omap g l end).
  specialize (Hfg x).
  destruct (f x), (g x); simpl in *; try done.
  injection Hfg as ->. by rewrite IH.
Qed.

(** X12. With metrics extraction off, a class unit of the parsed path has
    no metrics, and when [min_method_loc] is positive it has no method
    units either: every method is read as having 0 lines and dropped.  The
    fallback path keeps its methods: it returns the methods it returns with
    metrics extraction on, each of at least [min_method_loc] counted lines,
    and they have no metrics. *)
Theorem metrics_off `{RE : Regex} (self : ProgramSlicerAgent) :
  extract_metrics self = false ->
  (forall node source_code file_path c,
      _extract_class_from_ast self node source_code file_path = Some c ->
      c_metrics c = ∅
      ∧ ((0 < min_method_loc self)%Z -> c_methods c = [])
      ∧ Forall (fun m => m_metrics m = ∅) (c_methods c))
  ∧ (forall source_code file_path,
        let kept := _extract_methods_regex self source_code file_path in
        map Spec.unit_text kept
        = map Spec.unit_text
            (_extract_methods_regex (Spec.with_metrics self) source_code
               file_path)
        ∧ Forall (fun m =>
                    (min_method_loc self
                     <= Z.of_nat (_count_loc (m_code m)))%Z
                    ∧ m_metrics m = ∅)
            kept).
Proof.
  intros Hoff. split.
  - intros node source_code file_path c. unfold _extract_class_from_ast.
    destruct (_extract_class_code_by_name _ _) as [[|ch code]|] eqn:Ecode;
      try done. cbv zeta.
    destruct (_ <? _)%Z; [done|].
    intros [= <-]. cbn [c_methods c_metrics]. rewrite Hoff.
    assert (Hnested : forall method_node m,
               match _extract_method_from_ast self method_node (ch :: code)
                       file_path (Some (cd_name node)) with
               | Some method_info =>
                   if Qle_bool (inject_Z (min_method_loc self))
                        (metrics_get (m_metrics method_info) "loc")
                   then Some method_info else None
               | None => None
               end = Some m ->
               m_metrics m = ∅ ∧ (min_method_loc self <= 0)%Z).
    { intros method_node m. unfold _extract_method_from_ast. rewrite Hoff.
      destruct (_extract_method_code_by_name _ _) as [[|ch' code']|];
        try done.
      cbn [m_metrics]. unfold metrics_get. rewrite lookup_empty.
      cbn [default]. destruct (Qle_bool _ _) eqn:Hle; [|done].
      intros [= <-]. split; [done|].
      apply Qle_bool_iff in Hle. by rewrite <- (Zle_Qle _ 0) in Hle. }
    split_and!; [done| |].
    + intros Hpos. unfold ast_methods.
      induction (cd_methods node) as [|method_node nodes IH]; [done|].
      change (omap ?f (method_node :: nodes))
        with (match f method_node with
              | Some y => y :: omap f nodes
              | None => omap f nodes
              end).
      cbv beta.
      match goal with
      | |- context [match ?x with Some _ => _ | None => _ end = []] =>
          destruct x as [m|] eqn:E
      end; [|exact IH].
      destruct (Hnested _ _ E). lia.
    + apply Forall_omap_intro. intros method_node m Hm.
      by destruct (Hnested _ _ Hm).
  - intros source_code file_path. cbv zeta. split.
    + unfold _extract_methods_regex. apply omap_map_related.
      intros [start_pos name]. cbn [Spec.with_metrics min_method_loc].
      case_bool_decide; [done|].
      destruct (_extract_block _ _) as [[|ch block]|]; try done. cbv zeta.
      by destruct (_ <=? _)%Z.
    + apply Forall_omap_intro. intros [start_pos name] m.
      case_bool_decide; [done|].
      destruct (_extract_block _ _) as [[|ch block]|]; try done. cbv zeta.
      destruct (Z.leb_spec (min_method_loc self)
                  (Z.of_nat (_count_loc (ch :: block)))) as [Hle|];
        [|done].
      rewrite Hoff. by intros [= <-].
Qed.

Lemma metrics_off_witness :
  let self := {| extract_metrics := false; min_method_loc := 3;
                 max_class_loc := 1000 |} in
  let node := {| cd_name := "Point"; cd_modifiers := [];
                 cd_methods := [ {| md_name := "getX";
                                    md_parameters := 0 |} ];
                 cd_fields := 1 |} in
  let kept :=
    @_extract_methods_regex Fixture.regex self Fixture.Broken_java
      "Point.java" in
  (exists c,
      @_extract_class_from_ast Fixture.regex self node Fixture.Point_java
        "Point.java" = Some c
      ∧ c_metrics c = ∅
      ∧ c_methods c = [])
  ∧ map m_name kept = ["getX"]
  ∧ map Spec.unit_text kept
    = map Spec.unit_text
        (@_extract_methods_regex Fixture.regex (Spec.with_metrics self)
           Fixture.Broken_java "Point.java")
  ∧ Forall (fun m => m_metrics m = ∅) kept.
Proof.
  intros self node kept.
  destruct (@metrics_off Fixture.regex self eq_refl) as [Hast Hfallback].
  destruct (Hfallback Fixture.Broken_java "Point.java") as [Hsame Hkept].
  split_and!.
  - destruct (@_extract_class_from_ast Fixture.regex self node
                Fixture.Point_java "Point.java") as [c|] eqn:E;
      [|by vm_compute in E].
    exists c.
    destruct (Hast node Fixture.Point_java "Point.java" c E)
      as (Hmetrics & Hmethods & _).
    split_and!; [reflexivity|exact Hmetrics|apply Hmethods; reflexivity].
  - reflexivity.
  - exact Hsame.
  - eapply Forall_impl; [exact Hkept|]. by intros m [_ ?].
Defined.

(** ** Summaries *)

Lemma fold_bump_lookup `{Countable K} {A} (f : A -> K) (l : list A)
    (counts : gmap K nat) (k : K) :
  fold_left (fun m x => Coordinator.bump (f x) m) l counts !! k
  = match counts !! k with
    | Some n => Some (n + length (filter (fun x => f x = k) l))
    | None => Spec.entry (length (filter (fun x => f x = k) l))
    end.
Proof.
  revert counts. induction l as [|x l IH]; intros counts.
  { simpl. destruct (counts !! k); [f_equal; lia|done]. }
  cbn [fold_left]. rewrite IH. unfold Coordinator.bump.
  destruct (decide (f x = k)) as [<-|Hne].
  - rewrite lookup_insert_eq, filter_cons_True by done.
    destruct (counts !! f x); simpl; f_equal; lia.
  - rewrite lookup_insert_ne, filter_cons_False by done. done.
Qed.

Lemma fold_bump_known_lookup {A} (f : A -> string) (l : list A)
    (counts : gmap string nat) (k : string) :
  fold_left (fun m x => Coordinator.bump_known (f x) m) l counts !! k
  = match counts !! k with
    | Some n => Some (n + length (filter (fun x => f x = k) l))
    | None => None
    end.
Proof.
  revert counts. induction l as [|x l IH]; intros counts.
  { simpl. destruct (counts !! k); [f_equal; lia|done]. }
  cbn [fold_left]. rewrite IH. unfold Coordinator.bump_known.
  destruct (decide (f x = k)) as [<-|Hne].
  - rewrite filter_cons_True by done.
    destruct (counts !! f x) eqn:E.
    + rewrite lookup_insert_eq. simpl. f_equal. lia.
    + by rewrite E.
  - rewrite filter_cons_False by done.
    destruct (counts !! f x); [by rewrite lookup_insert_ne|done].
Qed.

Lemma dict_total_insert `{Countable K} (counts : gmap K nat) (k : K)
    (n : nat) :
  Spec.dict_total (<[ k := n ]> counts)
  = Spec.dict_total counts + n - default 0 (counts !! k).
Proof.
  unfold Spec.dict_total.
  destruct (counts !! k) as [n0|] eqn:E; simpl.
  - rewrite <- (insert_delete_eq counts).
    rewrite map_fold_insert_L;
      [|intros; lia|apply lookup_delete_eq].
    rewrite (map_fold_delete_L _ _ k n0 counts); [lia|intros; lia|done].
  - rewrite map_fold_insert_L; [lia|intros; lia|done].
Qed.

Lemma dict_total_bump `{Countable K} (counts : gmap K nat) (k : K) :
  Spec.dict_total (Coordinator.bump k counts) = Spec.dict_total counts + 1.
Proof.
  unfold Coordinator.bump. rewrite dict_total_insert.
  destruct (counts !! k) as [n0|] eqn:E; simpl; [|lia].
  assert (n0 <= Spec.dict_total counts); [|lia].
  unfold Spec.dict_total.
  rewrite (map_fold_delete_L _ _ k n0 counts); [lia| |done].
  intros; lia.
Qed.

Lemma dict_total_bump_known (counts : gmap string nat) (k : string) :
  Spec.dict_total (Coordinator.bump_known k counts)
  = Spec.dict_total counts
    + match counts !! k with Some _ => 1 | None => 0 end.
Proof.
  unfold Coordinator.bump_known.
  destruct (counts !! k) as [n0|] eqn:E; [|lia].
  rewrite dict_total_insert, E. simpl.
  assert (n0 <= Spec.dict_total counts); [|lia].
  unfold Spec.dict_total.
  rewrite (map_fold_delete_L _ _ k n0 counts); [lia| |done].
  intros; lia.
Qed.

Lemma fold_bump_total `{Countable K} {A} (f : A -> K) (l : list A)
    (counts : gmap K nat) :
  Spec.dict_total (fold_left (fun m x => Coordinator.bump (f x) m) l counts)
  = Spec.dict_total counts + length l.
Proof.
  revert counts. induction l as [|x l IH]; intros counts; simpl; [lia|].
  rewrite IH, dict_total_bump. lia.
Qed.

Lemma fold_bump_known_total {A} (f : A -> string) (l : list A)
    (counts : gmap string nat) :
  Spec.dict_total
    (fold_left (fun m x => Coordinator.bump_known (f x) m) l counts)
  = Spec.dict_total counts
    + length (filter (fun x => is_Some (counts !! f x)) l).
Proof.
  revert counts. induction l as [|x l IH]; intros counts; simpl; [lia|].
  rewrite IH, dict_total_bump_known.
  assert (Hkeys : forall j,
             is_Some (Coordinator.bump_known (f x) counts !! j)
             <-> is_Some (counts !! j)).
  { intros j. unfold Coordinator.bump_known.
    destruct (counts !! f x) as [n|] eqn:E; [|done].
    destruct (decide (f x = j)) as [<-|Hne].
    - rewrite lookup_insert_eq, E. split; by eexists.
    - by rewrite lookup_insert_ne. }
  rewrite (list_filter_iff _ (fun x => is_Some (counts !! f x)))
    by (intros; apply Hkeys).
  rewrite filter_cons. destruct (counts !! f x) as [n|] eqn:E.
  - rewrite decide_True by by eexists. simpl. lia.
  - rewrite decide_False by (by intros [? ?]). lia.
Qed.

Lemma summary_eq (s1 s2 : Coordinator.summary) :
  Coordinator.s_total_debts s1 = Coordinator.s_total_debts s2 ->
  Coordinator.s_by_type s1 = Coordinator.s_by_type s2 ->
  Coordinator.s_by_granularity s1 = Coordinator.s_by_granularity s2 ->
  Coordinator.s_high_confidence s1 = Coordinator.s_high_confidence s2 ->
  s1 = s2.
Proof. destruct s1, s2. simpl. by intros -> -> -> ->. Qed.

(** The loop of [_generate_summary], one field at a time. *)
Lemma summary_loop_fields (detections : list detection)
    (s0 : Coordinator.summary) :
  let s :=
    fold_left
      (fun s detection =>
         {| Coordinator.s_total_debts := Coordinator.s_total_debts s;
            Coordinator.s_by_type :=
              Coordinator.bump (d_debt_type detection)
                (Coordinator.s_by_type s);
            Coordinator.s_by_granularity :=
              Coordinator.bump_known
                (default "unknown" (d_granularity detection))
                (Coordinator.s_by_granularity s);
            Coordinator.s_high_confidence :=
              if Qle_bool (0.8) (d_confidence detection)
              then Coordinator.s_high_confidence s + 1
              else Coordinator.s_high_confidence s |})
      detections s0 in
  Coordinator.s_total_debts s = Coordinator.s_total_debts s0
  ∧ Coordinator.s_by_type s
    = fold_left (fun m d => Coordinator.bump (d_debt_type d) m)
        detections (Coordinator.s_by_type s0)
  ∧ Coordinator.s_by_granularity s
    = fold_left
        (fun m d =>
           Coordinator.bump_known (default "unknown" (d_granularity d)) m)
        detections (Coordinator.s_by_granularity s0)
  ∧ Coordinator.s_high_confidence s
    = Coordinator.s_high_confidence s0
      + Spec.count_where Spec.high_confidence detections.
Proof.
  revert s0. induction detections as [|d detections IH]; intros s0.
  { cbn. split_and!; [done..|lia]. }
  cbn [fold_left]. cbv zeta in IH.
  match goal with
  | |- context [fold_left _ detections ?s1] =>
      destruct (IH s1) as (H1 & H2 & H3 & H4)
  end.
  cbv zeta. rewrite H1, H2, H3, H4.
  cbn [Coordinator.s_total_debts Coordinator.s_by_type
       Coordinator.s_by_granularity Coordinator.s_high_confidence].
  clear IH H1 H2 H3 H4. split_and!; [done..|].
  unfold Spec.count_where. rewrite filter_cons.
  case_decide as Hd; unfold Spec.high_confidence in Hd.
  - rewrite Hd. simpl. lia.
  - apply not_true_is_false in Hd. rewrite Hd. lia.
Qed.

Lemma generate_summary_fields (detections : list detection) :
  let s := Coordinator._generate_summary detections in
  Coordinator.s_total_debts s = length detections
  ∧ Coordinator.s_by_type s
    = fold_left (fun m d => Coordinator.bump (d_debt_type d) m)
        detections ∅
  ∧ Coordinator.s_by_granularity s
    = fold_left
        (fun m d =>
           Coordinator.bump_known (default "unknown" (d_granularity d)) m)
        detections {[ "class" := 0; "method" := 0 ]}
  ∧ Coordinator.s_high_confidence s
    = Spec.count_where Spec.high_confidence detections.
Proof. apply summary_loop_fields. Qed.

Lemma granularity_key (granularity : string) (d : detection) :
  granularity ∈ ["class"; "method"] ->
  default "unknown" (d_granularity d) = granularity
  <-> Spec.of_granularity granularity d.
Proof.
  unfold Spec.of_granularity. intros Hin.
  destruct (d_granularity d) as [g|]; simpl; [split; congruence|].
  split; [|done]. intros <-.
  apply elem_of_cons in Hin as [?|Hin]; [done|].
  by apply list_elem_of_singleton in Hin.
Qed.

Lemma generate_summary_by_type (detections : list detection) :
  Spec.counts_by_type detections
    (Coordinator.s_by_type (Coordinator._generate_summary detections)).
Proof.
  intros debt_type.
  destruct (generate_summary_fields detections) as (_ & -> & _ & _).
  by rewrite fold_bump_lookup, lookup_empty.
Qed.

Lemma generate_summary_by_granularity (detections : list detection) :
  Spec.counts_by_granularity detections
    (Coordinator.s_by_granularity
       (Coordinator._generate_summary detections)).
Proof.
  intros granularity.
  destruct (generate_summary_fields detections) as (_ & _ & -> & _).
  rewrite fold_bump_known_lookup. unfold Spec.count_where.
  case_decide as Hin.
  - rewrite (list_filter_iff _ (Spec.of_granularity granularity))
      by (intros; by apply granularity_key).
    apply elem_of_cons in Hin as [->|Hin]; [done|].
    by apply list_elem_of_singleton in Hin as ->.
  - rewrite lookup_insert_ne, lookup_singleton_ne; [done|..];
      intros <-; apply Hin; in_list.
Qed.

(** X13. The summary of a list of detections has [total_debts] equal to
    their number; [by_type] holds for each debt type the number of
    detections of that type, with no key for a type that does not occur, so
    its counts add up to [total_debts]; [by_granularity] holds the numbers
    of detections of granularity [class] and [method] and no other key, so
    its counts add up to at most [total_debts]; and [high_confidence] is
    the number of detections with confidence at least 0.8. *)
Theorem generate_summary_counts (detections : list detection) :
  let s := Coordinator._generate_summary detections in
  Coordinator.s_total_debts s = length detections
  ∧ Spec.counts_by_type detections (Coordinator.s_by_type s)
  ∧ Spec.counts_by_granularity detections (Coordinator.s_by_granularity s)
  ∧ Coordinator.s_high_confidence s
    = Spec.count_where Spec.high_confidence detections
  ∧ Spec.dict_total (Coordinator.s_by_type s) = length detections
  ∧ Spec.dict_total (Coordinator.s_by_granularity s) <= length detections
  ∧ Coordinator.s_high_confidence s <= length detections.
Proof.
  intros s. subst s.
  destruct (generate_summary_fields detections) as (H1 & H2 & H3 & H4).
  split_and!.
  - exact H1.
  - apply generate_summary_by_type.
  - apply generate_summary_by_granularity.
  - exact H4.
  - rewrite H2, fold_bump_total. done.
  - rewrite H3, fold_bump_known_total. apply length_filter.
  - rewrite H4. apply length_filter.
Qed.

(** The summary does not depend on the order of the detections. *)
Lemma generate_summary_Permutation (l1 l2 : list detection) :
  l1 ≡ₚ l2 ->
  Coordinator._generate_summary l1 = Coordinator._generate_summary l2.
Proof.
  intros Hperm.
  assert (Hcount : forall (P : detection -> Prop)
                     `{forall d, Decision (P d)},
             Spec.count_where P l1 = Spec.count_where P l2).
  { intros P HP. unfold Spec.count_where. by rewrite Hperm. }
  apply summary_eq.
  - destruct (generate_summary_fields l1) as (-> & _).
    destruct (generate_summary_fields l2) as (-> & _).
    by rewrite Hperm.
  - apply map_eq. intros debt_type.
    by rewrite (generate_summary_by_type l1), (generate_summary_by_type l2),
      Hcount.
  - apply map_eq. intros granularity.
    rewrite (generate_summary_by_granularity l1),
      (generate_summary_by_granularity l2).
    case_decide; [|done]. by rewrite Hcount.
  - destruct (generate_summary_fields l1) as (_ & _ & _ & ->).
    destruct (generate_summary_fields l2) as (_ & _ & _ & ->).
    apply Hcount.
Qed.

(** ** The report of one file *)

Lemma class_detect_result `{A : Agent} (prompt : text)
    (class_info : class_unit) :
  Spec.detector_result (ClassDebtDetector.detect prompt class_info).
Proof.
  unfold ClassDebtDetector.detect. cbv zeta.
  destruct (reply_content _) as [content|];
    [|split_and!; [done|in_list|done|done]].
  pose proof (class_normalize_label_vocabulary (strip content)) as Hin.
  unfold Spec.class_labels in Hin.
  rewrite !elem_of_cons, elem_of_nil in Hin.
  destruct Hin as [->|[->|[->|[->|[]]]]];
    (split_and!; [done|in_list|done|]); try done;
    intros _; by vm_compute.
Qed.

Lemma method_detect_result `{A : Agent} (prompt : text)
    (method_info : method_unit) :
  Spec.detector_result (MethodDebtDetector.detect prompt method_info).
Proof.
  unfold MethodDebtDetector.detect. cbv zeta.
  destruct (reply_content _) as [content|];
    [|split_and!; [done|in_list|done|done]].
  pose proof (method_normalize_label_vocabulary (strip content)) as Hin.
  unfold Spec.method_labels in Hin.
  rewrite !elem_of_cons, elem_of_nil in Hin.
  destruct Hin as [->|[->|[->|[->|[]]]]];
    (split_and!; [done|in_list|done|]); try done;
    intros _; by vm_compute.
Qed.

Lemma submitted_results_detector_result (self : Coordinator.coordinator)
    (class_prompt method_prompt : text) (classes : list class_unit)
    (methods : list method_unit) :
  Forall Spec.detector_result
    (Spec.submitted_results self class_prompt method_prompt classes methods).
Proof.
  unfold Spec.submitted_results. apply Forall_app. split.
  - destruct (Coordinator.class_detector self) as [detector|]; [|done].
    apply Forall_map, Forall_forall. intros c _.
    apply class_detect_result.
  - destruct (Coordinator.method_detector self) as [detector|]; [|done].
    apply Forall_app. split.
    + apply Forall_map, Forall_forall. intros m _.
      apply method_detect_result.
    + apply Forall_concat, Forall_map, Forall_forall. intros c _.
      apply Forall_map, Forall_forall. intros m _.
      apply method_detect_result.
Qed.

(** A property of what the detectors reported carries over from one list
    to another with the same reports. *)
Lemma Forall_detection_core (Q : detection -> Prop)
    (l l' : list detection) :
  (forall d d', Spec.detection_core d' = Spec.detection_core d ->
                Q d -> Q d') ->
  map Spec.detection_core l' = map Spec.detection_core l ->
  Forall Q l -> Forall Q l'.
Proof.
  intros Hcore. revert l'.
  induction l as [|d l IH]; intros [|d' l'] Hmap HQ; try done.
  simpl in Hmap.
  assert (Hd : Spec.detection_core d' = Spec.detection_core d)
    by congruence.
  assert (Hl : map Spec.detection_core l' = map Spec.detection_core l)
    by congruence.
  inversion_clear HQ as [|? ? Hq Hrest].
  constructor; [exact (Hcore d d' Hd Hq)|by apply IH].
Qed.

Lemma post_process_core (self : Coordinator.coordinator)
    (explanation_prompt fix_prompt : detection -> text)
    (detections : list detection) (source_content : text) :
  map Spec.detection_core
    (Coordinator._post_process self explanation_prompt fix_prompt
       detections source_content)
  = map Spec.detection_core detections.
Proof.
  unfold Coordinator._post_process. rewrite map_map.
  apply map_ext. intros d.
  assert (Hloc : forall d, Spec.detection_core
                   (LocalizationAgent.localize d source_content)
                 = Spec.detection_core d).
  { intros d0. by destruct (localize_cases d0 source_content) as [[l ->] _]. }
  assert (Hexp : forall a d,
             Spec.detection_core
               (@ExplanationAgent.explain a explanation_prompt d)
             = Spec.detection_core d).
  { intros a d0. unfold ExplanationAgent.explain. by repeat case_match. }
  assert (Hfix : forall a d,
             Spec.detection_core
               (@FixSuggestionAgent.suggest_fix a fix_prompt d)
             = Spec.detection_core d).
  { intros a d0. unfold FixSuggestionAgent.suggest_fix.
    by repeat case_match. }
  destruct (Coordinator.localizer self),
    (Coordinator.explainer self), (Coordinator.fix_suggester self);
    by rewrite ?Hfix, ?Hexp, ?Hloc.
Qed.

Lemma filter_Forall_id {A} (P : A -> Prop) `{forall x, Decision (P x)}
    (l : list A) :
  Forall P l -> filter P l = l.
Proof.
  induction 1 as [|x l Hx _ IH]; [done|].
  by rewrite filter_cons_True, IH.
Qed.

Lemma filter_Forall_nil {A} (P : A -> Prop) `{forall x, Decision (P x)}
    (l : list A) :
  Forall (fun x => ¬ P x) l -> filter P l = [].
Proof.
  induction 1 as [|x l Hx _ IH]; [done|].
  by rewrite filter_cons_False.
Qed.

(** X14. The order in which parallel detections complete shows in the
    order of the reported debts and nowhere else: under any two schedules
    the debts of a file are the same up to order, and the file path, both
    counters and the whole summary are equal. *)
Theorem analyze_file_schedule_independent (Sch1 Sch2 : Coordinator.Scheduler)
    (self : Coordinator.coordinator) (class_prompt method_prompt : text)
    (explanation_prompt fix_prompt : detection -> text)
    (sliced_data : slice_result) (source_file_content : option text) :
  let a1 :=
    @Coordinator.analyze_file Sch1 self class_prompt method_prompt
      explanation_prompt fix_prompt sliced_data source_file_content in
  let a2 :=
    @Coordinator.analyze_file Sch2 self class_prompt method_prompt
      explanation_prompt fix_prompt sliced_data source_file_content in
  Coordinator.fa_debts a1 ≡ₚ Coordinator.fa_debts a2
  ∧ Coordinator.fa_file_path a1 = Coordinator.fa_file_path a2
  ∧ Coordinator.fa_total_detections a1 = Coordinator.fa_total_detections a2
  ∧ Coordinator.fa_filtered_detections a1
    = Coordinator.fa_filtered_detections a2
  ∧ Coordinator.fa_summary a1 = Coordinator.fa_summary a2.
Proof.
  intros a1 a2. subst a1 a2. unfold Coordinator.analyze_file.
  cbn [Coordinator.fa_debts Coordinator.fa_file_path
       Coordinator.fa_total_detections Coordinator.fa_filtered_detections
       Coordinator.fa_summary].
  assert (Hall :
            @Coordinator.all_detections Sch1 self class_prompt method_prompt
              (r_classes sliced_data) (r_methods sliced_data)
            ≡ₚ @Coordinator.all_detections Sch2 self class_prompt
                 method_prompt (r_classes sliced_data)
                 (r_methods sliced_data)).
  { by rewrite !all_detections_Permutation. }
  set (all1 := @Coordinator.all_detections Sch1 _ _ _ _ _) in *.
  set (all2 := @Coordinator.all_detections Sch2 _ _ _ _ _) in *.
  assert (Hfiltered : Coordinator.confidence_filter self all1
                      ≡ₚ Coordinator.confidence_filter self all2).
  { unfold Coordinator.confidence_filter. by rewrite Hall. }
  assert (Hdebts :
            match source_file_content with
            | Some (c :: s) =>
                Coordinator._post_process self explanation_prompt fix_prompt
                  (Coordinator.confidence_filter self all1) (c :: s)
            | _ => Coordinator.confidence_filter self all1
            end
            ≡ₚ match source_file_content with
               | Some (c :: s) =>
                   Coordinator._post_process self explanation_prompt
                     fix_prompt (Coordinator.confidence_filter self all2)
                     (c :: s)
               | _ => Coordinator.confidence_filter self all2
               end).
  { destruct source_file_content as [[|c s]|]; try done.
    unfold Coordinator._post_process. by apply Permutation_map. }
  split_and!.
  - exact Hdebts.
  - done.
  - by rewrite Hall.
  - by rewrite Hdebts.
  - by apply generate_summary_Permutation.
Qed.

Lemma all_detections_detector_result `{Sch : Coordinator.Scheduler}
    (self : Coordinator.coordinator) (class_prompt method_prompt : text)
    (classes : list class_unit) (methods : list method_unit) :
  Forall (fun d => Spec.detector_result d ∧ d_label d ≠ "0")
    (Coordinator.all_detections self class_prompt method_prompt
       classes methods).
Proof.
  apply Forall_forall. intros d Hd.
  rewrite all_detections_Permutation in Hd.
  apply list_elem_of_filter in Hd as [Hkept Hd]. split.
  - pose proof (submitted_results_detector_result self class_prompt
                  method_prompt classes methods) as Hall.
    by apply (proj1 (Forall_forall _ _) Hall).
  - unfold Coordinator.is_no_smell in Hkept. by apply String.eqb_neq.
Qed.

Lemma analyze_file_detector_result `{Sch : Coordinator.Scheduler}
    (self : Coordinator.coordinator) (class_prompt method_prompt : text)
    (explanation_prompt fix_prompt : detection -> text)
    (sliced_data : slice_result) (source_file_content : option text) :
  Forall (fun d => Spec.detector_result d ∧ d_label d ≠ "0")
    (Coordinator.fa_debts
       (Coordinator.analyze_file self class_prompt method_prompt
          explanation_prompt fix_prompt sliced_data source_file_content)).
Proof.
  unfold Coordinator.analyze_file. cbn [Coordinator.fa_debts].
  assert (Hfiltered :
            Forall (fun d => Spec.detector_result d ∧ d_label d ≠ "0")
              (Coordinator.confidence_filter self
                 (Coordinator.all_detections self class_prompt
                    method_prompt (r_classes sliced_data)
                    (r_methods sliced_data)))).
  { apply Forall_forall. intros d [_ Hd]%list_elem_of_filter.
    revert d Hd. apply Forall_forall, all_detections_detector_result. }
  destruct source_file_content as [[|c s]|]; try exact Hfiltered.
  eapply Forall_detection_core; [|apply post_process_core|exact Hfiltered].
  intros d d' Hcore. unfold Spec.detector_result.
  unfold Spec.detection_core in Hcore.
  assert (d_type d' = d_type d) as -> by congruence.
  assert (d_label d' = d_label d) as -> by congruence.
  assert (d_debt_type d' = d_debt_type d) as -> by congruence.
  assert (d_confidence d' = d_confidence d) as -> by congruence.
  assert (d_granularity d' = d_granularity d) as -> by congruence.
  assert (d_error d' = d_error d) as -> by congruence.
  done.
Qed.

(** X15. In the report of a file, [filtered_detections] is the number of
    debts listed, equal to the summary's [total_debts] and at most
    [total_detections]; no listed debt has the label 0 or the type
    [No Smell].  When [min_confidence] is positive every listed debt comes
    from a reply of the model: it has no error and the granularity of its
    detector, so the counts of [by_granularity] add up to [total_debts].
    When [min_confidence] exceeds 0.5 every listed debt has a debt type:
    a reply without a valid digit is not reported. *)
Theorem analyze_file_report `{Sch : Coordinator.Scheduler}
    (self : Coordinator.coordinator) (class_prompt method_prompt : text)
    (explanation_prompt fix_prompt : detection -> text)
    (sliced_data : slice_result) (source_file_content : option text) :
  let analysis :=
    Coordinator.analyze_file self class_prompt method_prompt
      explanation_prompt fix_prompt sliced_data source_file_content in
  let debts := Coordinator.fa_debts analysis in
  let summary := Coordinator.fa_summary analysis in
  Coordinator.fa_file_path analysis = r_file_path sliced_data
  ∧ Coordinator.fa_filtered_detections analysis = length debts
  ∧ Coordinator.s_total_debts summary = length debts
  ∧ length debts <= Coordinator.fa_total_detections analysis
  ∧ Forall (fun d => d_label d ≠ "0" ∧ d_debt_type d ≠ Some "No Smell")
      debts
  ∧ ((0 < Coordinator.min_confidence self)%Q ->
     Forall Spec.answered debts
     ∧ Spec.dict_total (Coordinator.s_by_granularity summary)
       = length debts)
  ∧ ((0.5 < Coordinator.min_confidence self)%Q ->
     Forall (fun d => is_Some (d_debt_type d)) debts
     ∧ Coordinator.s_by_type summary !! None = None).
Proof.
  intros analysis debts summary.
  pose proof (analyze_file_detector_result self class_prompt method_prompt
                explanation_prompt fix_prompt sliced_data
                source_file_content) as Hresult.
  pose proof (analyze_file_debts_bound self class_prompt method_prompt
                explanation_prompt fix_prompt sliced_data
                source_file_content) as Hbound.
  fold analysis in Hresult, Hbound. fold debts in Hresult, Hbound.
  assert (Hsummary : summary = Coordinator._generate_summary debts)
    by reflexivity.
  assert (Hanswered : (0 < Coordinator.min_confidence self)%Q ->
                      Forall Spec.answered debts).
  { intros Hpos. apply Forall_forall. intros d Hd.
    apply (proj1 (Forall_forall _ _) Hresult) in Hd as Hr.
    apply (proj1 (Forall_forall _ _) Hbound) in Hd as Hb.
    destruct Hr as [(_ & Htype & Herror & _) _]. cbv beta in Hb.
    unfold Spec.answered. destruct (d_error d) as [e|]; [|done].
    rewrite Herror in Hb.
    pose proof (Qlt_le_trans _ _ _ Hpos Hb) as Hlt. by vm_compute in Hlt. }
  assert (Htyped : (0.5 < Coordinator.min_confidence self)%Q ->
                   Forall (fun d => is_Some (d_debt_type d)) debts).
  { intros Hpos. apply Forall_forall. intros d Hd.
    apply (proj1 (Forall_forall _ _) Hresult) in Hd as Hr.
    apply (proj1 (Forall_forall _ _) Hbound) in Hd as Hb.
    destruct Hr as [(_ & _ & _ & Hnone) _]. cbv beta in Hb.
    destruct (d_debt_type d) as [t|]; [by eexists|].
    specialize (Hnone eq_refl).
    pose proof (Qlt_le_trans _ _ _ Hpos Hb) as Hlt.
    pose proof (Qlt_le_trans _ _ _ Hlt Hnone) as Habs.
    by vm_compute in Habs. }
  split_and!.
  - done.
  - done.
  - rewrite Hsummary.
    by destruct (generate_summary_fields debts) as (-> & _).
  - subst debts analysis. unfold Coordinator.analyze_file.
    cbn [Coordinator.fa_debts Coordinator.fa_total_detections].
    assert (Hle : forall l,
               length (Coordinator.confidence_filter self l) <= length l).
    { intros l. unfold Coordinator.confidence_filter. apply length_filter. }
    destruct source_file_content as [[|c s]|]; try apply Hle.
    unfold Coordinator._post_process. rewrite length_map. apply Hle.
  - eapply Forall_impl; [exact Hresult|].
    intros d [(Hsmell & _) Hlabel]. split; [done|].
    intros Htype. by apply Hlabel, Hsmell.
  - intros Hpos. specialize (Hanswered Hpos). split; [exact Hanswered|].
    rewrite Hsummary.
    destruct (generate_summary_fields debts) as (_ & _ & -> & _).
    rewrite fold_bump_known_total.
    rewrite filter_Forall_id; [done|].
    eapply Forall_impl; [exact Hanswered|].
    intros d (_ & -> & Htype). simpl.
    apply elem_of_cons in Htype as [->|Htype]; [by eexists|].
    apply list_elem_of_singleton in Htype as ->. by eexists.
  - intros Hpos. specialize (Htyped Hpos). split; [exact Htyped|].
    rewrite Hsummary, (generate_summary_by_type debts None).
    unfold Spec.count_where. rewrite filter_Forall_nil; [done|].
    eapply Forall_impl; [exact Htyped|].
    intros d [t Ht] Hnone. unfold Spec.of_type in Hnone. congruence.
Qed.

Lemma analyze_file_report_witness :
  let analysis :=
    @Coordinator.analyze_file Fixture.reversed Fixture.strict [] []
      (fun _ => []) (fun _ => []) Fixture.sliced (Some Fixture.Point_java) in
  (0.5 < Coordinator.min_confidence Fixture.strict)%Q
  ∧ length (Coordinator.fa_debts analysis) = 1
  ∧ Forall Spec.answered (Coordinator.fa_debts analysis)
  ∧ Forall (fun d => is_Some (d_debt_type d)) (Coordinator.fa_debts analysis)
  ∧ Spec.dict_total
      (Coordinator.s_by_granularity (Coordinator.fa_summary analysis))
    = length (Coordinator.fa_debts analysis).
Proof.
  intros analysis.
  destruct (@analyze_file_report Fixture.reversed Fixture.strict [] []
              (fun _ => []) (fun _ => []) Fixture.sliced
              (Some Fixture.Point_java))
    as (_ & _ & _ & _ & _ & Hpositive & Hstrict).
  assert (H0 : (0 < Coordinator.min_confidence Fixture.strict)%Q)
    by reflexivity.
  assert (H5 : (0.5 < Coordinator.min_confidence Fixture.strict)%Q)
    by reflexivity.
  destruct (Hpositive H0) as [Hanswered Htotal].
  destruct (Hstrict H5) as [Htyped _].
  split_and!; [exact H5|reflexivity|exact Hanswered|exact Htyped
              |exact Htotal].
Defined.

(** ** The aggregate of a directory *)

Lemma add_debts_fields (debts : list detection) (a : Guardian.aggregate) :
  Guardian.by_type (fold_left Guardian.add_debt debts a)
  = fold_left (fun m d => Coordinator.bump (d_debt_type d) m)
      debts (Guardian.by_type a)
  ∧ Guardian.by_granularity (fold_left Guardian.add_debt debts a)
    = fold_left
        (fun m d =>
           Coordinator.bump_known (default "unknown" (d_granularity d)) m)
        debts (Guardian.by_granularity a)
  ∧ Guardian.high_confidence_debts (fold_left Guardian.add_debt debts a)
    = Guardian.high_confidence_debts a
      + Spec.count_where Spec.high_confidence debts.
Proof.
  revert a. induction debts as [|d debts IH]; intros a.
  { cbn. split_and!; [done..|lia]. }
  cbn [fold_left]. destruct (IH (Guardian.add_debt a d)) as (-> & -> & ->).
  cbn [Guardian.add_debt Guardian.by_type Guardian.by_granularity
       Guardian.high_confidence_debts].
  split_and!; [done..|].
  unfold Spec.count_where. rewrite filter_cons.
  case_decide as Hd; unfold Spec.high_confidence in Hd.
  - rewrite Hd. simpl. lia.
  - apply not_true_is_false in Hd. rewrite Hd. lia.
Qed.

Lemma fold_add_file_fields (file_results : list Guardian.file_result)
    (a : Guardian.aggregate) (valid_files : nat) :
  Forall (fun r => Guardian.completed r = true) file_results ->
  let debts := concat (map Guardian.fr_debts file_results) in
  let a' := (fold_left Guardian.add_file file_results (a, valid_files)).1 in
  Guardian.by_type a'
  = fold_left (fun m d => Coordinator.bump (d_debt_type d) m)
      debts (Guardian.by_type a)
  ∧ Guardian.by_granularity a'
    = fold_left
        (fun m d =>
           Coordinator.bump_known (default "unknown" (d_granularity d)) m)
        debts (Guardian.by_granularity a)
  ∧ Guardian.high_confidence_debts a'
    = Guardian.high_confidence_debts a
      + Spec.count_where Spec.high_confidence debts.
Proof.
  intros Hall. revert a valid_files.
  induction Hall as [|r rs Hr _ IH]; intros a valid_files.
  { cbn. split_and!; [done..|lia]. }
  cbn [fold_left map concat]. cbv zeta in IH |- *.
  unfold Guardian.add_file at 2 4 6. rewrite Hr. cbn [negb].
  match goal with
  | |- context [fold_left Guardian.add_file rs
                  (fold_left Guardian.add_debt ?ds ?a0, ?v)] =>
      destruct (IH (fold_left Guardian.add_debt ds a0) v) as (-> & -> & ->);
      destruct (add_debts_fields ds a0) as (-> & -> & ->)
  end.
  cbn [Guardian.by_type Guardian.by_granularity
       Guardian.high_confidence_debts].
  rewrite !fold_left_app. split_and!; [done..|].
  unfold Spec.count_where. rewrite filter_app, length_app. lia.
Qed.

(** X16. The aggregate of a directory agrees with the summary of a file:
    its [total_debts], [by_type], [by_granularity] and
    [high_confidence_debts] are those of the summary computed over the
    debts of all completed files taken together, and [files_with_debts]
    exceeds neither the number of completed files nor [total_debts]. *)
Theorem aggregate_results_summary (file_results : list Guardian.file_result) :
  let valid := filter (fun r => Guardian.completed r = true) file_results in
  let debts := concat (map Guardian.fr_debts valid) in
  let a := Guardian._aggregate_results file_results in
  let s := Coordinator._generate_summary debts in
  Guardian.total_debts a = Coordinator.s_total_debts s
  ∧ Guardian.by_type a = Coordinator.s_by_type s
  ∧ Guardian.by_granularity a = Coordinator.s_by_granularity s
  ∧ Guardian.high_confidence_debts a = Coordinator.s_high_confidence s
  ∧ Guardian.files_with_debts a <= length valid
  ∧ Guardian.files_with_debts a <= Guardian.total_debts a.
Proof.
  intros valid debts a s. subst a s.
  unfold Guardian._aggregate_results.
  rewrite (fold_add_file_completed file_results). fold valid.
  assert (Hvalid : Forall (fun r => Guardian.completed r = true) valid).
  { apply Forall_forall. intros r Hr. subst valid.
    by apply list_elem_of_filter in Hr as [? _]. }
  destruct (fold_add_file_counters valid Guardian.aggregate_init 0 Hvalid)
    as (_ & Ht & Hf & _).
  destruct (fold_add_file_fields valid Guardian.aggregate_init 0 Hvalid)
    as (Hby_type & Hby_granularity & Hhigh).
  fold debts in Hby_type, Hby_granularity, Hhigh.
  destruct (generate_summary_fields debts) as (-> & -> & -> & ->).
  destruct (fold_left Guardian.add_file valid (Guardian.aggregate_init, 0))
    as [agg n].
  cbn [fst] in *. simpl in Ht, Hf.
  assert (Hlen : length debts
                 = sum_list (map (fun r => length (Guardian.fr_debts r))
                               valid)).
  { subst debts. clear. induction valid as [|r rs IH]; [done|].
    cbn [map concat sum_list sum_list_with]. rewrite length_app, IH.
    done. }
  assert (Hfiles : length (filter (fun r => Guardian.has_debts r = true)
                             valid)
                   <= sum_list (map (fun r => length (Guardian.fr_debts r))
                                  valid)).
  { clear. induction valid as [|r rs IH]; [done|].
    rewrite filter_cons. cbn [map sum_list sum_list_with].
    unfold sum_list, id in *.
    case_decide as Hr; [|lia].
    unfold Guardian.has_debts in Hr.
    destruct (Guardian.fr_debts r); [done|]. simpl. lia. }
  assert (Hfiles' : length (filter (fun r => Guardian.has_debts r = true)
                              valid) <= length valid)
    by apply length_filter.
  destruct (0 <? n);
    cbn [Guardian.total_debts Guardian.by_type Guardian.by_granularity
         Guardian.high_confidence_debts Guardian.files_with_debts];
    (split_and!; [lia|done|done|done|lia|lia]).
Qed.

(** ** The summary of a repository *)

Lemma add_counts_lookup `{Countable K} (counts total : gmap K nat) (k : K) :
  Coordinator.add_counts counts total !! k
  = match counts !! k with
    | Some c => Some (default 0 (total !! k) + c)
    | None => total !! k
    end.
Proof.
  revert k. unfold Coordinator.add_counts.
  apply (map_fold_weak_ind
           (fun (r m : gmap K nat) =>
              forall k, r !! k = match m !! k with
                                 | Some c => Some (default 0 (total !! k) + c)
                                 | None => total !! k
                                 end)).
  { intros k. by rewrite lookup_empty. }
  intros i x m r Hi IH k.
  destruct (decide (i = k)) as [<-|Hne].
  - rewrite !lookup_insert_eq. f_equal. by rewrite IH, Hi.
  - rewrite !lookup_insert_ne by done. apply IH.
Qed.

Lemma add_known_counts_lookup (counts total : gmap string nat) (k : string) :
  Coordinator.add_known_counts counts total !! k
  = match counts !! k, total !! k with
    | Some c, Some n => Some (n + c)
    | _, _ => total !! k
    end.
Proof.
  revert k. unfold Coordinator.add_known_counts.
  apply (map_fold_weak_ind
           (fun (r m : gmap string nat) =>
              forall k, r !! k = match m !! k, total !! k with
                                 | Some c, Some n => Some (n + c)
                                 | _, _ => total !! k
                                 end)).
  { intros k. by rewrite lookup_empty. }
  intros i x m r Hi IH k.
  pose proof (IH i) as Hri. rewrite Hi in Hri.
  destruct (decide (i = k)) as [<-|Hne].
  - rewrite Hri, lookup_insert_eq.
    destruct (total !! i) as [n|] eqn:E; [by rewrite lookup_insert_eq|].
    by rewrite Hri.
  - rewrite lookup_insert_ne by done.
    destruct (r !! i); [rewrite lookup_insert_ne by done|]; apply IH.
Qed.

Lemma count_where_app (P : detection -> Prop) `{forall d, Decision (P d)}
    (l1 l2 : list detection) :
  Spec.count_where P (l1 ++ l2)
  = Spec.count_where P l1 + Spec.count_where P l2.
Proof. unfold Spec.count_where. by rewrite filter_app, length_app. Qed.

(** The loop of [_aggregate_repo_summary] keeps the running summary equal
    to the counts of the debts seen so far. *)
Lemma add_summary_counts (debts : list detection)
    (total : Coordinator.repo_summary)
    (entry : Coordinator.repo_file_result) :
  Spec.summarised entry ->
  Coordinator.rs_total_debts total = length debts
  ∧ Spec.counts_by_type debts (Coordinator.rs_by_type total)
  ∧ Spec.counts_by_granularity debts (Coordinator.rs_by_granularity total)
  ∧ Coordinator.rs_high_confidence total
    = Spec.count_where Spec.high_confidence debts ->
  let debts' := debts ++ Spec.analysed_debts entry in
  let total' := Coordinator.add_summary total entry in
  Coordinator.rs_total_debts total' = length debts'
  ∧ Spec.counts_by_type debts' (Coordinator.rs_by_type total')
  ∧ Spec.counts_by_granularity debts' (Coordinator.rs_by_granularity total')
  ∧ Coordinator.rs_high_confidence total'
    = Spec.count_where Spec.high_confidence debts'
  ∧ Coordinator.rs_files_with_debts total'
    = Coordinator.rs_files_with_debts total
      + match Spec.analysed_debts entry with [] => 0 | _ => 1 end.
Proof.
  intros Hentry (Htotal & Htype & Hgran & Hhigh).
  destruct entry as [a|path e]; cbn [Spec.analysed_debts].
  2:{ cbv zeta. rewrite app_nil_r. cbn [Coordinator.add_summary].
      split_and!; [done..|lia]. }
  destruct Hentry as [Hsummary Hfiltered]. cbv zeta.
  cbn [Coordinator.add_summary Coordinator.rs_total_debts
       Coordinator.rs_by_type Coordinator.rs_by_granularity
       Coordinator.rs_high_confidence Coordinator.rs_files_with_debts].
  rewrite Hsummary.
  destruct (generate_summary_fields (Coordinator.fa_debts a))
    as (Hs1 & _ & _ & Hs4).
  rewrite Hs1, Hs4. split_and!.
  - rewrite length_app. lia.
  - intros debt_type.
    rewrite add_counts_lookup,
      (generate_summary_by_type (Coordinator.fa_debts a) debt_type),
      (Htype debt_type), count_where_app.
    destruct (Spec.count_where (Spec.of_type debt_type) debts),
      (Spec.count_where (Spec.of_type debt_type) (Coordinator.fa_debts a));
      simpl; f_equal; lia.
  - intros granularity.
    rewrite add_known_counts_lookup,
      (generate_summary_by_granularity (Coordinator.fa_debts a)
         granularity),
      (Hgran granularity), count_where_app.
    by case_decide.
  - rewrite count_where_app. lia.
  - destruct (Coordinator.fa_debts a); simpl; lia.
Qed.

Lemma aggregate_repo_summary_fold
    (file_results : list Coordinator.repo_file_result)
    (debts : list detection) (total : Coordinator.repo_summary) :
  Forall Spec.summarised file_results ->
  Coordinator.rs_total_debts total = length debts
  ∧ Spec.counts_by_type debts (Coordinator.rs_by_type total)
  ∧ Spec.counts_by_granularity debts (Coordinator.rs_by_granularity total)
  ∧ Coordinator.rs_high_confidence total
    = Spec.count_where Spec.high_confidence debts ->
  let debts' := debts ++ concat (map Spec.analysed_debts file_results) in
  let total' := fold_left Coordinator.add_summary file_results total in
  Coordinator.rs_total_debts total' = length debts'
  ∧ Spec.counts_by_type debts' (Coordinator.rs_by_type total')
  ∧ Spec.counts_by_granularity debts' (Coordinator.rs_by_granularity total')
  ∧ Coordinator.rs_high_confidence total'
    = Spec.count_where Spec.high_confidence debts'
  ∧ Coordinator.rs_files_with_debts total'
    = Coordinator.rs_files_with_debts total
      + length (filter (fun entry => Spec.analysed_debts entry ≠ [])
                  file_results).
Proof.
  intros Hall. revert debts total.
  induction Hall as [|entry entries Hentry _ IH]; intros debts total Hinv.
  { cbn. rewrite app_nil_r. destruct Hinv as (? & ? & ? & ?).
    split_and!; [done..|lia]. }
  destruct (add_summary_counts debts total entry Hentry Hinv)
    as (H1 & H2 & H3 & H4 & H5).
  destruct (IH (debts ++ Spec.analysed_debts entry)
              (Coordinator.add_summary total entry))
    as (G1 & G2 & G3 & G4 & G5); [by split_and!|].
  cbn [fold_left map concat]. cbv zeta. rewrite app_assoc.
  split_and!; [done..|].
  rewrite G5, H5, filter_cons.
  destruct (Spec.analysed_debts entry) eqn:E.
  - rewrite decide_False by (by intros ?). lia.
  - rewrite decide_True by done. simpl. lia.
Qed.

Lemma aggregate_repo_summary_totals
    (file_results : list Coordinator.repo_file_result) :
  Forall Spec.summarised file_results ->
  Coordinator.rs_total_debts
    (Coordinator._aggregate_repo_summary file_results)
  = length (concat (map Spec.analysed_debts file_results))
  ∧ Coordinator.rs_files_with_debts
      (Coordinator._aggregate_repo_summary file_results)
    = length (filter (fun entry => Spec.analysed_debts entry ≠ [])
                file_results).
Proof.
  intros Hall. unfold Coordinator._aggregate_repo_summary.
  match goal with
  | |- context [fold_left Coordinator.add_summary file_results ?init] =>
      destruct (aggregate_repo_summary_fold file_results [] init Hall)
        as (H1 & _ & _ & _ & H5)
  end.
  { split_and!; [done| | |done].
    - intros debt_type. cbn [Coordinator.rs_by_type].
      by rewrite lookup_empty.
    - intros granularity. cbn [Coordinator.rs_by_granularity].
      case_decide as Hin.
      + apply elem_of_cons in Hin as [->|Hin]; [done|].
        by apply list_elem_of_singleton in Hin as ->.
      + rewrite lookup_insert_ne, lookup_singleton_ne; [done|..];
          intros <-; apply Hin; in_list. }
  split; [exact H1|exact H5].
Qed.

(** X17. The summary of a repository agrees with the summary of a file:
    when every analysed entry carries the summary of its own debts, as the
    entries [analyze_repository] appends do, [total_debts], [by_type],
    [by_granularity] and [high_confidence] are those of the summary
    computed over the debts of all analysed files taken together, entries
    with an error contribute nothing, and [files_with_debts] is the number
    of entries with at least one debt. *)
Theorem aggregate_repo_summary_counts
    (file_results : list Coordinator.repo_file_result) :
  Forall Spec.summarised file_results ->
  let debts := concat (map Spec.analysed_debts file_results) in
  let total := Coordinator._aggregate_repo_summary file_results in
  let s := Coordinator._generate_summary debts in
  Coordinator.rs_total_debts total = Coordinator.s_total_debts s
  ∧ Coordinator.rs_by_type total = Coordinator.s_by_type s
  ∧ Coordinator.rs_by_granularity total = Coordinator.s_by_granularity s
  ∧ Coordinator.rs_high_confidence total = Coordinator.s_high_confidence s
  ∧ Coordinator.rs_files_with_debts total
    = length (filter (fun entry => Spec.analysed_debts entry ≠ [])
                file_results).
Proof.
  intros Hall debts total s. subst total s.
  unfold Coordinator._aggregate_repo_summary.
  match goal with
  | |- context [fold_left Coordinator.add_summary file_results ?init] =>
      destruct (aggregate_repo_summary_fold file_results [] init Hall)
        as (H1 & H2 & H3 & H4 & H5)
  end.
  { split_and!; [done| | |done].
    - intros debt_type. cbn [Coordinator.rs_by_type].
      by rewrite lookup_empty.
    - intros granularity. cbn [Coordinator.rs_by_granularity].
      case_decide as Hin.
      + apply elem_of_cons in Hin as [->|Hin]; [done|].
        by apply list_elem_of_singleton in Hin as ->.
      + rewrite lookup_insert_ne, lookup_singleton_ne; [done|..];
          intros <-; apply Hin; in_list. }
  cbn [app] in H1, H2, H3, H4. fold debts in H1, H2, H3, H4.
  destruct (generate_summary_fields debts) as (-> & _ & _ & ->).
  split_and!; [exact H1| | |exact H4|exact H5].
  - apply map_eq. intros debt_type.
    by rewrite (H2 debt_type), (generate_summary_by_type debts debt_type).
  - apply map_eq. intros granularity.
    by rewrite (H3 granularity),
      (generate_summary_by_granularity debts granularity).
Qed.

Lemma aggregate_repo_summary_counts_witness :
  let analysis :=
    @Coordinator.analyze_file Fixture.reversed Fixture.strict [] []
      (fun _ => []) (fun _ => []) Fixture.sliced (Some Fixture.Point_java) in
  let file_results :=
    [Coordinator.Analysed analysis;
     Coordinator.Failed "Missing.java" "No such file or directory"] in
  Forall Spec.summarised file_results
  ∧ Coordinator.rs_by_type
      (Coordinator._aggregate_repo_summary file_results)
    = Coordinator.s_by_type
        (Coordinator._generate_summary (Coordinator.fa_debts analysis ++ []))
  ∧ Coordinator.rs_files_with_debts
      (Coordinator._aggregate_repo_summary file_results) = 1.
Proof.
  intros analysis file_results.
  assert (Hall : Forall Spec.summarised file_results).
  { repeat constructor. }
  destruct (aggregate_repo_summary_counts file_results Hall)
    as (_ & Htype & _ & _ & Hfiles).
  split_and!; [exact Hall|exact Htype|exact Hfiles].
Defined.

Section Repository.
Context `{Sch : Coordinator.Scheduler} `{RE : Regex} `{JP : JavaParser}
  `{FS : FileSystem}.
Variable self : Coordinator.coordinator.
Variables class_prompt method_prompt : text.
Variables explanation_prompt fix_prompt : detection -> text.
Variable slicer : ProgramSlicerAgent.

Local Abbreviation analyze_path :=
  (Coordinator.analyze_path self class_prompt method_prompt
     explanation_prompt fix_prompt slicer).

Local Abbreviation entry_of :=
  (fun file_path => Spec.repo_entry file_path (analyze_path file_path)).

Lemma analyze_path_summarised (file_path : string) :
  Spec.summarised (entry_of file_path).
Proof.
  unfold Coordinator.analyze_path. cbv zeta.
  destruct (read_text file_path); simpl; done.
Qed.

Lemma analyze_repository_loop (all_files : list string)
    (r0 : Coordinator.repo_results) :
  let r :=
    fold_left
      (fun repo_results file_path =>
         match analyze_path file_path with
         | inl file_result =>
             {| Coordinator.rr_repo_path :=
                  Coordinator.rr_repo_path repo_results;
                Coordinator.rr_total_files :=
                  Coordinator.rr_total_files repo_results;
                Coordinator.rr_analyzed_files :=
                  Coordinator.rr_analyzed_files repo_results + 1;
                Coordinator.rr_total_debts :=
                  Coordinator.rr_total_debts repo_results
                  + Coordinator.fa_filtered_detections file_result;
                Coordinator.rr_file_results :=
                  Coordinator.rr_file_results repo_results
                  ++ [Coordinator.Analysed file_result];
                Coordinator.rr_summary :=
                  Coordinator.rr_summary repo_results |}
         | inr e =>
             {| Coordinator.rr_repo_path :=
                  Coordinator.rr_repo_path repo_results;
                Coordinator.rr_total_files :=
                  Coordinator.rr_total_files repo_results;
                Coordinator.rr_analyzed_files :=
                  Coordinator.rr_analyzed_files repo_results;
                Coordinator.rr_total_debts :=
                  Coordinator.rr_total_debts repo_results;
                Coordinator.rr_file_results :=
                  Coordinator.rr_file_results repo_results
                  ++ [Coordinator.Failed file_path e];
                Coordinator.rr_summary :=
                  Coordinator.rr_summary repo_results |}
         end)
      all_files r0 in
  Coordinator.rr_repo_path r = Coordinator.rr_repo_path r0
  ∧ Coordinator.rr_total_files r = Coordinator.rr_total_files r0
  ∧ Coordinator.rr_file_results r
    = Coordinator.rr_file_results r0 ++ map entry_of all_files
  ∧ Coordinator.rr_analyzed_files r
    = Coordinator.rr_analyzed_files r0
      + length (filter (fun entry => Spec.is_analysed entry = true)
                  (map entry_of all_files))
  ∧ Coordinator.rr_total_debts r
    = Coordinator.rr_total_debts r0
      + length (concat (map Spec.analysed_debts (map entry_of all_files))).
Proof.
  revert r0. induction all_files as [|file_path files IH]; intros r0.
  { cbn. rewrite app_nil_r. split_and!; [done..|lia|lia]. }
  cbn [fold_left]. cbv zeta in IH |- *.
  match goal with
  | |- context [fold_left _ files ?r1] =>
      destruct (IH r1) as (-> & -> & -> & -> & ->)
  end.
  clear IH. cbn [map concat]. rewrite filter_cons, length_app.
  pose proof (analyze_path_summarised file_path) as Hentry.
  cbv beta in Hentry. revert Hentry.
  destruct (analyze_path file_path) as [a|e]; intros Hentry;
    cbn [Spec.repo_entry Spec.is_analysed Spec.analysed_debts
         Spec.summarised Coordinator.rr_repo_path Coordinator.rr_total_files
         Coordinator.rr_file_results Coordinator.rr_analyzed_files
         Coordinator.rr_total_debts] in *.
  - destruct Hentry as [_ ->]. rewrite decide_True by done.
    rewrite <- app_assoc. simpl. split_and!; [done..|lia|lia].
  - rewrite decide_False by done.
    rewrite <- app_assoc. simpl. split_and!; [done..|lia|lia].
Qed.

End Repository.

(** X18. The result of a repository analysis is consistent: [file_results]
    has one entry per matched file, in order; the entry of a file that can
    be read is the analysis of its slices with its content, and the entry of
    any other file carries its path and the error; [total_files] is the
    number of entries and [analyzed_files] the number of them without an
    error; [total_debts] is the number of debts listed in the entries and
    equals the summary's [total_debts]; and the summary counts no more
    files with debts than were analysed. *)
Theorem analyze_repository_counts `{Sch : Coordinator.Scheduler}
    `{RE : Regex} `{JP : JavaParser} `{FS : FileSystem}
    (self : Coordinator.coordinator) (class_prompt method_prompt : text)
    (explanation_prompt fix_prompt : detection -> text)
    (slicer : ProgramSlicerAgent) (repo_path : string)
    (file_patterns : list string) :
  let all_files := concat (map (glob repo_path) file_patterns) in
  let results :=
    Coordinator.analyze_repository self class_prompt method_prompt
      explanation_prompt fix_prompt slicer repo_path file_patterns in
  let entries := Coordinator.rr_file_results results in
  Coordinator.rr_repo_path results = repo_path
  ∧ Coordinator.rr_total_files results = length entries
  ∧ Forall2
      (fun file_path entry =>
         match read_text file_path with
         | inl source_content =>
             entry
             = Coordinator.Analysed
                 (Coordinator.analyze_file self class_prompt method_prompt
                    explanation_prompt fix_prompt
                    (slice_code slicer source_content file_path)
                    (Some source_content))
         | inr e => entry = Coordinator.Failed file_path e
         end)
      all_files entries
  ∧ Coordinator.rr_analyzed_files results
    = length (filter (fun entry => Spec.is_analysed entry = true) entries)
  ∧ Coordinator.rr_analyzed_files results
    <= Coordinator.rr_total_files results
  ∧ Coordinator.rr_total_debts results
    = length (concat (map Spec.analysed_debts entries))
  ∧ exists summary,
      Coordinator.rr_summary results = Some summary
      ∧ Coordinator.rs_total_debts summary
        = Coordinator.rr_total_debts results
      ∧ Coordinator.rs_files_with_debts summary
        <= Coordinator.rr_analyzed_files results.
Proof.
  intros all_files results entries. subst results entries.
  unfold Coordinator.analyze_repository. fold all_files. cbv zeta.
  cbn [Coordinator.rr_repo_path Coordinator.rr_total_files
       Coordinator.rr_file_results Coordinator.rr_analyzed_files
       Coordinator.rr_total_debts Coordinator.rr_summary].
  match goal with
  | |- context [fold_left _ all_files ?r0] =>
      destruct (analyze_repository_loop self class_prompt method_prompt
                  explanation_prompt fix_prompt slicer all_files r0)
        as (-> & -> & -> & -> & ->)
  end.
  cbn [Coordinator.rr_repo_path Coordinator.rr_total_files
       Coordinator.rr_file_results Coordinator.rr_analyzed_files
       Coordinator.rr_total_debts app].
  set (entry_of := fun file_path : string =>
         Spec.repo_entry file_path
           (Coordinator.analyze_path self class_prompt method_prompt
              explanation_prompt fix_prompt slicer file_path)).
  assert (Hall : Forall Spec.summarised (map entry_of all_files)).
  { apply Forall_map, Forall_forall. intros file_path _.
    apply analyze_path_summarised. }
  assert (Hanalysed :
            forall entries : list Coordinator.repo_file_result,
              length (filter (fun entry => Spec.analysed_debts entry ≠ [])
                        entries)
              <= length (filter (fun entry => Spec.is_analysed entry = true)
                           entries)).
  { induction entries as [|entry entries IH]; [done|].
    rewrite !filter_cons.
    destruct entry as [a|path e]; cbn [Spec.analysed_debts Spec.is_analysed].
    - rewrite (decide_True (P := true = true)) by done.
      case_decide; simpl; lia.
    - rewrite decide_False by (by intros ?).
      rewrite decide_False by done. exact IH. }
  destruct (aggregate_repo_summary_totals (map entry_of all_files) Hall)
    as (Htotal & Hfiles).
  split_and!.
  - done.
  - by rewrite length_map.
  - apply Forall2_fmap_r, Forall_Forall2_diag, Forall_forall.
    intros file_path _. subst entry_of. unfold compose. cbv beta.
    unfold Coordinator.analyze_path, slice_file. cbv zeta.
    by destruct (read_text file_path).
  - simpl. done.
  - simpl. etransitivity; [apply length_filter|].
    by rewrite length_map.
  - simpl. done.
  - eexists. split; [reflexivity|]. split.
    + by rewrite Htotal.
    + rewrite Hfiles. simpl. apply Hanalysed.
Qed.

(** ** Directories *)

Lemma analyze_directory_loop
    (try_analyze_file : string -> Guardian.analysis + string)
    (files : list string) (r0 : Guardian.directory_results) :
  let entry_of :=
    fun file_path =>
      Spec.directory_entry file_path (try_analyze_file file_path) in
  let r :=
    fold_left
      (fun results file_path =>
         match try_analyze_file file_path with
         | inl file_result =>
             {| Guardian.dr_directory := Guardian.dr_directory results;
                Guardian.dr_total_files := Guardian.dr_total_files results;
                Guardian.dr_analyzed_files :=
                  if Guardian.completed (Guardian.as_file_result file_result)
                  then Guardian.dr_analyzed_files results + 1
                  else Guardian.dr_analyzed_files results;
                Guardian.dr_failed_files :=
                  if Guardian.completed (Guardian.as_file_result file_result)
                  then Guardian.dr_failed_files results
                  else Guardian.dr_failed_files results + 1;
                Guardian.dr_file_results :=
                  Guardian.dr_file_results results ++ [file_result];
                Guardian.dr_aggregate_summary :=
                  Guardian.dr_aggregate_summary results |}
         | inr e =>
             {| Guardian.dr_directory := Guardian.dr_directory results;
                Guardian.dr_total_files := Guardian.dr_total_files results;
                Guardian.dr_analyzed_files :=
                  Guardian.dr_analyzed_files results;
                Guardian.dr_failed_files :=
                  Guardian.dr_failed_files results + 1;
                Guardian.dr_file_results :=
                  Guardian.dr_file_results results
                  ++ [Guardian.Failure file_path e];
                Guardian.dr_aggregate_summary :=
                  Guardian.dr_aggregate_summary results |}
         end)
      files r0 in
  Guardian.dr_directory r = Guardian.dr_directory r0
  ∧ Guardian.dr_total_files r = Guardian.dr_total_files r0
  ∧ Guardian.dr_file_results r
    = Guardian.dr_file_results r0 ++ map entry_of files
  ∧ Guardian.dr_analyzed_files r
    = Guardian.dr_analyzed_files r0
      + length (filter (fun entry => Spec.is_completed entry = true)
                  (map entry_of files))
  ∧ Guardian.dr_analyzed_files r + Guardian.dr_failed_files r
    = Guardian.dr_analyzed_files r0 + Guardian.dr_failed_files r0
      + length files.
Proof.
  intros entry_of. revert r0.
  induction files as [|file_path files IH]; intros r0.
  { cbn. rewrite app_nil_r. split_and!; [done..|lia|lia]. }
  cbn [fold_left]. cbv zeta in IH |- *.
  match goal with
  | |- context [fold_left _ files ?r1] =>
      destruct (IH r1) as (-> & -> & -> & -> & ->)
  end.
  clear IH. cbn [map]. rewrite filter_cons. subst entry_of. cbv beta.
  destruct (try_analyze_file file_path) as [[results|path e]|e];
    cbn [Spec.directory_entry Spec.is_completed Guardian.as_file_result
         Guardian.dr_directory Guardian.dr_total_files
         Guardian.dr_file_results Guardian.dr_analyzed_files
         Guardian.dr_failed_files];
    rewrite <- app_assoc.
  - rewrite (decide_True (P := true = true)) by done.
    change (Guardian.completed _) with true.
    simpl. split_and!; [done..|lia|lia].
  - rewrite (decide_False (P := false = true)) by done.
    change (Guardian.completed _) with false.
    simpl. split_and!; [done..|lia|lia].
  - rewrite (decide_False (P := false = true)) by done.
    simpl. split_and!; [done..|lia|lia].
Qed.

Lemma completed_as_file_result (entry : Guardian.analysis) :
  Guardian.completed (Guardian.as_file_result entry)
  = Spec.is_completed entry.
Proof. by destruct entry. Qed.

Lemma completed_file_results (entries : list Guardian.analysis) :
  filter (fun r => Guardian.completed r = true)
    (map Guardian.as_file_result entries)
  = map Guardian.as_file_result
      (filter (fun entry => Spec.is_completed entry = true) entries).
Proof.
  induction entries as [|entry entries IH]; [done|].
  cbn [map]. rewrite !filter_cons, completed_as_file_result, IH.
  by destruct (Spec.is_completed entry).
Qed.

Lemma completed_debts_total (entries : list Guardian.analysis) :
  sum_list (map (fun r => length (Guardian.fr_debts r))
              (map Guardian.as_file_result entries))
  = length (concat (map Guardian.debts entries)).
Proof.
  induction entries as [|entry entries IH]; [done|].
  cbn [map concat]. rewrite length_app, <- IH.
  by destruct entry.
Qed.

(** X19. The result of a directory analysis is consistent, however the
    analysis of each file ends: [file_results] has one entry per matched
    file; [analyzed_files] is the number of completed entries and, with
    [failed_files], adds up to [total_files]; the aggregate counts the
    debts of the completed entries only, counts no more files with debts
    than were analysed, and its [average_debts_per_file] is 0.0 when no
    file was analysed and [total_debts / analyzed_files] otherwise. *)
Theorem analyze_directory_counts `{FS : FileSystem}
    (try_analyze_file : string -> Guardian.analysis + string)
    (directory file_extension : string) (recursive : bool) :
  let results :=
    Guardian.analyze_directory try_analyze_file directory file_extension
      recursive in
  let entries := Guardian.dr_file_results results in
  let completed :=
    filter (fun entry => Spec.is_completed entry = true) entries in
  Guardian.dr_directory results = directory
  ∧ Guardian.dr_total_files results = length entries
  ∧ Guardian.dr_analyzed_files results + Guardian.dr_failed_files results
    = Guardian.dr_total_files results
  ∧ Guardian.dr_analyzed_files results = length completed
  ∧ exists a,
      Guardian.dr_aggregate_summary results = Some a
      ∧ Guardian.total_debts a
        = length (concat (map Guardian.debts completed))
      ∧ Guardian.files_with_debts a <= Guardian.dr_analyzed_files results
      ∧ Guardian.average_debts_per_file a
        = if decide (Guardian.dr_analyzed_files results = 0) then 0.0%Q
          else (qn (Guardian.total_debts a)
                / qn (Guardian.dr_analyzed_files results))%Q.
Proof.
  intros results entries completed. subst completed entries results.
  unfold Guardian.analyze_directory. cbv zeta.
  cbn [Guardian.dr_directory Guardian.dr_total_files
       Guardian.dr_file_results Guardian.dr_analyzed_files
       Guardian.dr_failed_files Guardian.dr_aggregate_summary].
  match goal with
  | |- context [fold_left _ ?files ?r0] =>
      destruct (analyze_directory_loop try_analyze_file files r0)
        as (-> & -> & -> & -> & Hsum);
      rewrite Hsum; clear Hsum;
      set (all_files := files)
  end.
  cbn [Guardian.dr_directory Guardian.dr_total_files
       Guardian.dr_file_results Guardian.dr_analyzed_files
       Guardian.dr_failed_files app].
  set (entries := map _ all_files).
  assert (Hlen : length entries = length all_files)
    by (subst entries; apply length_map).
  split_and!; [done|by rewrite Hlen|simpl; lia|done|].
  eexists. split; [reflexivity|].
  unfold Guardian._aggregate_results.
  rewrite (fold_add_file_completed (map Guardian.as_file_result entries)).
  rewrite completed_file_results.
  set (completed := filter _ entries).
  assert (Hvalid : Forall (fun r => Guardian.completed r = true)
                     (map Guardian.as_file_result completed)).
  { apply Forall_map, Forall_forall. intros entry Hin. cbv beta.
    rewrite completed_as_file_result. subst completed.
    by apply list_elem_of_filter in Hin as [? _]. }
  destruct (fold_add_file_counters _ Guardian.aggregate_init 0 Hvalid)
    as (Hn & Ht & Hf & Ha).
  rewrite completed_debts_total in Ht. rewrite length_map in Hn.
  pose proof (length_filter (fun r => Guardian.has_debts r = true)
                (map Guardian.as_file_result completed)) as Hfiles.
  rewrite length_map in Hfiles.
  destruct (fold_left Guardian.add_file _ (Guardian.aggregate_init, 0))
    as [agg n].
  simpl in Hn, Ht, Hf, Ha. subst n.
  destruct (length completed) as [|k] eqn:Hk; simpl.
  - split_and!; [done|lia|done].
  - split_and!; [done|lia|done].
Qed.

(** X20. The two entry points for one file agree.  For a file that can be
    read, [DebtGuardian.analyze_file] completes with the coordinator's
    analysis of the slices of its content, given that content as the
    source, and the loop of [analyze_repository] records the same analysis
    when it slices with the same settings; for a file that cannot be read,
    both record a failure with the path and the error of the read. *)
Theorem file_entry_points_agree `{Sch : Coordinator.Scheduler}
    `{RE : Regex} `{JP : JavaParser} `{FS : FileSystem}
    (slicer : ProgramSlicerAgent) (self : Coordinator.coordinator)
    (class_prompt method_prompt : text)
    (explanation_prompt fix_prompt : detection -> text)
    (file_path : string) :
  let by_guardian :=
    Guardian.analyze_file slicer self class_prompt method_prompt
      explanation_prompt fix_prompt file_path in
  let by_repository :=
    Spec.repo_entry file_path
      (Coordinator.analyze_path self class_prompt method_prompt
         explanation_prompt fix_prompt slicer file_path) in
  match read_text file_path with
  | inl source_content =>
      let results :=
        Coordinator.analyze_file self class_prompt method_prompt
          explanation_prompt fix_prompt
          (slice_code slicer source_content file_path)
          (Some source_content) in
      by_guardian = Guardian.Completed results
      ∧ by_repository = Coordinator.Analysed results
      ∧ Coordinator.fa_file_path results = file_path
  | inr e =>
      by_guardian = Guardian.Failure file_path e
      ∧ by_repository = Coordinator.Failed file_path e
  end.
Proof.
  cbv zeta.
  unfold Guardian.analyze_file, Coordinator.analyze_path, slice_file.
  cbv zeta. destruct (read_text file_path) as [source_content|e]; [|done].
  split_and!; [done..|].
  unfold Coordinator.analyze_file. cbn [Coordinator.fa_file_path].
  unfold slice_code. by destruct (parse_classes source_content).
Qed.

(** ** Locations in reports *)

Lemma all_detections_Forall `{Sch : Coordinator.Scheduler}
    (P : detection -> Prop) (self : Coordinator.coordinator)
    (class_prompt method_prompt : text) (classes : list class_unit)
    (methods : list method_unit) :
  (forall (detector : Agent) c,
      P (@ClassDebtDetector.detect detector class_prompt c)) ->
  (forall (detector : Agent) m,
      P (@MethodDebtDetector.detect detector method_prompt m)) ->
  Forall P
    (Coordinator.all_detections self class_prompt method_prompt
       classes methods).
Proof.
  intros Hclass Hmethod. apply Forall_forall. intros d Hd.
  rewrite all_detections_Permutation in Hd.
  apply list_elem_of_filter in Hd as [_ Hd]. revert d Hd.
  apply Forall_forall. unfold Spec.submitted_results.
  apply Forall_app. split.
  - destruct (Coordinator.class_detector self) as [detector|]; [|done].
    apply Forall_map, Forall_forall. intros c _. apply Hclass.
  - destruct (Coordinator.method_detector self) as [detector|]; [|done].
    apply Forall_app. split.
    + apply Forall_map, Forall_forall. intros m _. apply Hmethod.
    + apply Forall_concat, Forall_map, Forall_forall. intros c _.
      apply Forall_map, Forall_forall. intros m _. apply Hmethod.
Qed.

Lemma explain_frame `{A : Agent} (prompt : detection -> text)
    (d : detection) :
  d_code (ExplanationAgent.explain prompt d) = d_code d
  ∧ d_file_path (ExplanationAgent.explain prompt d) = d_file_path d
  ∧ d_location (ExplanationAgent.explain prompt d) = d_location d.
Proof. unfold ExplanationAgent.explain. by repeat case_match. Qed.

Lemma suggest_fix_frame `{A : Agent} (prompt : detection -> text)
    (d : detection) :
  d_code (FixSuggestionAgent.suggest_fix prompt d) = d_code d
  ∧ d_file_path (FixSuggestionAgent.suggest_fix prompt d) = d_file_path d
  ∧ d_location (FixSuggestionAgent.suggest_fix prompt d) = d_location d.
Proof. unfold FixSuggestionAgent.suggest_fix. by repeat case_match. Qed.

Lemma analyze_file_locations `{Sch : Coordinator.Scheduler}
    (self : Coordinator.coordinator) (class_prompt method_prompt : text)
    (explanation_prompt fix_prompt : detection -> text)
    (sliced_data : slice_result) (source_file_content : option text) :
  let analysis :=
    Coordinator.analyze_file self class_prompt method_prompt
      explanation_prompt fix_prompt sliced_data source_file_content in
  let attempted :=
    Coordinator.localizer self
    && nonempty (default [] source_file_content) in
  Forall (fun d =>
            d_code d = None ∧ d_file_path d = None
            ∧ d_location d
              = if attempted
                then Some (LocalizationAgent.error_location
                             "Missing code or source file" None)
                else None)
    (Coordinator.fa_debts analysis).
Proof.
  intros analysis attempted. subst analysis attempted.
  unfold Coordinator.analyze_file. cbn [Coordinator.fa_debts].
  assert (Hfresh :
            Forall (fun d => d_code d = None ∧ d_file_path d = None
                             ∧ d_location d = None)
              (Coordinator.confidence_filter self
                 (Coordinator.all_detections self class_prompt
                    method_prompt (r_classes sliced_data)
                    (r_methods sliced_data)))).
  { apply Forall_forall. intros d [_ Hd]%list_elem_of_filter.
    revert d Hd. apply Forall_forall, all_detections_Forall.
    - intros detector c. unfold ClassDebtDetector.detect.
      by case_match.
    - intros detector m. unfold MethodDebtDetector.detect.
      by case_match. }
  destruct source_file_content as [[|c s]|]; cbn [default nonempty].
  - rewrite andb_false_r. exact Hfresh.
  - unfold Coordinator._post_process. apply Forall_map.
    eapply Forall_impl; [exact Hfresh|].
    intros d (Hcode & Hpath & Hloc). cbv beta zeta.
    assert (Hlocalized :
              d_code (LocalizationAgent.localize d (c :: s)) = None
              ∧ d_file_path (LocalizationAgent.localize d (c :: s)) = None
              ∧ d_location (LocalizationAgent.localize d (c :: s))
                = Some (LocalizationAgent.error_location
                          "Missing code or source file" None)).
    { rewrite localize_without_code by done. done. }
    destruct (Coordinator.localizer self),
      (Coordinator.explainer self) as [e|],
      (Coordinator.fix_suggester self) as [f|];
      repeat match goal with
        | |- context [@FixSuggestionAgent.suggest_fix ?a ?p ?x] =>
            destruct (@suggest_fix_frame a p x) as (-> & -> & ->)
        | |- context [@ExplanationAgent.explain ?a ?p ?x] =>
            destruct (@explain_frame a p x) as (-> & -> & ->)
        end;
      done.
  - rewrite andb_false_r. exact Hfresh.
Qed.

(** X21. No debt in the report of a file gets line numbers.  The detectors
    do not copy the code or the file path of a unit into their results, so
    every listed debt has neither, and its location is the error marker
    [Missing code or source file] when a localizer is configured and the
    source content is not empty, and absent otherwise. *)
Theorem reported_debts_not_localized `{Sch : Coordinator.Scheduler}
    (self : Coordinator.coordinator) (class_prompt method_prompt : text)
    (explanation_prompt fix_prompt : detection -> text)
    (sliced_data : slice_result) (source_file_content : option text) :
  let analysis :=
    Coordinator.analyze_file self class_prompt method_prompt
      explanation_prompt fix_prompt sliced_data source_file_content in
  let attempted :=
    Coordinator.localizer self
    && nonempty (default [] source_file_content) in
  Forall (fun d =>
            d_code d = None ∧ d_file_path d = None
            ∧ d_location d
              = if attempted
                then Some (LocalizationAgent.error_location
                             "Missing code or source file" None)
                else None)
    (Coordinator.fa_debts analysis).
Proof.
  apply analyze_file_locations.
Qed.

(** ** The old format *)

Lemma category_int_range (debt : detection) :
  (0 <= Adapter.category_int debt <= 4)%Z.
Proof.
  unfold Adapter.category_int, Adapter.category_map.
  destruct (d_debt_type debt) as [debt_type|]; [|lia].
  repeat (rewrite lookup_insert; case_decide; [simpl; lia|]).
  rewrite lookup_singleton. case_decide; simpl; lia.
Qed.

Lemma convert_debt_cases (file_path : string)
    (converted : list Adapter.old_format) (debt : detection) :
  Adapter.convert_debt file_path converted debt
  = if decide (Spec.smelly debt)
    then match Adapter.localization debt with
         | Adapter.Returned _ =>
             Adapter.Returned (converted ++ [Spec.old_entry file_path debt])
         | Adapter.KeyError key => Adapter.KeyError key
         end
    else Adapter.Returned converted.
Proof.
  unfold Adapter.convert_debt, Spec.smelly. cbv zeta.
  destruct (Z.eqb_spec (Adapter.category_int debt) 0) as [Hz|Hnz].
  { by rewrite decide_False by (intros H; by apply H). }
  rewrite decide_True by done.
  unfold Adapter.localization, Spec.old_entry, Spec.line_numbers.
  destruct (d_location debt) as [location|]; [|done].
  destruct (loc_start_line location), (loc_end_line location); done.
Qed.

Lemma localization_returns (debt : detection) :
  Spec.lines_complete debt ->
  Adapter.localization debt = Adapter.Returned (Spec.line_numbers debt).
Proof.
  unfold Adapter.localization, Spec.lines_complete, Spec.line_numbers.
  destruct (d_location debt) as [location|]; [|done].
  destruct (loc_start_line location) as [start_line|]; [|done].
  intros Hend. by destruct Hend as [end_line ->].
Qed.

Lemma localization_raises (debt : detection) :
  ¬ Spec.lines_complete debt ->
  Adapter.localization debt = Adapter.KeyError "end_line".
Proof.
  unfold Adapter.localization, Spec.lines_complete.
  destruct (d_location debt) as [location|]; [|by intros []].
  destruct (loc_start_line location) as [start_line|].
  - destruct (loc_end_line location); [|done].
    intros []. by eexists.
  - intros []. by intros [? ?].
Qed.

Lemma convert_loop_complete (file_path : string) (debts : list detection)
    (converted : list Adapter.old_format) :
  Forall (fun debt => Spec.smelly debt -> Spec.lines_complete debt) debts ->
  Adapter.convert_loop file_path debts converted
  = Adapter.Returned
      (converted
       ++ map (Spec.old_entry file_path) (filter Spec.smelly debts)).
Proof.
  intros Hall. revert converted.
  induction Hall as [|debt debts Hdebt _ IH]; intros converted.
  { simpl. by rewrite app_nil_r. }
  cbn [Adapter.convert_loop]. rewrite convert_debt_cases, filter_cons.
  case_decide as Hsmelly; [|apply IH].
  rewrite (localization_returns debt (Hdebt Hsmelly)), IH, <- app_assoc.
  done.
Qed.

Lemma convert_loop_incomplete (file_path : string) (debts : list detection)
    (converted : list Adapter.old_format) :
  Exists (fun debt => Spec.smelly debt ∧ ¬ Spec.lines_complete debt) debts ->
  Adapter.convert_loop file_path debts converted
  = Adapter.KeyError "end_line".
Proof.
  intros Hex. revert converted.
  induction Hex as [debt debts [Hsmelly Hlines]|debt debts _ IH];
    intros converted; cbn [Adapter.convert_loop];
    rewrite convert_debt_cases.
  - rewrite decide_True by done. by rewrite localization_raises.
  - case_decide as Hsmelly; [|apply IH].
    destruct (Adapter.localization debt) as [x|key] eqn:E; [apply IH|].
    destruct (decide (Spec.lines_complete debt)) as [Hc|Hc].
    + by rewrite localization_returns in E.
    + rewrite localization_raises in E by done. congruence.
Qed.

(** X22. Converting a result to the old format keeps, in order, the debts
    whose type is one of the four smells and drops the others, provided
    every such debt whose location has a start line has an end line too:
    each entry holds the given file path, a category between 1 and 4, the
    same value as code type and granularity, and a code snippet of at most
    1000 characters.  If one of these debts has a start line without an end
    line, the conversion raises [KeyError] and returns nothing. *)
Theorem convert_to_old_format_entries (new_result : Guardian.analysis)
    (file_path : string) :
  let debts := Guardian.debts new_result in
  let converted :=
    map (Spec.old_entry file_path) (filter Spec.smelly debts) in
  (Forall (fun debt => Spec.smelly debt -> Spec.lines_complete debt) debts ->
   Adapter._convert_to_old_format new_result file_path
   = Adapter.Returned converted)
  ∧ (Exists (fun debt => Spec.smelly debt ∧ ¬ Spec.lines_complete debt)
       debts ->
     Adapter._convert_to_old_format new_result file_path
     = Adapter.KeyError "end_line")
  ∧ length converted <= length debts
  ∧ Forall (fun o =>
              Adapter.o_file_path o = file_path
              ∧ (1 <= Adapter.o_detected_category_int o <= 4)%Z
              ∧ Adapter.o_code_type o = Adapter.o_granularity o
              ∧ match Adapter.o_code_snippet o with
                | Some snippet => 0 < length snippet <= 1000
                | None => True
                end)
      converted.
Proof.
  intros debts converted. unfold Adapter._convert_to_old_format.
  fold debts. split_and!.
  - intros Hall. by rewrite convert_loop_complete.
  - apply convert_loop_incomplete.
  - subst converted. rewrite length_map. apply length_filter.
  - subst converted. apply Forall_map, Forall_forall.
    intros debt [Hsmelly _]%list_elem_of_filter.
    cbn [Spec.old_entry Adapter.o_file_path Adapter.o_code_type
         Adapter.o_detected_category_int Adapter.o_granularity
         Adapter.o_code_snippet].
    pose proof (category_int_range debt) as Hrange.
    unfold Spec.smelly in Hsmelly.
    split_and!; [done|lia|lia|done|].
    unfold Adapter.code_snippet.
    destruct (d_code debt) as [[|c s]|]; try done.
    rewrite length_take. cbn [length]. lia.
Qed.

Lemma convert_to_old_format_entries_witness :
  let new_result :=
    Guardian.Completed
      (@Coordinator.analyze_file Fixture.reversed Fixture.strict [] []
         (fun _ => []) (fun _ => []) Fixture.sliced
         (Some Fixture.Point_java)) in
  let unfinished :=
    Guardian.Completed
      {| Coordinator.fa_file_path := "Point.java";
         Coordinator.fa_total_detections := 1;
         Coordinator.fa_filtered_detections := 1;
         Coordinator.fa_debts :=
           [LocalizationAgent.set_location Fixture.getX_result
              {| loc_start_line := Some 3; loc_end_line := None;
                 loc_file_path := None; loc_approximate := None;
                 loc_error := None |}];
         Coordinator.fa_summary :=
           Coordinator._generate_summary [Fixture.getX_result] |} in
  Adapter._convert_to_old_format new_result "Point.java"
  = Adapter.Returned
      (map (Spec.old_entry "Point.java")
         (filter Spec.smelly (Guardian.debts new_result)))
  ∧ length (filter Spec.smelly (Guardian.debts new_result)) = 1
  ∧ Adapter._convert_to_old_format unfinished "Point.java"
    = Adapter.KeyError "end_line".
Proof.
  intros new_result unfinished. split_and!.
  - apply (proj1 (convert_to_old_format_entries new_result "Point.java")).
    constructor; [|constructor]. intros _. vm_compute.
    intros [line Hline]. discriminate.
  - reflexivity.
  - apply (proj1 (proj2 (convert_to_old_format_entries unfinished
                           "Point.java"))).
    apply Exists_cons_hd. split; [by vm_compute|].
    intros H. by destruct (H (mk_is_Some _ _ eq_refl)).
Defined.

Lemma analyze_file_Forall `{Sch : Coordinator.Scheduler}
    (P : detection -> Prop) (self : Coordinator.coordinator)
    (class_prompt method_prompt : text)
    (explanation_prompt fix_prompt : detection -> text)
    (sliced_data : slice_result) (source_file_content : option text) :
  (forall d d', Spec.detection_core d' = Spec.detection_core d ->
                P d -> P d') ->
  (forall (detector : Agent) c,
      P (@ClassDebtDetector.detect detector class_prompt c)) ->
  (forall (detector : Agent) m,
      P (@MethodDebtDetector.detect detector method_prompt m)) ->
  Forall P
    (Coordinator.fa_debts
       (Coordinator.analyze_file self class_prompt method_prompt
          explanation_prompt fix_prompt sliced_data source_file_content)).
Proof.
  intros Hcore Hclass Hmethod.
  unfold Coordinator.analyze_file. cbn [Coordinator.fa_debts].
  assert (Hfiltered :
            Forall P
              (Coordinator.confidence_filter self
                 (Coordinator.all_detections self class_prompt
                    method_prompt (r_classes sliced_data)
                    (r_methods sliced_data)))).
  { apply Forall_forall. intros d [_ Hd]%list_elem_of_filter.
    revert d Hd. by apply Forall_forall, all_detections_Forall. }
  destruct source_file_content as [[|c s]|]; try exact Hfiltered.
  eapply Forall_detection_core; [exact Hcore|apply post_process_core|].
  exact Hfiltered.
Qed.

Lemma filter_iff_Forall {A} (P Q : A -> Prop) `{forall x, Decision (P x)}
    `{forall x, Decision (Q x)} (l : list A) :
  Forall (fun x => P x <-> Q x) l -> filter P l = filter Q l.
Proof.
  induction 1 as [|x l Hx _ IH]; [done|].
  rewrite !filter_cons, IH.
  destruct (decide (P x)) as [HP|HP], (decide (Q x)) as [HQ|HQ];
    try done; exfalso; tauto.
Qed.

Lemma class_detect_category `{A : Agent} (prompt : text)
    (class_info : class_unit) :
  let d := ClassDebtDetector.detect prompt class_info in
  Adapter.category_int d = Spec.label_number (d_label d)
  ∧ (Adapter.category_int d = 0%Z ->
     d_debt_type d = None ∨ d_label d = "0").
Proof.
  unfold ClassDebtDetector.detect. cbv zeta.
  destruct (reply_content _) as [content|]; [|split; [done|by left]].
  pose proof (class_normalize_label_vocabulary (strip content)) as Hin.
  unfold Spec.class_labels in Hin.
  rewrite !elem_of_cons, elem_of_nil in Hin.
  destruct Hin as [->|[->|[->|[->|[]]]]];
    (split; [done|]); intros Hz; first [by left | by right | done].
Qed.

Lemma method_detect_category `{A : Agent} (prompt : text)
    (method_info : method_unit) :
  let d := MethodDebtDetector.detect prompt method_info in
  Adapter.category_int d = Spec.label_number (d_label d)
  ∧ (Adapter.category_int d = 0%Z ->
     d_debt_type d = None ∨ d_label d = "0").
Proof.
  unfold MethodDebtDetector.detect. cbv zeta.
  destruct (reply_content _) as [content|]; [|split; [done|by left]].
  pose proof (method_normalize_label_vocabulary (strip content)) as Hin.
  unfold Spec.method_labels in Hin.
  rewrite !elem_of_cons, elem_of_nil in Hin.
  destruct Hin as [->|[->|[->|[->|[]]]]];
    (split; [done|]); intros Hz; first [by left | by right | done].
Qed.

(** X23. The old-format conversion of a file's report never raises.  It
    keeps the debts that have a debt type, in order; the category number of
    every debt is the digit its label was read as (0 for [UNKNOWN]); and no
    entry has a localization or a code snippet, since no reported debt
    carries line numbers or code. *)
Theorem convert_reported_debts `{Sch : Coordinator.Scheduler}
    (self : Coordinator.coordinator) (class_prompt method_prompt : text)
    (explanation_prompt fix_prompt : detection -> text)
    (sliced_data : slice_result) (source_file_content : option text)
    (file_path : string) :
  let analysis :=
    Coordinator.analyze_file self class_prompt method_prompt
      explanation_prompt fix_prompt sliced_data source_file_content in
  let debts := Coordinator.fa_debts analysis in
  let converted :=
    map (Spec.old_entry file_path)
      (filter (fun d => is_Some (d_debt_type d)) debts) in
  Adapter._convert_to_old_format (Guardian.Completed analysis) file_path
  = Adapter.Returned converted
  ∧ Forall (fun d =>
              Adapter.category_int d = Spec.label_number (d_label d))
      debts
  ∧ Forall (fun o =>
              Adapter.o_localization o = None
              ∧ Adapter.o_code_snippet o = None)
      converted.
Proof.
  intros analysis debts converted.
  pose proof (analyze_file_locations self class_prompt method_prompt
                explanation_prompt fix_prompt sliced_data
                source_file_content) as Hlocation.
  cbv zeta in Hlocation. fold analysis in Hlocation. fold debts in Hlocation.
  pose proof (analyze_file_detector_result self class_prompt method_prompt
                explanation_prompt fix_prompt sliced_data
                source_file_content) as Hresult.
  fold analysis in Hresult. fold debts in Hresult.
  assert (Hnumber :
            Forall (fun d =>
                      Adapter.category_int d = Spec.label_number (d_label d)
                      ∧ (Adapter.category_int d = 0%Z ->
                         d_debt_type d = None ∨ d_label d = "0"))
              debts).
  { apply analyze_file_Forall.
    - intros d d' Hcore. unfold Adapter.category_int.
      unfold Spec.detection_core in Hcore.
      assert (d_label d' = d_label d) as -> by congruence.
      by assert (d_debt_type d' = d_debt_type d) as -> by congruence.
    - intros detector c. apply class_detect_category.
    - intros detector m. apply method_detect_category. }
  assert (Hsmelly : filter Spec.smelly debts
                    = filter (fun d => is_Some (d_debt_type d)) debts).
  { apply filter_iff_Forall, Forall_forall. intros d Hd.
    pose proof (proj1 (Forall_forall _ _) Hresult d Hd) as [_ Hlabel].
    pose proof (proj1 (Forall_forall _ _) Hnumber d Hd) as [_ Hzero].
    unfold Spec.smelly. split.
    - intros Hnz. unfold Adapter.category_int in Hnz.
      destruct (d_debt_type d) as [t|]; [by eexists|done].
    - intros [t Ht] Hz. destruct (Hzero Hz) as [Hnone|H0]; congruence. }
  split_and!.
  - subst converted. rewrite <- Hsmelly.
    unfold Adapter._convert_to_old_format.
    rewrite convert_loop_complete; [done|].
    eapply Forall_impl; [exact Hlocation|].
    intros d (_ & _ & Hloc) _. unfold Spec.lines_complete. rewrite Hloc.
    case_match; [|done]. by intros [? ?].
  - eapply Forall_impl; [exact Hnumber|]. by intros d (? & _).
  - subst converted. apply Forall_map, Forall_forall.
    intros d [_ Hd]%list_elem_of_filter.
    apply (proj1 (Forall_forall _ _) Hlocation) in Hd
      as (Hcode & _ & Hloc).
    cbn [Spec.old_entry Adapter.o_localization Adapter.o_code_snippet].
    unfold Spec.line_numbers, Adapter.code_snippet.
    rewrite Hcode, Hloc. by case_match.
Qed.

(** ** The old report *)

Lemma filter_map_comm {A B} (f : A -> B) (P : B -> Prop)
    `{forall y, Decision (P y)} (l : list A) :
  filter P (map f l) = map f (filter (fun x => P (f x)) l).
Proof.
  induction l as [|x l IH]; [done|].
  cbn [map]. rewrite !filter_cons, IH. by case_decide.
Qed.

(** The name of the category of a debt is its debt type, for the four
    smells; any other type has the category 0. *)
Lemma category_round_trip (debt : detection) :
  (Spec.smelly debt ->
   d_debt_type debt = Some (Spec.category_name (Adapter.category_int debt))
   ∧ Spec.category_name (Adapter.category_int debt) ∈ Spec.smells
   ∧ Spec.category_severity (Adapter.category_int debt)
     ∈ ["high"; "medium"])
  ∧ (¬ Spec.smelly debt ->
     forall name, name ∈ Spec.smells -> d_debt_type debt ≠ Some name).
Proof.
  unfold Spec.smelly, Adapter.category_int.
  destruct (d_debt_type debt) as [t|]; [|by split].
  assert (Hsmell : forall name c,
             Adapter.category_map !! name = Some c -> c ≠ 0%Z ->
             Spec.category_name c = name
             ∧ name ∈ Spec.smells
             ∧ Spec.category_severity c ∈ ["high"; "medium"]).
  { intros name c. unfold Adapter.category_map.
    rewrite lookup_insert. case_decide; [by intros [= <-]|].
    repeat (rewrite lookup_insert; case_decide;
            [intros [= <-] _; subst; split_and!; [done|in_list..]|]).
    rewrite lookup_singleton. case_decide; [|done].
    intros [= <-] _; subst; split_and!; [done|in_list..]. }
  destruct (Adapter.category_map !! t) as [c|] eqn:Ec; cbn [from_option id].
  - split.
    + intros Hnz. destruct (Hsmell t c Ec Hnz) as (-> & ? & ?). done.
    + intros Hz name Hin [= ->]. apply Hz. intros ->.
      unfold Adapter.category_map, Spec.smells in *.
      rewrite !elem_of_cons, elem_of_nil in Hin.
      destruct Hin as [->|[->|[->|[->|[]]]]]; by vm_compute in Ec.
  - split; [done|]. intros _ name Hin [= ->].
    unfold Adapter.category_map, Spec.smells in *.
    rewrite !elem_of_cons, elem_of_nil in Hin.
    destruct Hin as [->|[->|[->|[->|[]]]]]; by vm_compute in Ec.
Qed.

(** The loop of [generate_report] on results that all have a positive
    category, one field at a time. *)
Lemma generate_report_loop (results : list Adapter.old_format)
    (r0 : Adapter.report) :
  Forall (fun o => (0 < Adapter.o_detected_category_int o)%Z) results ->
  let r :=
    fold_left
      (fun r result =>
         let cat := Adapter.o_detected_category_int result in
         if (0 <? cat)%Z then
           let cat_info := default ∅ (Config.TD_CATEGORIES !! cat) in
           let cat_name := default "Unknown" (cat_info !! "name") in
           let severity := default "low" (cat_info !! "severity") in
           {| Adapter.total_issues := Adapter.total_issues r;
              Adapter.by_category :=
                Coordinator.bump cat_name (Adapter.by_category r);
              Adapter.by_severity :=
                Coordinator.bump severity (Adapter.by_severity r);
              Adapter.by_granularity :=
                Coordinator.bump_known (Adapter.o_granularity result)
                  (Adapter.by_granularity r) |}
         else r)
      results r0 in
  Adapter.total_issues r = Adapter.total_issues r0
  ∧ Adapter.by_category r
    = fold_left
        (fun m o =>
           Coordinator.bump
             (Spec.category_name (Adapter.o_detected_category_int o)) m)
        results (Adapter.by_category r0)
  ∧ Adapter.by_severity r
    = fold_left
        (fun m o =>
           Coordinator.bump
             (Spec.category_severity (Adapter.o_detected_category_int o)) m)
        results (Adapter.by_severity r0)
  ∧ Adapter.by_granularity r
    = fold_left
        (fun m o => Coordinator.bump_known (Adapter.o_granularity o) m)
        results (Adapter.by_granularity r0).
Proof.
  intros Hall. revert r0.
  induction Hall as [|o results Ho _ IH]; intros r0; [done|].
  cbn [fold_left]. cbv zeta in IH |- *.
  apply Z.ltb_lt in Ho. rewrite Ho.
  match goal with
  | |- context [fold_left _ results ?r1] =>
      destruct (IH r1) as (-> & -> & -> & ->)
  end.
  done.
Qed.

Lemma generate_report_fields (results : list Adapter.old_format) :
  Forall (fun o => (0 < Adapter.o_detected_category_int o)%Z) results ->
  let r := Adapter.generate_report results in
  Adapter.total_issues r = length results
  ∧ Adapter.by_category r
    = fold_left
        (fun m o =>
           Coordinator.bump
             (Spec.category_name (Adapter.o_detected_category_int o)) m)
        results ∅
  ∧ Adapter.by_severity r
    = fold_left
        (fun m o =>
           Coordinator.bump
             (Spec.category_severity (Adapter.o_detected_category_int o)) m)
        results {[ "high" := 0; "medium" := 0; "low" := 0 ]}
  ∧ Adapter.by_granularity r
    = fold_left
        (fun m o => Coordinator.bump_known (Adapter.o_granularity o) m)
        results {[ "class" := 0; "method" := 0 ]}.
Proof. intros Hall. by apply generate_report_loop. Qed.

(** X24. The old report agrees with the new summary.  For the entries
    converted from any list of debts, [total_issues] is their number and
    the counts of [by_category] and of [by_severity] each add up to it;
    [by_category] gives every smell the count that the coordinator's
    summary of the debts gives it in [by_type], and has no other key;
    no entry is counted as [low] severity; and the counts of
    [by_granularity] add up to at most [total_issues]. *)
Theorem generate_report_of_converted (debts : list detection)
    (file_path : string) :
  let converted :=
    map (Spec.old_entry file_path) (filter Spec.smelly debts) in
  let r := Adapter.generate_report converted in
  let s := Coordinator._generate_summary debts in
  Adapter.total_issues r = length converted
  ∧ Spec.dict_total (Adapter.by_category r) = length converted
  ∧ Spec.dict_total (Adapter.by_severity r) = length converted
  ∧ Adapter.by_severity r !! "low" = Some 0
  ∧ (forall name,
        Adapter.by_category r !! name
        = if decide (name ∈ Spec.smells)
          then Coordinator.s_by_type s !! Some name
          else None)
  ∧ Spec.dict_total (Adapter.by_granularity r) <= length converted.
Proof.
  intros converted r s.
  assert (Hsmelly : Forall Spec.smelly (filter Spec.smelly debts)).
  { apply Forall_forall. by intros d [? _]%list_elem_of_filter. }
  assert (Hpos : Forall (fun o => (0 < Adapter.o_detected_category_int o)%Z)
                   converted).
  { subst converted. apply Forall_map.
    eapply Forall_impl; [exact Hsmelly|]. intros d Hd.
    cbn [Spec.old_entry Adapter.o_detected_category_int].
    pose proof (category_int_range d). unfold Spec.smelly in Hd. lia. }
  destruct (generate_report_fields converted Hpos)
    as (Htotal & Hcategory & Hseverity & Hgranularity).
  fold r in Htotal, Hcategory, Hseverity, Hgranularity.
  split_and!.
  - exact Htotal.
  - by rewrite Hcategory, fold_bump_total.
  - by rewrite Hseverity, fold_bump_total.
  - rewrite Hseverity, fold_bump_lookup.
    change (({[ "high" := 0; "medium" := 0; "low" := 0 ]}
             : gmap string nat) !! "low") with (Some 0).
    rewrite filter_Forall_nil; [done|].
    subst converted. apply Forall_map.
    eapply Forall_impl; [exact Hsmelly|]. intros d Hd.
    cbn [Spec.old_entry Adapter.o_detected_category_int].
    destruct (proj1 (category_round_trip d) Hd) as (_ & _ & Hsev).
    intros Hlow. rewrite Hlow in Hsev.
    rewrite !elem_of_cons, elem_of_nil in Hsev.
    by destruct Hsev as [?|[?|[]]].
  - intros name. rewrite Hcategory, fold_bump_lookup, lookup_empty.
    subst converted. rewrite filter_map_comm, length_map.
    cbn [Spec.old_entry Adapter.o_detected_category_int].
    rewrite list_filter_filter.
    case_decide as Hin.
    + subst s. rewrite (generate_summary_by_type debts (Some name)).
      unfold Spec.count_where. f_equal. f_equal.
      apply list_filter_iff. intros d. unfold Spec.of_type. split.
      * intros [<- Hd]. by destruct (proj1 (category_round_trip d) Hd).
      * intros Htype. destruct (decide (Spec.smelly d)) as [Hd|Hd].
        -- destruct (proj1 (category_round_trip d) Hd) as (Ht & _).
           split; [congruence|done].
        -- by destruct (proj2 (category_round_trip d) Hd name Hin).
    + rewrite filter_Forall_nil; [done|].
      apply Forall_forall. intros d _ [<- Hd]. apply Hin.
      by destruct (proj1 (category_round_trip d) Hd) as (_ & ? & _).
  - rewrite Hgranularity, fold_bump_known_total. apply length_filter.
Qed.

(** ** The pipeline of the old backend *)

Lemma convert_to_old_format_cases (new_result : Guardian.analysis)
    (file_path : string) :
  Adapter._convert_to_old_format new_result file_path
  = Adapter.Returned
      (map (Spec.old_entry file_path)
         (filter Spec.smelly (Guardian.debts new_result)))
  ∨ Adapter._convert_to_old_format new_result file_path
    = Adapter.KeyError "end_line".
Proof.
  unfold Adapter._convert_to_old_format.
  destruct (Forall_Exists_dec
              (fun debt => Spec.smelly debt -> Spec.lines_complete debt)
              (fun debt => Spec.smelly debt ∧ ¬ Spec.lines_complete debt)
              (fun debt =>
                 match decide (Spec.smelly debt),
                       decide (Spec.lines_complete debt) with
                 | left Hs, right Hl => right (conj Hs Hl)
                 | right Hs, _ => left (fun H => False_ind _ (Hs H))
                 | _, left Hl => left (fun _ => Hl)
                 end)
              (Guardian.debts new_result)) as [Hall|Hex].
  - left. by rewrite convert_loop_complete.
  - right. by apply convert_loop_incomplete.
Qed.

Lemma fold_left_extend {A B} (f : A -> list B) (l : list A)
    (acc : list B) :
  fold_left (fun acc x => acc ++ f x) l acc = acc ++ concat (map f l).
Proof.
  revert acc. induction l as [|x l IH]; intros acc; simpl.
  - by rewrite app_nil_r.
  - by rewrite IH, app_assoc.
Qed.

Lemma elem_of_concat {A} (x : A) (ls : list (list A)) :
  x ∈ concat ls -> exists l, x ∈ l ∧ l ∈ ls.
Proof.
  induction ls as [|l ls IH]; simpl; [by intros ?%elem_of_nil|].
  intros [Hl|Hls]%elem_of_app.
  - exists l. split; [done|apply list_elem_of_here].
  - destruct (IH Hls) as (l' & ? & ?). exists l'.
    split; [done|by apply list_elem_of_further].
Qed.

Lemma fold_left_pointwise {A B} (f g : B -> A -> B) (l : list A) (b : B) :
  (forall acc x, f acc x = g acc x) -> fold_left f l b = fold_left g l b.
Proof.
  intros Hfg. revert b. induction l as [|x l IH]; intros b; [done|].
  simpl. by rewrite Hfg, IH.
Qed.

(** X25. The pipeline of the old backend collects, in the order of the
    walk, the converted debts of every file with a supported extension; a
    file whose analysis or conversion raises adds nothing and does not
    stop the run.  Every entry has a category between 1 and 4 and the path
    of a walked file with a supported extension. *)
Theorem pipeline_analyze_repository (path_join : string -> string -> string)
    (try_analyze_file : string -> Guardian.analysis + string)
    (walk : list (string * list string)) :
  let files_to_analyze :=
    concat
      (map (fun '(root, files) =>
              map (path_join root)
                (filter (fun file => Adapter.supported file = true) files))
           walk) in
  let results :=
    Adapter.analyze_repository path_join try_analyze_file walk in
  results
  = concat (map (Spec.pipeline_entries try_analyze_file) files_to_analyze)
  ∧ Forall (fun o =>
              (1 <= Adapter.o_detected_category_int o <= 4)%Z
              ∧ exists root files file,
                  (root, files) ∈ walk ∧ file ∈ files
                  ∧ Adapter.supported file = true
                  ∧ Adapter.o_file_path o = path_join root file)
      results.
Proof.
  intros files_to_analyze results.
  assert (Hresults :
            results
            = concat (map (Spec.pipeline_entries try_analyze_file)
                        files_to_analyze)).
  { subst results. unfold Adapter.analyze_repository.
    fold files_to_analyze.
    rewrite <- (app_nil_l (concat _)), <- fold_left_extend.
    apply fold_left_pointwise. intros acc file_path.
    unfold Spec.pipeline_entries.
    destruct (try_analyze_file file_path) as [file_result|e];
      [|by rewrite app_nil_r].
    destruct (Adapter._convert_to_old_format _ _);
      [done|by rewrite app_nil_r]. }
  split; [exact Hresults|]. rewrite Hresults.
  apply Forall_concat, Forall_map, Forall_forall.
  intros file_path Hfile. subst files_to_analyze.
  apply elem_of_concat in Hfile as (paths & Hfile & Hpaths).
  apply list_elem_of_fmap in Hpaths as ([root files] & -> & Hwalk).
  apply list_elem_of_fmap in Hfile as (file & -> & Hsupported).
  apply list_elem_of_filter in Hsupported as [Hsupported Hin].
  unfold Spec.pipeline_entries.
  destruct (try_analyze_file _) as [file_result|e]; [|done].
  destruct (convert_to_old_format_cases file_result
              (path_join root file)) as [-> | ->]; [|done].
  apply Forall_map, Forall_forall.
  intros d [Hsmelly _]%list_elem_of_filter.
  cbn [Spec.old_entry Adapter.o_detected_category_int Adapter.o_file_path].
  pose proof (category_int_range d). unfold Spec.smelly in Hsmelly.
  split; [lia|]. by exists root, files, file.
Qed.

(** ** Construction *)

Lemma agents_constructed (agent_config : gmap string pyval) :
  (exists self, MethodDebtDetector.new agent_config = Ok self)
  ∧ (exists self, LocalizationAgent.new agent_config = Ok self)
  ∧ (exists self, ExplanationAgent.new agent_config = Ok self)
  ∧ (exists self, FixSuggestionAgent.new agent_config = Ok self).
Proof. split_and!; eexists; reflexivity. Qed.

(** X26. A coordinator is constructed from every configuration that
    disables the class detector.  Its [class_detector] is then [None];
    each of the method detector, the localizer and the explainer is an
    agent unless its section disables it, and the fix suggester is an agent
    only if its section enables it; and [min_confidence] is the value of
    the coordinator section, 0.5 when it gives none. *)
Theorem coordinator_constructed
    (config : option (gmap string (gmap string pyval))) :
  let sections := default Config.AGENT_CONFIGS config in
  let enabled name dflt :=
    truthy (dict_get (Coordinator.section sections name) "enabled"
              (PBool dflt)) in
  let agent (self : gmap string pyval) attr cls (on : bool) :=
    if on then exists attrs, self !! attr = Some (PObject cls attrs)
    else self !! attr = Some PNone in
  enabled "class_detector" true = false ->
  exists self,
    Coordinator.new config = Ok self
    ∧ self !! "class_detector" = Some PNone
    ∧ agent self "method_detector" "MethodDebtDetector"
        (enabled "method_detector" true)
    ∧ agent self "localizer" "LocalizationAgent"
        (enabled "localization" true)
    ∧ agent self "explainer" "ExplanationAgent"
        (enabled "explanation" true)
    ∧ agent self "fix_suggester" "FixSuggestionAgent"
        (enabled "fix_suggestion" false)
    ∧ self !! "min_confidence"
      = Some (dict_get (Coordinator.section sections "coordinator")
                "min_confidence" (PFloat (0.5))).
Proof.
  intros sections enabled agent Hclass. subst enabled agent. cbv beta in *.
  unfold Coordinator.new, construct, Coordinator.__init__, bind, setattr.
  unfold Coordinator._initialize_agents, bind, Coordinator.when_enabled.
  fold sections. rewrite Hclass. unfold ret, Coordinator.set_new.
  destruct (agents_constructed
              (Coordinator.section sections "method_detector"))
    as ([m ->] & _).
  destruct (agents_constructed (Coordinator.section sections "localization"))
    as (_ & [l ->] & _).
  destruct (agents_constructed (Coordinator.section sections "explanation"))
    as (_ & _ & [e ->] & _).
  destruct (agents_constructed
              (Coordinator.section sections "fix_suggestion"))
    as (_ & _ & _ & [f ->]).
  destruct (truthy (dict_get (Coordinator.section sections "method_detector")
                      "enabled" (PBool true))),
    (truthy (dict_get (Coordinator.section sections "localization")
               "enabled" (PBool true))),
    (truthy (dict_get (Coordinator.section sections "explanation")
               "enabled" (PBool true))),
    (truthy (dict_get (Coordinator.section sections "fix_suggestion")
               "enabled" (PBool false)));
    eexists; (split; [reflexivity|]);
    split_and!; first [by simplify_map_eq | eexists; by simplify_map_eq].
Qed.

Lemma coordinator_constructed_witness :
  exists self,
    Coordinator.new
      (Some {[ "class_detector" := {[ "enabled" := PBool false ]} ]})
    = Ok self
    ∧ self !! "class_detector" = Some PNone
    ∧ (exists attrs,
          self !! "method_detector"
          = Some (PObject "MethodDebtDetector" attrs))
    ∧ self !! "fix_suggester" = Some PNone
    ∧ self !! "min_confidence" = Some (PFloat (0.5)).
Proof.
  pose proof (coordinator_constructed
                (Some {[ "class_detector" :=
                           {[ "enabled" := PBool false ]} ]})) as H.
  cbv zeta in H.
  destruct H as (self & Hnew & Hclass & Hmethod & _ & _ & Hfix & Hmin);
    [reflexivity|].
  exists self. split_and!; [exact Hnew|exact Hclass|exact Hmethod
                           |exact Hfix|exact Hmin].
Defined.

Lemma slicer_new_Ok (slicer_config : option (gmap string pyval)) :
  exists self, ProgramSlicer.new slicer_config = Ok self.
Proof. eexists. reflexivity. Qed.

(** X27. A slicer is constructed from every configuration.  Without a
    configuration, and with an empty one, it takes the settings of the
    shipped [program_slicer] section, where [max_class_loc] is 2000; with
    any other configuration each setting is the configuration's own value,
    and [True], 3 and 1000 for the keys it lacks. *)
Theorem slicer_constructed (slicer_config : option (gmap string pyval)) :
  let given :=
    match slicer_config with
    | Some d => if decide (d = ∅) then None else Some d
    | None => None
    end in
  exists self,
    ProgramSlicer.new slicer_config = Ok self
    ∧ match given with
      | None =>
          self !! "extract_metrics" = Some (PBool true)
          ∧ self !! "min_method_loc" = Some (PInt 3)
          ∧ self !! "max_class_loc" = Some (PInt 2000)
      | Some d =>
          self !! "config" = Some (PDict d)
          ∧ self !! "extract_metrics"
            = Some (dict_get d "extract_metrics" (PBool true))
          ∧ self !! "min_method_loc"
            = Some (dict_get d "min_method_loc" (PInt 3))
          ∧ self !! "max_class_loc"
            = Some (dict_get d "max_class_loc" (PInt 1000))
      end.
Proof.
  cbv zeta.
  unfold ProgramSlicer.new, construct, ProgramSlicer.__init__, bind, setattr.
  eexists. split; [reflexivity|].
  destruct slicer_config as [d|]; [|by split_and!].
  unfold ProgramSlicer.dict_or, truthy.
  case_decide as Hd.
  - subst d. rewrite bool_decide_eq_true_2 by done. by split_and!.
  - rewrite bool_decide_eq_false_2 by done. cbn [negb].
    split_and!; by simplify_map_eq.
Qed.

Lemma coordinator_new_raises
    (config : option (gmap string (gmap string pyval))) :
  truthy (dict_get
            (Coordinator.section (default Config.AGENT_CONFIGS config)
               "class_detector")
            "enabled" (PBool true)) = true ->
  Coordinator.new config = Raise (AttributeError "timeout").
Proof.
  intros Hen.
  unfold Coordinator.new, construct, Coordinator.__init__, bind, setattr.
  unfold Coordinator._initialize_agents, bind, Coordinator.when_enabled.
  by rewrite Hen.
Qed.

Lemma coordinator_new_Ok
    (config : option (gmap string (gmap string pyval))) :
  truthy (dict_get
            (Coordinator.section (default Config.AGENT_CONFIGS config)
               "class_detector")
            "enabled" (PBool true)) = false ->
  exists self, Coordinator.new config = Ok self.
Proof.
  intros Hen.
  unfold Coordinator.new, construct, Coordinator.__init__, bind, setattr.
  unfold Coordinator._initialize_agents, bind, Coordinator.when_enabled.
  rewrite Hen. unfold ret, Coordinator.set_new.
  repeat match goal with
    | |- context [if truthy ?v then _ else _] => destruct (truthy v)
    end;
    eexists; reflexivity.
Qed.

(** X28. A [DebtGuardian] given a dictionary as its configuration raises
    [AttributeError] on [AGENT_CONFIGS].  Given settings whose class
    detector section is enabled it raises [AttributeError] on [timeout]; so
    it does when no configuration is given, and so does the pipeline of
    the old backend, which constructs it that way.  Given settings that
    disable the class detector it is constructed, with the slicer of the
    [program_slicer] section, the coordinator of the settings, and the fix
    suggestions of the pipeline section, off when it has none. *)
Theorem guardian_constructed :
  let class_enabled agent_configs :=
    truthy (dict_get (Coordinator.section agent_configs "class_detector")
              "enabled" (PBool true)) in
  (forall d, Guardian.new (Some (Guardian.Dict d))
             = Raise (AttributeError "AGENT_CONFIGS"))
  ∧ (forall agent_configs pipeline_config,
        class_enabled agent_configs = true ->
        Guardian.new (Some (Guardian.Settings agent_configs pipeline_config))
        = Raise (AttributeError "timeout"))
  ∧ (forall agent_configs pipeline_config,
        class_enabled agent_configs = false ->
        exists self slicer coordinator,
          Guardian.new
            (Some (Guardian.Settings agent_configs pipeline_config))
          = Ok self
          ∧ ProgramSlicer.new
              (Some (default ∅ (agent_configs !! "program_slicer")))
            = Ok slicer
          ∧ self !! "slicer" = Some (PObject "ProgramSlicerAgent" slicer)
          ∧ Coordinator.new (Some agent_configs) = Ok coordinator
          ∧ self !! "coordinator"
            = Some (PObject "DebtDetectionCoordinator" coordinator)
          ∧ self !! "enable_fix_suggestion"
            = Some (dict_get (default ∅ pipeline_config)
                      "enable_fix_suggestion" (PBool false)))
  ∧ Guardian.new None = Raise (AttributeError "timeout")
  ∧ (forall mkdtemp repo_path output_dir,
        Adapter.create_pipeline mkdtemp repo_path output_dir
        = Raise (AttributeError "timeout")).
Proof.
  intros class_enabled. subst class_enabled. cbv beta.
  split_and!.
  - done.
  - intros agent_configs pipeline_config Hen.
    unfold Guardian.new, construct, Guardian.__init__, bind, setattr,
      Coordinator.set_new.
    cbn [default from_option id].
    destruct (slicer_new_Ok
                (Some (default ∅ (agent_configs !! "program_slicer"))))
      as (slicer & ->).
    by rewrite (coordinator_new_raises (Some agent_configs) Hen).
  - intros agent_configs pipeline_config Hen.
    unfold Guardian.new, construct, Guardian.__init__, bind, setattr,
      Coordinator.set_new.
    cbn [default from_option id].
    destruct (slicer_new_Ok
                (Some (default ∅ (agent_configs !! "program_slicer"))))
      as (slicer & Hslicer).
    destruct (coordinator_new_Ok (Some agent_configs) Hen)
      as (coordinator & Hcoordinator).
    rewrite Hslicer, Hcoordinator.
    eexists _, slicer, coordinator.
    split_and!; [reflexivity|done| |done| |]; by simplify_map_eq.
  - reflexivity.
  - intros mkdtemp repo_path output_dir. reflexivity.
Qed.

Lemma guardian_constructed_witness :
  Guardian.new (Some (Guardian.Settings Config.AGENT_CONFIGS None))
  = Raise (AttributeError "timeout")
  ∧ exists self,
      Guardian.new
        (Some (Guardian.Settings
                 {[ "class_detector" := {[ "enabled" := PBool false ]} ]}
                 None))
      = Ok self
      ∧ self !! "enable_fix_suggestion" = Some (PBool false).
Proof.
  pose proof guardian_constructed as H. cbv zeta beta in H.
  destruct H as (_ & Hraises & Hok & _). split.
  - apply Hraises. reflexivity.
  - destruct (Hok {[ "class_detector" := {[ "enabled" := PBool false ]} ]}
                None)
      as (self & slicer & coordinator & Hnew & _ & _ & _ & _ & Hfix);
      [reflexivity|].
    exists self. split; [exact Hnew|exact Hfix].
Defined.
